(** * DevInspect: the performance-metrics core

    A shallow embedding of [src/content/modules/performance.ts]: the Web
    Vitals observers, the vitals store, the metrics aggregator with its
    warning rules, and the five-second result cache.

    Modelling choices.
    - A JavaScript number is an exact rational ([Q]).  Byte counts and
      clock readings are integers; the vitals are finite durations and
      shift scores.  Binary64 rounding, [NaN] and the infinities are not
      modelled.  The theorems on the CLS total and on the byte totals of
      the warning rules are stated on the additions the code makes, in its
      order and from its initial value ([addedUp]); only auxiliary lemmas
      use the exact sum ([shiftTotal]).
    - The module-level [let]/[const] bindings of the source are the fields
      of one record, [World], threaded through a state-and-exception monad
      [JS]: a statement that throws leaves the mutations made so far.
    - What the platform answers (DOM queries, resource timing, observer
      support) is read from a [Browser] record, and a platform call that
      can throw returns an [outcome]; the reading of the clock is an
      argument of the lookup. *)

From Stdlib Require Import ZArith QArith Qround Qabs Bool List String Ascii Lia.
From Stdlib Require Import DecimalString.
Import ListNotations.

Local Open Scope string_scope.
Local Open Scope Z_scope.
Local Open Scope Q_scope.

(** ** Numbers *)

(** [x > y] on JavaScript numbers. *)
Definition Qgtb (x y : Q) : bool := negb (Qle_bool x y).

(** [a || b] on numbers: [a] unless it is falsy, that is zero. *)
Definition orNumber (a b : Q) : Q := if Qeq_bool a 0 then b else a.

(** [x || 0] where [x] may be [undefined]. *)
Definition orZero (x : option N) : Q :=
  match x with
  | Some n => inject_Z (Z.of_N n)
  | None => 0
  end.

(** Decimal digits of a natural number, as a template literal prints an
    array length. *)
Definition natToString (n : nat) : string :=
  NilZero.string_of_uint (Nat.to_uint n).

(** Decimal digits of a non-negative integer. *)
Definition digitsOf (z : Z) : string :=
  NilZero.string_of_uint (N.to_uint (Z.to_N z)).

Fixpoint zeros (k : nat) : string :=
  match k with
  | O => EmptyString
  | S k' => String "0"%char (zeros k')
  end.

(** ** Outcomes and the [JS] monad *)

Inductive outcome (A : Type) : Type :=
| Returned (a : A)
| Thrown (e : string).

Arguments Returned {A} a.
Arguments Thrown {A} e.

Definition returned {A} (o : outcome A) : Prop :=
  match o with
  | Returned _ => True
  | Thrown _ => False
  end.

(** ** Data model *)

Record PerformanceMetrics : Type := mkVitals {
  lcp : option Q;
  cls : Q;
  fid : option Q;
  inp : option Q;
  ttfb : option Q
}.

Inductive Severity : Type := high | medium | low.

Record PerformanceWarning : Type := mkWarning {
  title : string;
  solution : string;
  severity : Severity
}.

Record ExtendedPerformanceMetrics : Type := mkMetrics {
  vitals : PerformanceMetrics;
  totalNodes : nat;
  totalImages : nat;
  totalScripts : nat;
  totalStylesheets : nat;
  warnings : list PerformanceWarning
}.

(** The entry types the four observers subscribe to. *)
Inductive EntryType : Type :=
| largest_contentful_paint
| layout_shift
| first_input
| event.

Definition EntryType_eqb (a b : EntryType) : bool :=
  match a, b with
  | largest_contentful_paint, largest_contentful_paint => true
  | layout_shift, layout_shift => true
  | first_input, first_input => true
  | event, event => true
  | _, _ => false
  end.

Record LcpEntry : Type := { renderTime : Q; loadTime : Q }.
Record LayoutShift : Type := { hadRecentInput : bool; value : Q }.
Record FirstInput : Type := { processingStart : Q; startTime : Q }.
Record EventTiming : Type := { duration : Q }.
Record NavigationTiming : Type := { responseStart : Q; requestStart : Q }.

(** What [entryList.getEntries()] gives a callback: the call may throw, and
    an element of the array may be [null] or [undefined] ([None]). *)
Definition EntryList (E : Type) : Type := outcome (list (option E)).

Record Resource : Type := {
  initiatorType : string;
  transferSize : option N
}.

(** The module's state.  [observers] is the platform's list of live
    subscriptions created by this module, one element per successful
    [observe] call; [aggregatorCalls] is a spy that counts the entries into
    [calculatePerformanceMetrics] and is read by nothing in the program. *)
Record World : Type := mkWorld {
  cachedPerformanceMetrics : option ExtendedPerformanceMetrics;
  lastMetricsCalculationTime : Z;
  vitalsObserversInitialized : bool;
  observedVitals : PerformanceMetrics;
  observers : list EntryType;
  aggregatorCalls : nat
}.

Definition METRICS_CACHE_DURATION : Z := 5000.

Definition noVitals : PerformanceMetrics :=
  {| lcp := None; cls := 0; fid := None; inp := None; ttfb := None |}.

(** The state when the content script has just been loaded. *)
Definition initialWorld : World :=
  {| cachedPerformanceMetrics := None;
     lastMetricsCalculationTime := 0;
     vitalsObserversInitialized := false;
     observedVitals := noVitals;
     observers := [];
     aggregatorCalls := O |}.

(** What the page and the platform answer at the time of a call. *)
Record Browser : Type := {
  hasPerformanceObserver : bool;          (* 'PerformanceObserver' in window *)
  observeSupported : EntryType -> bool;   (* false: creating or starting the observer throws *)
  navigationEntry : outcome (option NavigationTiming);
  hasPerformance : bool;                  (* window.performance is truthy *)
  allElements : outcome nat;              (* document.querySelectorAll('*').length *)
  resourceEntries : outcome (list Resource);
  imgsWithoutAlt : outcome nat            (* querySelectorAll('img:not([alt])').length *)
}.

Definition JS (A : Type) : Type := World -> outcome A * World.

Definition ret {A} (a : A) : JS A := fun w => (Returned a, w).

Definition bind {A B} (m : JS A) (k : A -> JS B) : JS B :=
  fun w =>
    match m w with
    | (Returned a, w') => k a w'
    | (Thrown e, w') => (Thrown e, w')
    end.

(** [try { body } catch (error) { handler }] *)
Definition tryCatch {A} (body : JS A) (handler : string -> JS A) : JS A :=
  fun w =>
    match body w with
    | (Returned a, w') => (Returned a, w')
    | (Thrown e, w') => handler e w'
    end.

(** A platform call. *)
Definition call {A} (o : outcome A) : JS A := fun w => (o, w).

Definition readWorld : JS World := fun w => (Returned w, w).

Definition update (f : World -> World) : JS unit := fun w => (Returned tt, f w).

Notation "x <- m ;; k" := (bind m (fun x => k))
  (at level 61, m at next level, right associativity).
Notation "m ;;; k" := (bind m (fun _ => k))
  (at level 61, right associativity).

(** The world a computation leaves, and what it gives back. *)
Definition exec {A} (m : JS A) (w : World) : World := snd (m w).
Definition result {A} (m : JS A) (w : World) : outcome A := fst (m w).

(** Field assignments. *)
Definition setVitals (v : PerformanceMetrics) (w : World) : World :=
  {| cachedPerformanceMetrics := cachedPerformanceMetrics w;
     lastMetricsCalculationTime := lastMetricsCalculationTime w;
     vitalsObserversInitialized := vitalsObserversInitialized w;
     observedVitals := v;
     observers := observers w;
     aggregatorCalls := aggregatorCalls w |}.

Definition setInitialized (b : bool) (w : World) : World :=
  {| cachedPerformanceMetrics := cachedPerformanceMetrics w;
     lastMetricsCalculationTime := lastMetricsCalculationTime w;
     vitalsObserversInitialized := b;
     observedVitals := observedVitals w;
     observers := observers w;
     aggregatorCalls := aggregatorCalls w |}.

Definition setCache (c : option ExtendedPerformanceMetrics) (t : Z) (w : World) : World :=
  {| cachedPerformanceMetrics := c;
     lastMetricsCalculationTime := t;
     vitalsObserversInitialized := vitalsObserversInitialized w;
     observedVitals := observedVitals w;
     observers := observers w;
     aggregatorCalls := aggregatorCalls w |}.

Definition addObserver (ty : EntryType) (w : World) : World :=
  {| cachedPerformanceMetrics := cachedPerformanceMetrics w;
     lastMetricsCalculationTime := lastMetricsCalculationTime w;
     vitalsObserversInitialized := vitalsObserversInitialized w;
     observedVitals := observedVitals w;
     observers := (observers w ++ [ty])%list;
     aggregatorCalls := aggregatorCalls w |}.

Definition countAggregatorCall (w : World) : World :=
  {| cachedPerformanceMetrics := cachedPerformanceMetrics w;
     lastMetricsCalculationTime := lastMetricsCalculationTime w;
     vitalsObserversInitialized := vitalsObserversInitialized w;
     observedVitals := observedVitals w;
     observers := observers w;
     aggregatorCalls := S (aggregatorCalls w) |}.

Definition setLcp (x : option Q) (v : PerformanceMetrics) : PerformanceMetrics :=
  {| lcp := x; cls := cls v; fid := fid v; inp := inp v; ttfb := ttfb v |}.
Definition setCls (x : Q) (v : PerformanceMetrics) : PerformanceMetrics :=
  {| lcp := lcp v; cls := x; fid := fid v; inp := inp v; ttfb := ttfb v |}.
Definition setFid (x : option Q) (v : PerformanceMetrics) : PerformanceMetrics :=
  {| lcp := lcp v; cls := cls v; fid := x; inp := inp v; ttfb := ttfb v |}.
Definition setInp (x : option Q) (v : PerformanceMetrics) : PerformanceMetrics :=
  {| lcp := lcp v; cls := cls v; fid := fid v; inp := x; ttfb := ttfb v |}.
Definition setTtfb (x : option Q) (v : PerformanceMetrics) : PerformanceMetrics :=
  {| lcp := lcp v; cls := cls v; fid := fid v; inp := inp v; ttfb := x |}.

Definition updateVitals (f : PerformanceMetrics -> PerformanceMetrics) : JS unit :=
  update (fun w => setVitals (f (observedVitals w)) w).

(** ** Vital observers *)

(** [for (const x of l) body] and [l.forEach(body)]: the first throw ends
    the loop. *)
Fixpoint forEach {E} (body : E -> JS unit) (l : list E) : JS unit :=
  match l with
  | [] => ret tt
  | x :: rest => body x ;;; forEach body rest
  end.

(** Reading a property of [null] or [undefined]. *)
Definition property {E} (x : option E) : JS E :=
  match x with
  | Some e => ret e
  | None => call (Thrown "TypeError")
  end.

Definition lcpCallback (entryList : EntryList LcpEntry) : JS unit :=
  tryCatch
    (entries <- call entryList ;;
     match last entries None with
     | Some lastEntry =>
         updateVitals
           (setLcp (Some (orNumber (orNumber (renderTime lastEntry) (loadTime lastEntry)) 0)))
     | None => ret tt
     end)
    (fun _ => ret tt).

Definition clsCallback (entryList : EntryList LayoutShift) : JS unit :=
  tryCatch
    (entries <- call entryList ;;
     forEach
       (fun entry =>
          layoutShift <- property entry ;;
          if negb (hadRecentInput layoutShift)
          then updateVitals (fun v => setCls (cls v + value layoutShift) v)
          else ret tt)
       entries)
    (fun _ => ret tt).

Definition fidCallback (entryList : EntryList FirstInput) : JS unit :=
  tryCatch
    (entries <- call entryList ;;
     match hd None entries with
     | Some firstInput =>
         updateVitals (setFid (Some (processingStart firstInput - startTime firstInput)))
     | None => ret tt
     end)
    (fun _ => ret tt).

Definition inpCallback (entryList : EntryList EventTiming) : JS unit :=
  tryCatch
    (entries <- call entryList ;;
     forEach
       (fun entry =>
          e <- property entry ;;
          if negb (Qeq_bool (duration e) 0) && Qgtb (duration e) 40
          then
            w <- readWorld ;;
            match inp (observedVitals w) with
            | None => updateVitals (setInp (Some (duration e)))
            | Some current =>
                if Qgtb (duration e) current
                then updateVitals (setInp (Some (duration e)))
                else ret tt
            end
          else ret tt)
       entries)
    (fun _ => ret tt).

(** [new PerformanceObserver(callback).observe({ type, buffered: true })]
    inside its own [try]: a platform that does not know the entry type
    throws, and the subscription is not created. *)
Definition observe (env : Browser) (ty : EntryType) : JS unit :=
  tryCatch
    (if observeSupported env ty
     then update (addObserver ty)
     else call (Thrown "NotSupportedError"))
    (fun _ => ret tt).

Definition initWebVitals (env : Browser) : JS unit :=
  w <- readWorld ;;
  if vitalsObserversInitialized w then ret tt
  else if negb (hasPerformanceObserver env) then ret tt
  else
    (update (setInitialized true) ;;;
     observe env largest_contentful_paint ;;;
     observe env layout_shift ;;;
     observe env first_input ;;;
     observe env event ;;;
     tryCatch
       (navEntry <- call (navigationEntry env) ;;
        match navEntry with
        | Some nav =>
            updateVitals (setTtfb (Some (responseStart nav - requestStart nav)))
        | None => ret tt
        end)
       (fun _ => ret tt)).

(** A batch of entries the platform hands to the observers of one type. *)
Inductive Delivery : Type :=
| lcpEntries (l : EntryList LcpEntry)
| layoutShifts (l : EntryList LayoutShift)
| firstInputs (l : EntryList FirstInput)
| events (l : EntryList EventTiming).

Definition entryTypeOf (d : Delivery) : EntryType :=
  match d with
  | lcpEntries _ => largest_contentful_paint
  | layoutShifts _ => layout_shift
  | firstInputs _ => first_input
  | events _ => event
  end.

Definition callbackOf (d : Delivery) : JS unit :=
  match d with
  | lcpEntries l => lcpCallback l
  | layoutShifts l => clsCallback l
  | firstInputs l => fidCallback l
  | events l => inpCallback l
  end.

(** The platform runs the callback of every live subscription of the
    batch's type, once each. *)
Definition deliver (d : Delivery) : JS unit :=
  w <- readWorld ;;
  forEach (fun _ : EntryType => callbackOf d)
          (filter (EntryType_eqb (entryTypeOf d)) (observers w)).

(** ** Result cache: clearing *)

Definition clearPerformanceCache : JS unit :=
  update (setCache None 0%Z).

(** ** Metrics aggregator *)

Definition getEmptyMetrics : ExtendedPerformanceMetrics :=
  {| vitals := {| lcp := None; cls := 0; fid := None; inp := None; ttfb := None |};
     totalNodes := 0;
     totalImages := 0;
     totalScripts := 0;
     totalStylesheets := 0;
     warnings := [] |}.

(** [x !== null && x > limit] *)
Definition exceeds (x : option Q) (limit : Q) : bool :=
  match x with
  | Some v => Qgtb v limit
  | None => false
  end.

(** [l.reduce((sum, r) => sum + (r.transferSize || 0), 0)] *)
Definition sumTransferSize (l : list Resource) : Q :=
  fold_left (fun sum r => sum + orZero (transferSize r)) l 0.

Definition lengthQ {E} (l : list E) : Q := inject_Z (Z.of_nat (List.length l)).

Definition largeImagesSolution : string :=
  "Compress images, convert to WebP/AVIF, use responsive images with srcset, implement lazy loading".
Definition layoutSolution : string :=
  "Set explicit width/height on images and ads. Reserve space for dynamic content. Avoid inserting content above existing content".
Definition serverSolution : string :=
  "Optimize backend queries, use CDN, implement server-side caching, upgrade hosting plan".
Definition interactivitySolution : string :=
  "Reduce JavaScript execution time, break up long tasks, use web workers for heavy computation".
Definition scriptsSolution : string :=
  "Code-split bundles, defer non-critical JS, remove unused dependencies, enable compression".
Definition altSolution : string :=
  "Add descriptive alt text to all images for accessibility and SEO".

Section Aggregator.

(** ECMAScript's [Number::toString], used where a template literal prints
    a number as it is; its digits depend on the binary64 value, so it is
    left abstract. *)
Variable numberToString : Q -> string.

(** [x.toFixed(f)] as ECMAScript defines it: a sign for a negative [x];
    then, for a magnitude below [10^21], the integer [n] with [n / 10^f]
    nearest to it (the larger one on a tie), printed with the point before
    its last [f] digits, zeros put in front where it has no more than [f];
    from [10^21] on the magnitude is printed by [numberToString]. *)
Definition toFixed (x : Q) (f : nat) : string :=
  let s := if Qgtb 0 x then "-" else "" in
  let x := Qabs x in
  let m :=
    if Qle_bool (inject_Z (10 ^ 21)) x then numberToString x
    else
      let n := Qfloor (x * inject_Z (10 ^ Z.of_nat f) + (1 # 2)) in
      let m := digitsOf n in
      match f with
      | O => m
      | _ =>
          let m' := if (String.length m <=? f)%nat
                    then zeros (f + 1 - String.length m) ++ m else m in
          let k := (String.length m' - f)%nat in
          substring 0 k m' ++ "." ++ substring k f m'
      end in
  s ++ m.

Definition largeImagesWarning (lcpIsBad : bool) (images : list Resource)
  : list PerformanceWarning :=
  if lcpIsBad then
    let largeImages := filter (fun img => Qgtb (orZero (transferSize img)) 200000) images in
    if (0 <? List.length largeImages)%nat then
      let avgSize := toFixed (sumTransferSize largeImages / lengthQ largeImages / 1024) 0 in
      [ {| title := natToString (List.length largeImages) ++ " large images detected (avg "
                    ++ avgSize ++ "KB)";
           solution := largeImagesSolution;
           severity := high |} ]
    else []
  else [].

Definition layoutWarning (v : PerformanceMetrics) : list PerformanceWarning :=
  if Qgtb (cls v) (1 # 10) then
    [ {| title := "Poor layout stability (CLS: " ++ toFixed (cls v) 3 ++ ")";
         solution := layoutSolution;
         severity := high |} ]
  else [].

Definition serverWarning (v : PerformanceMetrics) : list PerformanceWarning :=
  match ttfb v with
  | Some ttfbValue =>
      if Qgtb ttfbValue 800 then
        [ {| title := "Slow server response time (" ++ toFixed ttfbValue 0 ++ "ms)";
             solution := serverSolution;
             severity := medium |} ]
      else []
  | None => []
  end.

(** [`${x}`] for a store field that may be [null]. *)
Definition showField (x : option Q) : string :=
  match x with
  | Some v => numberToString v
  | None => "null"
  end.

Definition interactivityWarning (v : PerformanceMetrics) : list PerformanceWarning :=
  let fidIsBad := exceeds (fid v) 100 in
  let inpIsBad := exceeds (inp v) 200 in
  if fidIsBad || inpIsBad then
    let metric := if fidIsBad then "FID: " ++ showField (fid v) ++ "ms"
                  else "INP: " ++ showField (inp v) ++ "ms" in
    [ {| title := "Slow interactivity detected (" ++ metric ++ ")";
         solution := interactivitySolution;
         severity := high |} ]
  else [].

Definition scriptsWarning (lcpIsBad : bool) (scripts : list Resource)
  : list PerformanceWarning :=
  if lcpIsBad then
    let largeScripts := filter (fun s => Qgtb (orZero (transferSize s)) 500000) scripts in
    if (0 <? List.length largeScripts)%nat then
      let totalSize := toFixed (sumTransferSize largeScripts / 1024) 0 in
      [ {| title := "Heavy JavaScript detected (" ++ totalSize ++ "KB across "
                    ++ natToString (List.length largeScripts) ++ " files)";
           solution := scriptsSolution;
           severity := medium |} ]
    else []
  else [].

Definition altWarning (imgsWithoutAlt : nat) : list PerformanceWarning :=
  if (0 <? imgsWithoutAlt)%nat then
    [ {| title := natToString imgsWithoutAlt ++ " images missing alt attributes";
         solution := altSolution;
         severity := low |} ]
  else [].

Definition isImage (r : Resource) : bool := String.eqb (initiatorType r) "img".
Definition isScript (r : Resource) : bool := String.eqb (initiatorType r) "script".
Definition isStylesheet (r : Resource) : bool :=
  String.eqb (initiatorType r) "link" || String.eqb (initiatorType r) "css".

(** The body of the [try] block of [calculatePerformanceMetrics]; each
    [warnings.push] appends one element in the order of the source. *)
Definition aggregate (env : Browser) : JS ExtendedPerformanceMetrics :=
  nodes <- call (allElements env) ;;
  resources <- call (resourceEntries env) ;;
  let images := filter isImage resources in
  let scripts := filter isScript resources in
  let stylesheets := filter isStylesheet resources in
  w <- readWorld ;;
  let v := observedVitals w in
  let lcpIsBad := exceeds (lcp v) 2500 in
  let warnings1to5 :=
    (largeImagesWarning lcpIsBad images ++ layoutWarning v ++ serverWarning v
     ++ interactivityWarning v ++ scriptsWarning lcpIsBad scripts)%list in
  withoutAlt <- call (imgsWithoutAlt env) ;;
  ret {| vitals := v;
         totalNodes := nodes;
         totalImages := List.length images;
         totalScripts := List.length scripts;
         totalStylesheets := List.length stylesheets;
         warnings := (warnings1to5 ++ altWarning withoutAlt)%list |}.

Definition calculatePerformanceMetrics (env : Browser) : JS ExtendedPerformanceMetrics :=
  update countAggregatorCall ;;;
  if negb (hasPerformance env) then ret getEmptyMetrics
  else tryCatch (aggregate env) (fun _ => ret getEmptyMetrics).

(** ** Result cache: lookup *)

(** [now] is the reading of [Date.now()]. *)
Definition getPerformanceMetrics (env : Browser) (now : Z)
  : JS ExtendedPerformanceMetrics :=
  tryCatch
    (w <- readWorld ;;
     match cachedPerformanceMetrics w with
     | Some cached =>
         if (now - lastMetricsCalculationTime w <? METRICS_CACHE_DURATION)%Z
         then ret cached
         else
           (metrics <- calculatePerformanceMetrics env ;;
            update (setCache (Some metrics) now) ;;;
            ret metrics)
     | None =>
         metrics <- calculatePerformanceMetrics env ;;
         update (setCache (Some metrics) now) ;;;
         ret metrics
     end)
    (fun _ => ret getEmptyMetrics).

(** ** Vocabulary of the properties that mentions the printer *)

(** The snapshot of a page whose three platform queries answered. *)
Definition snapshotOf (v : PerformanceMetrics) (nodes : nat)
           (resources : list Resource) (withoutAlt : nat)
  : ExtendedPerformanceMetrics :=
  let lcpIsBad := exceeds (lcp v) 2500 in
  {| vitals := v;
     totalNodes := nodes;
     totalImages := List.length (filter isImage resources);
     totalScripts := List.length (filter isScript resources);
     totalStylesheets := List.length (filter isStylesheet resources);
     warnings :=
       ((largeImagesWarning lcpIsBad (filter isImage resources)
         ++ layoutWarning v ++ serverWarning v
         ++ interactivityWarning v
         ++ scriptsWarning lcpIsBad (filter isScript resources))
        ++ altWarning withoutAlt)%list |}.

(** A run of lookups, each with the page and the clock reading of its
    moment, collecting the snapshots handed out. *)
Fixpoint getMany (calls : list (Browser * Z)) : JS (list ExtendedPerformanceMetrics) :=
  match calls with
  | [] => ret []
  | c :: rest =>
      m <- getPerformanceMetrics (fst c) (snd c) ;;
      ms <- getMany rest ;;
      ret (m :: ms)
  end.

(** The warning rule 1 pushes for the given large images. *)
Definition largeImagesEntry (large : list Resource) : PerformanceWarning :=
  {| title := natToString (List.length large) ++ " large images detected (avg "
              ++ toFixed
                   (sumTransferSize large / lengthQ large / 1024) 0
              ++ "KB)";
     solution := largeImagesSolution;
     severity := high |}.

End Aggregator.

(** ** Reset *)

Definition resetWebVitals : JS unit :=
  tryCatch
    (updateVitals (setLcp None) ;;;
     updateVitals (setCls 0) ;;;
     updateVitals (setFid None) ;;;
     updateVitals (setInp None) ;;;
     updateVitals (setTtfb None) ;;;
     update (setInitialized false) ;;;
     clearPerformanceCache)
    (fun _ => ret tt).

(** ** The panel's Web Vitals cells

    [getVitalStatus] and the four cells of [buildPerformanceHTML] in the
    panel module, which renders the snapshot that [gatherElementData] gets
    from [getPerformanceMetrics]: for a cell, the CSS class of the item and
    the two texts interpolated into it. *)

(** [x < y] on JavaScript numbers. *)
Definition Qltb (x y : Q) : bool := negb (Qle_bool y x).

Definition getVitalStatus (value : option Q) (goodThreshold poorThreshold : Q)
           (reverse : bool) : string :=
  match value with
  | None => "ff-vital-neutral"
  | Some value =>
      if reverse then
        if Qltb value goodThreshold then "ff-vital-good"
        else if Qltb value poorThreshold then "ff-vital-needs-work"
        else "ff-vital-poor"
      else
        if Qltb value goodThreshold then "ff-vital-good"
        else if Qltb value poorThreshold then "ff-vital-needs-work"
        else "ff-vital-poor"
  end.

Record VitalCell : Type := {
  cellClass : string;
  cellValue : string;
  cellStatus : string
}.

(** [x ? whenTruthy(x) : otherwise] for a vital that may be [null]: [null]
    and zero are falsy. *)
Definition ifTruthy (x : option Q) (whenTruthy : Q -> string) (otherwise : string)
  : string :=
  match x with
  | Some v => if Qeq_bool v 0 then otherwise else whenTruthy v
  | None => otherwise
  end.

(** [v < good ? 'Good' : v < poor ? 'Needs Work' : 'Poor'] *)
Definition rating (good poor : Q) (v : Q) : string :=
  if Qltb v good then "Good" else if Qltb v poor then "Needs Work" else "Poor".

Section Panel.

Variable numberToString : Q -> string.

Definition lcpCell (performance : ExtendedPerformanceMetrics) : VitalCell :=
  {| cellClass := getVitalStatus (lcp (vitals performance)) 2500 4000 false;
     cellValue := ifTruthy (lcp (vitals performance))
                    (fun v => toFixed numberToString (v / 1000) 2 ++ "s") "N/A";
     cellStatus := ifTruthy (lcp (vitals performance)) (rating 2500 4000) "-" |}.

(** [performance.cls] is a number, never [null]. *)
Definition clsCell (performance : ExtendedPerformanceMetrics) : VitalCell :=
  {| cellClass := getVitalStatus (Some (cls (vitals performance))) (1 # 10) (25 # 100) true;
     cellValue := toFixed numberToString (cls (vitals performance)) 3;
     cellStatus := rating (1 # 10) (25 # 100) (cls (vitals performance)) |}.

Definition ttfbCell (performance : ExtendedPerformanceMetrics) : VitalCell :=
  {| cellClass := getVitalStatus (ttfb (vitals performance)) 800 1800 false;
     cellValue := ifTruthy (ttfb (vitals performance))
                    (fun v => toFixed numberToString v 0 ++ "ms") "N/A";
     cellStatus := ifTruthy (ttfb (vitals performance)) (rating 800 1800) "-" |}.

(** [performance.totalNodes || 0] is [totalNodes]. *)
Definition domSizeCell (performance : ExtendedPerformanceMetrics) : VitalCell :=
  {| cellClass := "ff-vital-neutral";
     cellValue := natToString (totalNodes performance);
     cellStatus := if (totalNodes performance <? 1500)%nat then "Good" else "Large" |}.

End Panel.

(** ** The inspector's switch

    [toggleInspector], [activateInspector] and [deactivateInspector] of the
    inspector module, with [setActive] and [setHighlightBox] of the state
    module.  Of the module state only [isActive] and [highlightBox] (whether
    it holds an element) are kept; the document is a value of a type [Dom]
    that is not looked into, and the statements that work on it are the
    fields of a [Document]: each takes the page to a new page and may
    throw. *)

Section Inspector.

Context {Dom : Type}.

Record Page : Type := mkPage {
  isActive : bool;
  highlightBox : bool;
  dom : Dom;
  perf : World
}.

Definition Script (A : Type) : Type := Page -> outcome A * Page.

Definition skip : Script unit := fun p => (Returned tt, p).

(** [first; second] *)
Definition andThen (first second : Script unit) : Script unit :=
  fun p =>
    match first p with
    | (Returned _, p') => second p'
    | (Thrown e, p') => (Thrown e, p')
    end.

(** [try { body } catch (error) { handler }] *)
Definition tryScript (body handler : Script unit) : Script unit :=
  fun p =>
    match body p with
    | (Returned _, p') => (Returned tt, p')
    | (Thrown _, p') => handler p'
    end.

(** A call into the performance module. *)
Definition inPerformance (m : JS unit) : Script unit :=
  fun p =>
    match m (perf p) with
    | (o, w) => (o, {| isActive := isActive p; highlightBox := highlightBox p;
                       dom := dom p; perf := w |})
    end.

Definition setActive (active : bool) : Script unit :=
  fun p => (Returned tt, {| isActive := active; highlightBox := highlightBox p;
                            dom := dom p; perf := perf p |}).

Definition setHighlightBox (box : bool) : Script unit :=
  fun p => (Returned tt, {| isActive := isActive p; highlightBox := box;
                            dom := dom p; perf := perf p |}).

(** The statements on the document. *)
Record Document : Type := {
  createBox : Script unit;       (* the [try] block of [createHighlightBox] *)
  addListeners : Script unit;    (* the two [document.addEventListener] calls *)
  sendMessage : Script unit;     (* the [try] block of [notifyPopup] *)
  removeBox : Script unit;       (* [highlightBox.remove()] *)
  removeListeners : Script unit; (* the two [document.removeEventListener] calls *)
  removePanel : Script unit      (* removing [#ff-panel] if it is there *)
}.

Variable doc : Document.

Definition createHighlightBox : Script unit := tryScript (createBox doc) skip.

Definition notifyPopup : Script unit := tryScript (sendMessage doc) skip.

Definition deactivateInspector : Script unit :=
  tryScript
    (andThen (setActive false)
       (andThen (fun p => if highlightBox p
                          then andThen (removeBox doc) (setHighlightBox false) p
                          else skip p)
          (andThen (removeListeners doc)
             (andThen (removePanel doc) notifyPopup))))
    skip.

Definition activateInspector (env : Browser) : Script unit :=
  tryScript
    (andThen (setActive true)
       (andThen (inPerformance (initWebVitals env))
          (andThen createHighlightBox
             (andThen (addListeners doc) notifyPopup))))
    deactivateInspector.

Definition toggleInspector (env : Browser) : Script unit :=
  tryScript
    (fun p => if isActive p then deactivateInspector p else activateInspector env p)
    deactivateInspector.

End Inspector.

Arguments Page Dom : clear implicits.
Arguments Script Dom A : clear implicits.
Arguments Document Dom : clear implicits.

(** * Vocabulary of the properties *)

(** The page answers every query of the aggregator. *)
Definition readable (env : Browser) (nodes : nat) (resources : list Resource)
           (withoutAlt : nat) : Prop :=
  hasPerformance env = true /\
  allElements env = Returned nodes /\
  resourceEntries env = Returned resources /\
  imgsWithoutAlt env = Returned withoutAlt.

(** One of the aggregator's platform queries throws. *)
Definition aggregationThrows (env : Browser) : Prop :=
  (exists e, allElements env = Thrown e) \/
  (exists e, resourceEntries env = Thrown e) \/
  (exists e, imgsWithoutAlt env = Thrown e).

(** The cache entry is usable at time [now]. *)
Definition fresh (w : World) (now : Z) : bool :=
  match cachedPerformanceMetrics w with
  | Some _ => (now - lastMetricsCalculationTime w <? METRICS_CACHE_DURATION)%Z
  | None => false
  end.

(** The warnings of a snapshot that carry a given remediation text; each
    rule has its own. *)
Definition warningsFor (s : string) (l : list PerformanceWarning)
  : list PerformanceWarning :=
  filter (fun x => String.eqb (solution x) s) l.

(** Nearest integer, the larger one on a tie. *)
Definition roundHalfUp (x : Q) : Z := Qfloor (x + (1 # 2)).

(** An image resource of more than 200000 transferred bytes. *)
Definition isLargeImage (r : Resource) : Prop :=
  initiatorType r = "img" /\
  exists n, transferSize r = Some n /\ (200000 < n)%N.

Definition largeImagesOf (resources : list Resource) : list Resource :=
  filter (fun img => Qgtb (orZero (transferSize img)) 200000)
         (filter isImage resources).

Definition largeScriptsOf (resources : list Resource) : list Resource :=
  filter (fun s => Qgtb (orZero (transferSize s)) 500000)
         (filter isScript resources).

(** The digits of a value printed with [f >= 1] decimals, before the point
    is put in: those of the scaled, rounded integer, padded with zeros to
    at least [f + 1] of them. *)
Definition paddedDigits (x : Q) (f : nat) : string :=
  let m := digitsOf (Qfloor (Qabs x * inject_Z (10 ^ Z.of_nat f) + (1 # 2))) in
  if (String.length m <=? f)%nat then zeros (f + 1 - String.length m) ++ m else m.

(** A computation whose only effect is on [observedVitals], and that within
    [R before after]. *)
Definition frames (R : PerformanceMetrics -> PerformanceMetrics -> Prop)
           {A} (m : JS A) : Prop :=
  forall w, exists o v, m w = (o, setVitals v w) /\ R (observedVitals w) v.

(** A computation that moreover returns normally. *)
Definition quiet (R : PerformanceMetrics -> PerformanceMetrics -> Prop)
           (m : JS unit) : Prop :=
  forall w, exists v, m w = (Returned tt, setVitals v w) /\ R (observedVitals w) v.

(** No restriction on the store. *)
Definition anyVitals (_ _ : PerformanceMetrics) : Prop := True.

(** The layout-shift total is left as it is. *)
Definition sameCls (before after : PerformanceMetrics) : Prop :=
  cls after = cls before.

(** The store after the synchronous TTFB step of [initWebVitals]. *)
Definition withTtfb (env : Browser) (w : World) : World :=
  match navigationEntry env with
  | Returned (Some nav) =>
      setVitals (setTtfb (Some (responseStart nav - requestStart nav))
                         (observedVitals w)) w
  | _ => w
  end.

Definition subscribe (env : Browser) (ty : EntryType) (w : World) : World :=
  if observeSupported env ty then addObserver ty w else w.

(** The entries of a batch a loop gets through before an element that is
    [null] makes it throw. *)
Fixpoint upToNull {E} (l : list (option E)) : list E :=
  match l with
  | Some e :: rest => e :: upToNull rest
  | _ => []
  end.

Definition handled {E} (entryList : EntryList E) : list E :=
  match entryList with
  | Returned l => upToNull l
  | Thrown _ => []
  end.

(** The layout-shift entries of a delivery that the CLS callback handles. *)
Definition shiftsHandled (d : Delivery) : list LayoutShift :=
  match d with
  | layoutShifts entryList => handled entryList
  | _ => []
  end.

(** A batch in which every entry is an object. *)
Definition wellFormed {E} (l : list E) : EntryList E := Returned (map Some l).

(** The sum of the values of the entries not flagged as following recent
    input. *)
Definition shiftTotal (l : list LayoutShift) : Q :=
  fold_right Qplus 0 (map value (filter (fun s => negb (hadRecentInput s)) l)).

(** Deliveries, one after the other. *)
Definition deliverAll (ds : list Delivery) : JS unit := forEach deliver ds.

(** Exactly one live subscription to layout shifts. *)
Definition oneClsObserver (w : World) : Prop :=
  filter (EntryType_eqb layout_shift) (observers w) = [layout_shift].

(** How many live subscriptions there are to one entry type. *)
Definition subscriptions (ty : EntryType) (w : World) : nat :=
  List.length (filter (EntryType_eqb ty) (observers w)).

(** A printer that agrees with [Number::toString] on integers. *)
Definition integerToString (q : Q) : string :=
  NilZero.string_of_int (Z.to_int (Qfloor q)).

(** A page of 10 elements that loaded one image of 300000 bytes, one script
    of 600000 bytes and one stylesheet, with two images lacking [alt], its
    response having started 800.1 ms after the request. *)
Definition samplePage : Browser :=
  {| hasPerformanceObserver := true;
     observeSupported := fun _ => true;
     navigationEntry :=
       Returned (Some {| responseStart := 9001 # 10; requestStart := 100 |});
     hasPerformance := true;
     allElements := Returned 10%nat;
     resourceEntries :=
       Returned [ {| initiatorType := "img"; transferSize := Some 300000%N |};
                  {| initiatorType := "script"; transferSize := Some 600000%N |};
                  {| initiatorType := "css"; transferSize := Some 1000%N |} ];
     imgsWithoutAlt := Returned 2%nat |}.

(** The same page when the DOM query throws. *)
Definition brokenPage : Browser :=
  {| hasPerformanceObserver := true;
     observeSupported := fun _ => true;
     navigationEntry := Returned None;
     hasPerformance := true;
     allElements := Thrown "SecurityError";
     resourceEntries := resourceEntries samplePage;
     imgsWithoutAlt := Returned 2%nat |}.

Definition sampleDeliveries : list Delivery :=
  [ lcpEntries (wellFormed [ {| renderTime := 3000; loadTime := 2900 |} ]);
    layoutShifts (wellFormed [ {| hadRecentInput := false; value := 12345 # 100000 |};
                               {| hadRecentInput := true; value := 1 |} ]);
    firstInputs (wellFormed [ {| processingStart := 350; startTime := 100 |} ]);
    events (wellFormed [ {| duration := 30 |}; {| duration := 250 |};
                         {| duration := 45 |} ]) ].

(** The module after activation on [samplePage] and those deliveries:
    [lcp = 3000], [cls = 0.12345], [fid = 250], [inp = 250],
    [ttfb = 800.1]. *)
Definition sampleWorld : World :=
  exec (deliverAll sampleDeliveries) (exec (initWebVitals samplePage) initialWorld).

(** The KB figure the specification's wording asks for: the byte count
    divided by 1024, cut down to an integer. *)
Definition kbTruncated (bytes : Q) : string := digitsOf (Qfloor (bytes / 1024)).

(** * Vocabulary of the further properties *)

(** ** What a delivery does to the store *)

(** The value the LCP callback stores for a batch, if it stores one. *)
Definition lcpWritten (entryList : EntryList LcpEntry) : option Q :=
  match entryList with
  | Returned entries =>
      match last entries None with
      | Some lastEntry =>
          Some (orNumber (orNumber (renderTime lastEntry) (loadTime lastEntry)) 0)
      | None => None
      end
  | Thrown _ => None
  end.

(** The value the FID callback stores for a batch, if it stores one. *)
Definition fidWritten (entryList : EntryList FirstInput) : option Q :=
  match entryList with
  | Returned entries =>
      match hd None entries with
      | Some firstInput => Some (processingStart firstInput - startTime firstInput)
      | None => None
      end
  | Thrown _ => None
  end.

(** One layout-shift entry added to the running total. *)
Definition addShift (v : PerformanceMetrics) (s : LayoutShift) : PerformanceMetrics :=
  if hadRecentInput s then v else setCls (cls v + value s) v.

(** One interaction taken into the running maximum. *)
Definition raiseInp (v : PerformanceMetrics) (e : EventTiming) : PerformanceMetrics :=
  if Qgtb (duration e) 40 then
    match inp v with
    | None => setInp (Some (duration e)) v
    | Some current =>
        if Qgtb (duration e) current then setInp (Some (duration e)) v else v
    end
  else v.

(** The store after one run of the callback a delivery is for. *)
Definition vitalsStep (d : Delivery) (v : PerformanceMetrics) : PerformanceMetrics :=
  match d with
  | lcpEntries entryList =>
      match lcpWritten entryList with
      | Some x => setLcp (Some x) v
      | None => v
      end
  | layoutShifts entryList => fold_left addShift (handled entryList) v
  | firstInputs entryList =>
      match fidWritten entryList with
      | Some x => setFid (Some x) v
      | None => v
      end
  | events entryList => fold_left raiseInp (handled entryList) v
  end.

(** The store after a delivery: the callback runs once for each live
    subscription of the delivery's type. *)
Definition deliveryEffect (w : World) (d : Delivery) (v : PerformanceMetrics)
  : PerformanceMetrics :=
  Nat.iter (subscriptions (entryTypeOf d) w) (vitalsStep d) v.

(** The store after a run of deliveries. *)
Definition storeAfter (w : World) (ds : list Delivery) : PerformanceMetrics :=
  fold_left (fun v d => deliveryEffect w d v) ds (observedVitals w).

(** The store field an observer of the given type writes, read as a pair
    of the field's name and its value, so that fields can be compared. *)
Definition fieldOf (ty : EntryType) (v : PerformanceMetrics) : option Q :=
  match ty with
  | largest_contentful_paint => lcp v
  | layout_shift => Some (cls v)
  | first_input => fid v
  | event => inp v
  end.

(** The TTFB that [initWebVitals] computes on a platform. *)
Definition ttfbOf (env : Browser) : option Q :=
  match navigationEntry env with
  | Returned (Some nav) => Some (responseStart nav - requestStart nav)
  | _ => None
  end.

(** The durations of the interactions of a delivery that the INP callback
    handles. *)
Definition interactionsHandled (d : Delivery) : list Q :=
  match d with
  | events entryList => map duration (handled entryList)
  | _ => []
  end.

(** [x] is the running maximum of the durations above 40 among [seen]:
    absent when there is none. *)
Definition isRunningMax (seen : list Q) (x : option Q) : Prop :=
  match x with
  | None => Forall (fun d => d <= 40) seen
  | Some m => In m seen /\ 40 < m /\ Forall (fun d => d <= m) seen
  end.

(** What a delivery makes the LCP callback, and the FID callback, store. *)
Definition lcpOf (d : Delivery) : option Q :=
  match d with
  | lcpEntries entryList => lcpWritten entryList
  | _ => None
  end.

Definition fidOf (d : Delivery) : option Q :=
  match d with
  | firstInputs entryList => fidWritten entryList
  | _ => None
  end.

(** A script resource of more than 500000 transferred bytes. *)
Definition isLargeScript (r : Resource) : Prop :=
  initiatorType r = "script" /\
  exists n, transferSize r = Some n /\ (500000 < n)%N.

(** The remediation texts in the order of the rules that push them. *)
Definition ruleOrder : list string :=
  [ largeImagesSolution; layoutSolution; serverSolution;
    interactivitySolution; scriptsSolution; altSolution ].

(** [l1] is [l2] with some elements left out, the order kept. *)
Inductive subsequence {A : Type} : list A -> list A -> Prop :=
| subsequence_nil : forall l, subsequence [] l
| subsequence_take : forall x l1 l2,
    subsequence l1 l2 -> subsequence (x :: l1) (x :: l2)
| subsequence_skip : forall x l1 l2,
    subsequence l1 l2 -> subsequence l1 (x :: l2).

(** The resource is counted in one of the three buckets. *)
Definition isCounted (r : Resource) : bool :=
  isImage r || isScript r || isStylesheet r.

(** ** The inspector's switch: vocabulary *)

(** A statement that leaves [isActive] and the performance module's state
    alone: it works on the document (and on [highlightBox]) only. *)
Definition documentOnly {Dom : Type} (m : Script Dom unit) : Prop :=
  forall p, isActive (snd (m p)) = isActive p /\ perf (snd (m p)) = perf p.

(** None of the six document statements reaches beyond the document. *)
Definition tame {Dom : Type} (doc : Document Dom) : Prop :=
  documentOnly (createBox doc) /\ documentOnly (addListeners doc) /\
  documentOnly (sendMessage doc) /\ documentOnly (removeBox doc) /\
  documentOnly (removeListeners doc) /\ documentOnly (removePanel doc).

(** What happens on a page while the content script lives. *)
Inductive PageEvent : Type :=
| toggled (env : Browser)
| delivered (d : Delivery).

Definition happen {Dom : Type} (doc : Document Dom) (ev : PageEvent)
  : Script Dom unit :=
  match ev with
  | toggled env => toggleInspector doc env
  | delivered d => inPerformance (deliver d)
  end.

Fixpoint happenAll {Dom : Type} (doc : Document Dom) (evs : list PageEvent)
  : Script Dom unit :=
  match evs with
  | [] => skip
  | ev :: rest => andThen (happen doc ev) (happenAll doc rest)
  end.

(** The page when the content script has just been loaded. *)
Definition initialPage {Dom : Type} (d : Dom) : Page Dom :=
  {| isActive := false; highlightBox := false; dom := d; perf := initialWorld |}.

(** At most one subscription per entry type, and none before the flag is
    set. *)
Definition subscribedOnce (w : World) : Prop :=
  (vitalsObserversInitialized w = false -> observers w = []) /\
  (forall ty, (subscriptions ty w <= 1)%nat).

(** A document on which every statement succeeds and changes nothing, and
    one on which registering the listeners throws. *)
Definition quietDocument : Document unit :=
  {| createBox := andThen skip (setHighlightBox true);
     addListeners := skip;
     sendMessage := skip;
     removeBox := skip;
     removeListeners := skip;
     removePanel := skip |}.

Definition brokenDocument : Document unit :=
  {| createBox := andThen skip (setHighlightBox true);
     addListeners := fun p => (Thrown "TypeError", p);
     sendMessage := skip;
     removeBox := skip;
     removeListeners := skip;
     removePanel := skip |}.

(** ** Sums as the code takes them *)

(** Numbers added one at a time, in the order given, starting from 0, with
    the addition of the language: [((0 + v1) + v2) + ...]. *)
Definition addedUp (values : list Q) : Q := fold_left Qplus values 0.

(** The values of the layout shifts that count, in order: those of the
    entries not flagged as following recent input. *)
Definition countedValues (l : list LayoutShift) : list Q :=
  map value (filter (fun s => negb (hadRecentInput s)) l).

(** A transferred size as a number. *)
Definition bytes (n : N) : Q := inject_Z (Z.of_N n).

(** How many resources were requested by a given kind of initiator. *)
Definition countType (ty : string) (l : list Resource) : nat :=
  count_occ string_dec (map initiatorType l) ty.

(** A page of 40 elements that loaded four images (of 300000, 100000 and
    500000 bytes, and one of unknown size), two scripts (of 600000 and
    700000 bytes), three stylesheets and one fetched resource, with one
    image lacking [alt]. *)
Definition galleryResources : list Resource :=
  [ {| initiatorType := "img"; transferSize := Some 300000%N |};
    {| initiatorType := "img"; transferSize := Some 100000%N |};
    {| initiatorType := "script"; transferSize := Some 600000%N |};
    {| initiatorType := "img"; transferSize := Some 500000%N |};
    {| initiatorType := "script"; transferSize := Some 700000%N |};
    {| initiatorType := "link"; transferSize := Some 2000%N |};
    {| initiatorType := "css"; transferSize := Some 1000%N |};
    {| initiatorType := "css"; transferSize := Some 500%N |};
    {| initiatorType := "img"; transferSize := None |};
    {| initiatorType := "fetch"; transferSize := Some 64%N |} ].

Definition galleryPage : Browser :=
  {| hasPerformanceObserver := true;
     observeSupported := fun _ => true;
     navigationEntry := Returned None;
     hasPerformance := true;
     allElements := Returned 40%nat;
     resourceEntries := Returned galleryResources;
     imgsWithoutAlt := Returned 1%nat |}.

(** * Properties *)

(** ** The monad's plumbing *)

Lemma setVitals_same (w : World) : setVitals (observedVitals w) w = w.
Proof. destruct w; reflexivity. Qed.

Lemma setVitals_twice (v v' : PerformanceMetrics) (w : World) :
  setVitals v (setVitals v' w) = setVitals v w.
Proof. reflexivity. Qed.

Lemma Qgtb_lt (x y : Q) : Qgtb x y = true <-> y < x.
Proof.
  unfold Qgtb. rewrite negb_true_iff, <- not_true_iff_false, Qle_bool_iff.
  split; [apply Qnot_le_lt | apply Qlt_not_le].
Qed.

Lemma Qgtb_le (x y : Q) : Qgtb x y = false <-> x <= y.
Proof. unfold Qgtb. rewrite negb_false_iff. apply Qle_bool_iff. Qed.

Lemma exceeds_spec (x : option Q) (limit : Q) :
  exceeds x limit = true <-> exists v, x = Some v /\ limit < v.
Proof.
  destruct x as [v|]; simpl.
  - rewrite Qgtb_lt. split; [eauto | intros (v' & [= <-] & H); exact H].
  - split; [discriminate | intros (v' & [=] & _)].
Qed.

(** ** Observer callbacks only write the store, and never throw *)

Section Frames.

(** What a computation may do to the store: [R before after]. *)
Variable R : PerformanceMetrics -> PerformanceMetrics -> Prop.
Hypothesis R_refl : forall v, R v v.
Hypothesis R_trans : forall a b c, R a b -> R b c -> R a c.

Lemma ret_frame {A} (a : A) : frames R (ret a).
Proof.
  intros w. exists (Returned a), (observedVitals w).
  rewrite setVitals_same. split; [reflexivity | apply R_refl].
Qed.

Lemma call_frame {A} (o : outcome A) : frames R (call o).
Proof.
  intros w. exists o, (observedVitals w).
  rewrite setVitals_same. split; [reflexivity | apply R_refl].
Qed.

Lemma updateVitals_frame (f : PerformanceMetrics -> PerformanceMetrics) :
  (forall v, R v (f v)) -> frames R (updateVitals f).
Proof.
  intros Hf w. exists (Returned tt), (f (observedVitals w)).
  split; [reflexivity | apply Hf].
Qed.

Lemma bind_frame {A B} (m : JS A) (k : A -> JS B) :
  frames R m -> (forall a, frames R (k a)) -> frames R (bind m k).
Proof.
  intros Hm Hk w. unfold bind. destruct (Hm w) as (o & v & -> & Hv).
  destruct o as [a|e].
  - destruct (Hk a (setVitals v w)) as (o' & v' & -> & Hv').
    exists o', v'. split; [reflexivity | exact (R_trans _ _ _ Hv Hv')].
  - exists (Thrown e), v. split; [reflexivity | exact Hv].
Qed.

Lemma readWorld_frame {B} (k : World -> JS B) :
  (forall w', frames R (k w')) -> frames R (bind readWorld k).
Proof. intros Hk w. unfold bind, readWorld. apply Hk. Qed.

Lemma property_frame {E} (x : option E) : frames R (property x).
Proof. destruct x; [apply ret_frame | apply call_frame]. Qed.

Lemma forEach_frame {E} (body : E -> JS unit) (l : list E) :
  (forall x, frames R (body x)) -> frames R (forEach body l).
Proof.
  intros Hb. induction l as [|x rest IH]; simpl.
  - apply ret_frame.
  - apply bind_frame; [apply Hb | intros _; exact IH].
Qed.

Lemma tryCatch_quiet (body : JS unit) :
  frames R body -> quiet R (tryCatch body (fun _ => ret tt)).
Proof.
  intros Hb w. unfold tryCatch. destruct (Hb w) as (o & v & -> & Hv).
  exists v. destruct o as [[]|e]; (split; [reflexivity | exact Hv]).
Qed.

Lemma forEach_quiet {E} (body : E -> JS unit) (l : list E) :
  (forall x, quiet R (body x)) -> quiet R (forEach body l).
Proof.
  intros Hb. induction l as [|x rest IH]; simpl; intros w.
  - exists (observedVitals w). unfold ret. rewrite setVitals_same.
    split; [reflexivity | apply R_refl].
  - unfold bind. destruct (Hb x w) as (v & -> & Hv).
    destruct (IH (setVitals v w)) as (v' & -> & Hv').
    exists v'. split; [reflexivity | exact (R_trans _ _ _ Hv Hv')].
Qed.

Hint Resolve ret_frame call_frame updateVitals_frame property_frame : core.

Lemma lcpCallback_quiet l :
  (forall x v, R v (setLcp x v)) -> quiet R (lcpCallback l).
Proof.
  intros HR. apply tryCatch_quiet, bind_frame; [auto|].
  intros entries. destruct (last entries None); auto.
Qed.

Lemma clsCallback_quiet l :
  (forall x v, R v (setCls x v)) -> quiet R (clsCallback l).
Proof.
  intros HR. apply tryCatch_quiet, bind_frame; [auto|].
  intros entries. apply forEach_frame. intros entry.
  apply bind_frame; [auto|].
  intros s. destruct (negb (hadRecentInput s)); auto.
Qed.

Lemma fidCallback_quiet l :
  (forall x v, R v (setFid x v)) -> quiet R (fidCallback l).
Proof.
  intros HR. apply tryCatch_quiet, bind_frame; [auto|].
  intros entries. destruct (hd None entries); auto.
Qed.

Lemma inpCallback_quiet l :
  (forall x v, R v (setInp x v)) -> quiet R (inpCallback l).
Proof.
  intros HR. apply tryCatch_quiet, bind_frame; [auto|].
  intros entries. apply forEach_frame. intros entry.
  apply bind_frame; [auto|].
  intros e. destruct (negb (Qeq_bool (duration e) 0) && Qgtb (duration e) 40);
    [|auto].
  apply readWorld_frame. intros w'.
  destruct (inp (observedVitals w')) as [current|]; [|auto].
  destruct (Qgtb (duration e) current); auto.
Qed.

End Frames.

Lemma sameCls_refl v : sameCls v v.
Proof. reflexivity. Qed.

Lemma sameCls_trans a b c : sameCls a b -> sameCls b c -> sameCls a c.
Proof. unfold sameCls. congruence. Qed.

Lemma callbackOf_quiet (d : Delivery) : quiet anyVitals (callbackOf d).
Proof.
  destruct d; simpl;
    [apply lcpCallback_quiet | apply clsCallback_quiet
     | apply fidCallback_quiet | apply inpCallback_quiet];
    unfold anyVitals; auto.
Qed.

Lemma deliver_quiet (d : Delivery) : quiet anyVitals (deliver d).
Proof.
  intros w. unfold deliver, bind, readWorld.
  apply forEach_quiet; unfold anyVitals; auto.
  intros _. apply callbackOf_quiet.
Qed.

Lemma deliver_other_quiet (d : Delivery) :
  entryTypeOf d <> layout_shift -> quiet sameCls (deliver d).
Proof.
  intros Hty w. unfold deliver, bind, readWorld.
  apply forEach_quiet; [apply sameCls_refl | apply sameCls_trans |].
  intros _. destruct d; simpl;
    [apply lcpCallback_quiet | contradiction
     | apply fidCallback_quiet | apply inpCallback_quiet];
    try apply sameCls_refl; try apply sameCls_trans; reflexivity.
Qed.

(** ** Initialization and reset never throw *)

Lemma observe_returns (env : Browser) (ty : EntryType) (w : World) :
  observe env ty w =
  (Returned tt, if observeSupported env ty then addObserver ty w else w).
Proof.
  unfold observe, tryCatch. destruct (observeSupported env ty); reflexivity.
Qed.

Lemma initWebVitals_eq (env : Browser) (w : World) :
  initWebVitals env w =
  (Returned tt,
   if vitalsObserversInitialized w then w
   else if hasPerformanceObserver env then
     withTtfb env
       (subscribe env event
          (subscribe env first_input
             (subscribe env layout_shift
                (subscribe env largest_contentful_paint
                   (setInitialized true w)))))
   else w).
Proof.
  unfold initWebVitals, bind at 1. unfold readWorld at 1.
  destruct (vitalsObserversInitialized w); [reflexivity|].
  destruct (hasPerformanceObserver env); simpl; [|reflexivity].
  unfold bind, update. rewrite !observe_returns. fold (subscribe env).
  unfold tryCatch, call, withTtfb.
  destruct (navigationEntry env) as [[nav|]|e]; reflexivity.
Qed.

Lemma clearPerformanceCache_eq (w : World) :
  clearPerformanceCache w = (Returned tt, setCache None 0%Z w).
Proof. reflexivity. Qed.

Lemma resetWebVitals_eq (w : World) :
  resetWebVitals w =
  (Returned tt,
   {| cachedPerformanceMetrics := None;
      lastMetricsCalculationTime := 0;
      vitalsObserversInitialized := false;
      observedVitals := noVitals;
      observers := observers w;
      aggregatorCalls := aggregatorCalls w |}).
Proof. reflexivity. Qed.

(** ** The aggregator always returns *)

Section AggregatorFacts.

Variable numberToString : Q -> string.

Lemma calculate_total (env : Browser) (w : World) :
  exists m, calculatePerformanceMetrics numberToString env w = (Returned m, countAggregatorCall w).
Proof.
  unfold calculatePerformanceMetrics, aggregate, tryCatch, bind, update, call,
    readWorld, ret.
  destruct (hasPerformance env); simpl; [|eauto].
  destruct (allElements env); [|eauto].
  destruct (resourceEntries env); [|eauto].
  destruct (imgsWithoutAlt env); eauto.
Qed.

Lemma calculate_readable (env : Browser) (w : World) nodes resources withoutAlt :
  readable env nodes resources withoutAlt ->
  calculatePerformanceMetrics numberToString env w =
  (Returned (snapshotOf numberToString (observedVitals w) nodes resources withoutAlt),
   countAggregatorCall w).
Proof.
  intros (Hp & Hn & Hr & Ha).
  unfold calculatePerformanceMetrics, aggregate, tryCatch, bind, update, call,
    readWorld, ret.
  rewrite Hp, Hn, Hr, Ha. reflexivity.
Qed.

Lemma calculate_fallback (env : Browser) (w : World) :
  hasPerformance env = false \/ aggregationThrows env ->
  calculatePerformanceMetrics numberToString env w = (Returned getEmptyMetrics, countAggregatorCall w).
Proof.
  unfold calculatePerformanceMetrics, aggregate, tryCatch, bind, update, call,
    readWorld, ret.
  intros [Hp | [(e & H) | [(e & H) | (e & H)]]].
  - rewrite Hp. reflexivity.
  - rewrite H. destruct (hasPerformance env); reflexivity.
  - rewrite H. destruct (hasPerformance env); simpl; [|reflexivity].
    destruct (allElements env); reflexivity.
  - rewrite H. destruct (hasPerformance env); simpl; [|reflexivity].
    destruct (allElements env); [|reflexivity].
    destruct (resourceEntries env); reflexivity.
Qed.

Lemma getMetrics_hit (env : Browser) (now : Z) (w : World) cached :
  cachedPerformanceMetrics w = Some cached ->
  (now - lastMetricsCalculationTime w < 5000)%Z ->
  getPerformanceMetrics numberToString env now w = (Returned cached, w).
Proof.
  intros Hc Ht. unfold getPerformanceMetrics, tryCatch, bind, readWorld, ret.
  rewrite Hc. apply Z.ltb_lt in Ht. unfold METRICS_CACHE_DURATION. rewrite Ht.
  reflexivity.
Qed.

Lemma getMetrics_miss (env : Browser) (now : Z) (w : World) m :
  cachedPerformanceMetrics w = None \/
  (5000 <= now - lastMetricsCalculationTime w)%Z ->
  calculatePerformanceMetrics numberToString env w = (Returned m, countAggregatorCall w) ->
  getPerformanceMetrics numberToString env now w =
  (Returned m, setCache (Some m) now (countAggregatorCall w)).
Proof.
  intros Hmiss Hcalc.
  unfold getPerformanceMetrics, tryCatch, bind, readWorld, ret, update.
  destruct (cachedPerformanceMetrics w) as [c|] eqn:Hc.
  - destruct Hmiss as [[=] | Ht]. apply Z.ltb_ge in Ht.
    unfold METRICS_CACHE_DURATION. rewrite Ht, Hcalc. reflexivity.
  - rewrite Hcalc. reflexivity.
Qed.

(** C1. A call to [getPerformanceMetrics] at time [now]: with a cache entry
    stored less than 5000 ms before, the entry is returned, nothing
    changes and the aggregator is not entered; otherwise the aggregator is
    entered exactly once, and its snapshot is returned and stored in the
    cache with the timestamp [now]. *)
Theorem getPerformanceMetrics_cache (env : Browser) (now : Z) (w : World) :
  (forall cached,
      cachedPerformanceMetrics w = Some cached ->
      (now - lastMetricsCalculationTime w < 5000)%Z ->
      getPerformanceMetrics numberToString env now w = (Returned cached, w) /\
      aggregatorCalls (exec (getPerformanceMetrics numberToString env now) w) = aggregatorCalls w)
  /\
  (cachedPerformanceMetrics w = None \/
   (5000 <= now - lastMetricsCalculationTime w)%Z ->
   exists computed w1,
     calculatePerformanceMetrics numberToString env w = (Returned computed, w1) /\
     aggregatorCalls w1 = S (aggregatorCalls w) /\
     result (getPerformanceMetrics numberToString env now) w = Returned computed /\
     exec (getPerformanceMetrics numberToString env now) w = setCache (Some computed) now w1 /\
     cachedPerformanceMetrics (exec (getPerformanceMetrics numberToString env now) w) = Some computed /\
     lastMetricsCalculationTime (exec (getPerformanceMetrics numberToString env now) w) = now /\
     aggregatorCalls (exec (getPerformanceMetrics numberToString env now) w) = S (aggregatorCalls w)).
Proof.
  split.
  - intros cached Hc Ht. unfold exec.
    rewrite (getMetrics_hit env now w cached Hc Ht). split; reflexivity.
  - intros Hmiss. destruct (calculate_total env w) as [m Hm].
    exists m, (countAggregatorCall w). unfold exec, result.
    rewrite (getMetrics_miss env now w m Hmiss Hm). simpl. repeat split; assumption.
Qed.


Lemma fresh_false (w : World) (now : Z) :
  fresh w now = false <->
  cachedPerformanceMetrics w = None \/
  (5000 <= now - lastMetricsCalculationTime w)%Z.
Proof.
  unfold fresh, METRICS_CACHE_DURATION.
  destruct (cachedPerformanceMetrics w); rewrite ?Z.ltb_ge; split; auto.
  intros [[=]|H]; exact H.
Qed.

Lemma getMetrics_returns (env : Browser) (now : Z) (w : World) :
  exists m, result (getPerformanceMetrics numberToString env now) w = Returned m.
Proof.
  unfold result. destruct (fresh w now) eqn:Hf.
  - unfold fresh in Hf. destruct (cachedPerformanceMetrics w) as [c|] eqn:Hc; [|discriminate].
    apply Z.ltb_lt in Hf. exists c. now rewrite (getMetrics_hit env now w c Hc Hf).
  - apply fresh_false in Hf. destruct (calculate_total env w) as [m Hm].
    exists m. now rewrite (getMetrics_miss env now w m Hf Hm).
Qed.

(** C2. When a DOM query or the resource-timing access throws during
    aggregation, [calculatePerformanceMetrics], and [getPerformanceMetrics]
    when it recomputes, return the fallback snapshot: the four optional
    vitals absent, [cls] zero, the four counts zero, no warnings.  And no
    public operation (nor a delivery of entries to the observers) ends in a
    throw, whatever the platform answers. *)
Theorem fallback_on_failure (env : Browser) (now : Z) (w : World) :
  (aggregationThrows env ->
   result (calculatePerformanceMetrics numberToString env) w = Returned getEmptyMetrics /\
   (fresh w now = false ->
    result (getPerformanceMetrics numberToString env now) w = Returned getEmptyMetrics))
  /\ (vitals getEmptyMetrics = mkVitals None 0 None None None /\
      totalNodes getEmptyMetrics = O /\ totalImages getEmptyMetrics = O /\
      totalScripts getEmptyMetrics = O /\ totalStylesheets getEmptyMetrics = O /\
      warnings getEmptyMetrics = [])
  /\ (forall d,
        returned (result (initWebVitals env) w) /\
        returned (result (getPerformanceMetrics numberToString env now) w) /\
        returned (result (calculatePerformanceMetrics numberToString env) w) /\
        returned (result clearPerformanceCache w) /\
        returned (result resetWebVitals w) /\
        returned (result (deliver d) w)).
Proof.
  split; [|split].
  - intros Hthrow.
    assert (Hc := calculate_fallback env w (or_intror Hthrow)).
    unfold result. split; [now rewrite Hc|].
    intros Hf. apply fresh_false in Hf.
    now rewrite (getMetrics_miss env now w _ Hf Hc).
  - repeat split.
  - intros d. unfold result.
    rewrite initWebVitals_eq, clearPerformanceCache_eq, resetWebVitals_eq.
    destruct (getMetrics_returns env now w) as [m Hm]. unfold result in Hm.
    destruct (calculate_total env w) as [m' Hm'].
    destruct (deliver_quiet d w) as (v & Hv & _).
    rewrite Hm, Hm', Hv. simpl. repeat split.
Qed.

Lemma getMany_hits (calls : list (Browser * Z)) (w : World) cached :
  cachedPerformanceMetrics w = Some cached ->
  Forall (fun c => (snd c - lastMetricsCalculationTime w < 5000)%Z) calls ->
  getMany numberToString calls w = (Returned (repeat cached (List.length calls)), w).
Proof.
  intros Hc Hall. induction Hall as [|c rest Hlt _ IH]; simpl.
  - reflexivity.
  - unfold bind. rewrite (getMetrics_hit (fst c) (snd c) w cached Hc Hlt), IH.
    reflexivity.
Qed.

(** C10. When the lookup at time [now] has to recompute and the
    aggregation fails, the fallback snapshot is what the cache then holds,
    stamped [now]; every lookup in a following run of lookups made less
    than 5000 ms after [now] gets the fallback again, whatever the page
    answers by then, and the aggregator is not entered. *)
Theorem fallback_is_cached (env : Browser) (now : Z) (w : World)
        (later : list (Browser * Z)) :
  fresh w now = false ->
  hasPerformance env = false \/ aggregationThrows env ->
  Forall (fun c => (snd c - now < 5000)%Z) later ->
  let w1 := exec (getPerformanceMetrics numberToString env now) w in
  result (getPerformanceMetrics numberToString env now) w = Returned getEmptyMetrics /\
  cachedPerformanceMetrics w1 = Some getEmptyMetrics /\
  lastMetricsCalculationTime w1 = now /\
  result (getMany numberToString later) w1 = Returned (repeat getEmptyMetrics (List.length later)) /\
  exec (getMany numberToString later) w1 = w1 /\
  aggregatorCalls (exec (getMany numberToString later) w1) = aggregatorCalls w1.
Proof.
  intros Hf Hfail Hlater w1. apply fresh_false in Hf.
  assert (Hc := calculate_fallback env w Hfail).
  assert (Hg := getMetrics_miss env now w _ Hf Hc).
  assert (Hw1 : w1 = setCache (Some getEmptyMetrics) now (countAggregatorCall w))
    by (unfold w1, exec; now rewrite Hg).
  assert (Hmany : getMany numberToString later w1 =
                  (Returned (repeat getEmptyMetrics (List.length later)), w1)).
  { apply getMany_hits; rewrite Hw1; [reflexivity | exact Hlater]. }
  unfold result, exec. rewrite Hg, Hmany. simpl.
  repeat split; rewrite Hw1; reflexivity.
Qed.

(** ** The warning rules *)

Lemma warningsFor_app (s : string) (l1 l2 : list PerformanceWarning) :
  warningsFor s (l1 ++ l2) = (warningsFor s l1 ++ warningsFor s l2)%list.
Proof. apply filter_app. Qed.

Lemma warningsFor_all (s : string) (l : list PerformanceWarning) :
  (forall x, In x l -> solution x = s) -> warningsFor s l = l.
Proof.
  induction l as [|x l IH]; simpl; intros H; [reflexivity|].
  rewrite (H x (or_introl eq_refl)), String.eqb_refl, IH; auto.
Qed.

Lemma warningsFor_none (s s' : string) (l : list PerformanceWarning) :
  (forall x, In x l -> solution x = s') -> String.eqb s' s = false ->
  warningsFor s l = [].
Proof.
  induction l as [|x l IH]; simpl; intros H Hne; [reflexivity|].
  rewrite (H x (or_introl eq_refl)), Hne. apply IH; auto.
Qed.

Lemma warningsFor_In (s : string) (l : list PerformanceWarning) x :
  In x (warningsFor s l) <-> In x l /\ solution x = s.
Proof. unfold warningsFor. rewrite filter_In, String.eqb_eq. reflexivity. Qed.

Ltac rule_solution :=
  let x := fresh "x" in
  let H := fresh "H" in
  intros x H; cbv zeta in H;
  repeat match type of H with
         | context [if ?c then _ else _] => destruct c
         end;
  simpl in H; try contradiction;
  destruct H as [<-|H]; first [reflexivity | contradiction].

Lemma largeImagesWarning_solution b images :
  forall x, In x (largeImagesWarning numberToString b images) ->
            solution x = largeImagesSolution.
Proof. unfold largeImagesWarning. rule_solution. Qed.

Lemma layoutWarning_solution v :
  forall x, In x (layoutWarning numberToString v) -> solution x = layoutSolution.
Proof. unfold layoutWarning. rule_solution. Qed.

Lemma serverWarning_solution v :
  forall x, In x (serverWarning numberToString v) -> solution x = serverSolution.
Proof. unfold serverWarning. destruct (ttfb v); rule_solution. Qed.

Lemma interactivityWarning_solution v :
  forall x, In x (interactivityWarning numberToString v) ->
            solution x = interactivitySolution.
Proof. unfold interactivityWarning. rule_solution. Qed.

Lemma scriptsWarning_solution b scripts :
  forall x, In x (scriptsWarning numberToString b scripts) ->
            solution x = scriptsSolution.
Proof. unfold scriptsWarning. rule_solution. Qed.

Lemma altWarning_solution n :
  forall x, In x (altWarning n) -> solution x = altSolution.
Proof. unfold altWarning. rule_solution. Qed.

(** Sorting the warnings of a snapshot back to the rules they come from. *)
Ltac by_rule :=
  unfold snapshotOf; cbn [warnings];
  rewrite !warningsFor_app;
  repeat match goal with
  | |- context [warningsFor ?s (largeImagesWarning ?ts ?b ?l)] =>
      first [ rewrite (warningsFor_all s _ (largeImagesWarning_solution b l))
            | rewrite (warningsFor_none s largeImagesSolution _
                         (largeImagesWarning_solution b l) eq_refl) ]
  | |- context [warningsFor ?s (layoutWarning ?ts ?v)] =>
      first [ rewrite (warningsFor_all s _ (layoutWarning_solution v))
            | rewrite (warningsFor_none s layoutSolution _
                         (layoutWarning_solution v) eq_refl) ]
  | |- context [warningsFor ?s (serverWarning ?ts ?v)] =>
      first [ rewrite (warningsFor_all s _ (serverWarning_solution v))
            | rewrite (warningsFor_none s serverSolution _
                         (serverWarning_solution v) eq_refl) ]
  | |- context [warningsFor ?s (interactivityWarning ?ts ?v)] =>
      first [ rewrite (warningsFor_all s _ (interactivityWarning_solution v))
            | rewrite (warningsFor_none s interactivitySolution _
                         (interactivityWarning_solution v) eq_refl) ]
  | |- context [warningsFor ?s (scriptsWarning ?ts ?b ?l)] =>
      first [ rewrite (warningsFor_all s _ (scriptsWarning_solution b l))
            | rewrite (warningsFor_none s scriptsSolution _
                         (scriptsWarning_solution b l) eq_refl) ]
  | |- context [warningsFor ?s (altWarning ?n)] =>
      first [ rewrite (warningsFor_all s _ (altWarning_solution n))
            | rewrite (warningsFor_none s altSolution _
                         (altWarning_solution n) eq_refl) ]
  end;
  rewrite ?app_nil_r; simpl.

Lemma snapshot_largeImages v nodes resources withoutAlt :
  warningsFor largeImagesSolution (warnings (snapshotOf numberToString v nodes resources withoutAlt))
  = largeImagesWarning numberToString (exceeds (lcp v) 2500) (filter isImage resources).
Proof. by_rule. reflexivity. Qed.

Lemma snapshot_layout v nodes resources withoutAlt :
  warningsFor layoutSolution (warnings (snapshotOf numberToString v nodes resources withoutAlt))
  = layoutWarning numberToString v.
Proof. by_rule. reflexivity. Qed.

Lemma snapshot_server v nodes resources withoutAlt :
  warningsFor serverSolution (warnings (snapshotOf numberToString v nodes resources withoutAlt))
  = serverWarning numberToString v.
Proof. by_rule. reflexivity. Qed.

Lemma snapshot_interactivity v nodes resources withoutAlt :
  warningsFor interactivitySolution (warnings (snapshotOf numberToString v nodes resources withoutAlt))
  = interactivityWarning numberToString v.
Proof. by_rule. reflexivity. Qed.

Lemma snapshot_scripts v nodes resources withoutAlt :
  warningsFor scriptsSolution (warnings (snapshotOf numberToString v nodes resources withoutAlt))
  = scriptsWarning numberToString (exceeds (lcp v) 2500) (filter isScript resources).
Proof. by_rule. reflexivity. Qed.

(** ** Number formatting *)

Lemma below_limit (x : Q) :
  Qabs x < inject_Z (10 ^ 21) -> Qle_bool (inject_Z (10 ^ 21)) (Qabs x) = false.
Proof.
  intros Hlt. apply not_true_iff_false. rewrite Qle_bool_iff.
  apply Qlt_not_le. exact Hlt.
Qed.

Lemma toFixed_0_round (x : Q) :
  0 <= x -> x < inject_Z (10 ^ 21) ->
  toFixed numberToString x 0 = digitsOf (roundHalfUp x).
Proof.
  intros Hpos Hlt. unfold toFixed, roundHalfUp. cbv zeta.
  assert (Habs : Qabs x == x) by (apply Qabs_pos; exact Hpos).
  rewrite below_limit by (rewrite Habs; exact Hlt).
  replace (Qgtb 0 x) with false by (symmetry; apply Qgtb_le; exact Hpos).
  cbn [append]. f_equal. apply Qfloor_comp. rewrite Habs.
  change (inject_Z (10 ^ Z.of_nat 0)) with 1. ring.
Qed.

(** ** Rule 1: large images *)

Lemma orZero_gt (bound : N) (x : option N) :
  Qgtb (orZero x) (inject_Z (Z.of_N bound)) = true <->
  exists n, x = Some n /\ (bound < n)%N.
Proof.
  rewrite Qgtb_lt. destruct x as [n|]; simpl.
  - rewrite <- Zlt_Qlt. split.
    + intros H. exists n. split; [reflexivity | lia].
    + intros (n' & [= <-] & H). lia.
  - split.
    + intros H. change 0 with (inject_Z 0) in H. rewrite <- Zlt_Qlt in H. lia.
    + intros (n' & [=] & _).
Qed.

Lemma largeImagesOf_In (resources : list Resource) (r : Resource) :
  In r (largeImagesOf resources) <-> In r resources /\ isLargeImage r.
Proof.
  unfold largeImagesOf, isLargeImage, isImage.
  rewrite !filter_In, String.eqb_eq.
  change 200000 with (inject_Z (Z.of_N 200000)). rewrite orZero_gt. tauto.
Qed.

Lemma nonempty_length {E} (l : list E) :
  (0 <? List.length l)%nat = true <-> exists x, In x l.
Proof.
  destruct l as [|x l]; simpl.
  - split; [discriminate | intros [x []]].
  - split; [eauto | reflexivity].
Qed.

Lemma largeImagesWarning_eq (b : bool) (resources : list Resource) :
  largeImagesWarning numberToString b (filter isImage resources) =
  if b && (0 <? List.length (largeImagesOf resources))%nat
  then [largeImagesEntry numberToString (largeImagesOf resources)] else [].
Proof.
  unfold largeImagesWarning, largeImagesEntry. fold (largeImagesOf resources).
  destruct b; simpl; [|reflexivity].
  destruct (0 <? List.length (largeImagesOf resources))%nat; reflexivity.
Qed.

Lemma sizes_exist (l : list Resource) :
  (forall r, In r l -> exists n, transferSize r = Some n) ->
  exists sizes, Forall2 (fun r n => transferSize r = Some n) l sizes.
Proof.
  induction l as [|r l IH]; intros H.
  - exists []. constructor.
  - destruct (H r (or_introl eq_refl)) as [n Hn].
    destruct IH as [sizes Hsizes]; [intros r' Hr'; apply H; now right|].
    exists (n :: sizes). now constructor.
Qed.

Lemma sumTransferSize_sizes (l : list Resource) (sizes : list N) :
  Forall2 (fun r n => transferSize r = Some n) l sizes ->
  sumTransferSize l = addedUp (map bytes sizes) /\
  List.length l = List.length sizes.
Proof.
  intros H. unfold sumTransferSize, addedUp. generalize 0 as acc.
  induction H as [|r n l sizes Hr _ IH]; intros acc; [split; reflexivity|].
  destruct (IH (acc + bytes n)) as (Hsum & Hlen).
  cbn [fold_left map List.length]. rewrite Hr. cbn [orZero].
  fold (bytes n). rewrite Hsum, Hlen. split; reflexivity.
Qed.

Lemma filter_filter_ext {E} (f g h : E -> bool) (l : list E) :
  (forall x, h x = f x && g x) -> filter g (filter f l) = filter h l.
Proof.
  intros H. induction l as [|x l IH]; [reflexivity|].
  cbn [filter]. rewrite H. destruct (f x); cbn [filter andb]; [|exact IH].
  destruct (g x); now rewrite IH.
Qed.

Lemma decides_same (P : Prop) (a b : bool) :
  (a = true <-> P) -> (b = true <-> P) -> a = b.
Proof. destruct a, b; intuition congruence. Qed.

Lemma largeImagesOf_filter (resources : list Resource) (isLarge : Resource -> bool) :
  (forall r, isLarge r = true <-> isLargeImage r) ->
  largeImagesOf resources = filter isLarge resources.
Proof.
  intros H. unfold largeImagesOf. apply filter_filter_ext. intros r.
  apply (decides_same (isLargeImage r)); [apply H|].
  unfold isLargeImage, isImage. rewrite andb_true_iff, String.eqb_eq.
  change 200000 with (inject_Z (Z.of_N 200000)). now rewrite orZero_gt.
Qed.

(** C4. On a page the aggregator can read: the large-images warning is in
    the snapshot exactly when the stored [lcp] is above 2500 and some image
    resource transferred more than 200000 bytes; it is then one warning, of
    severity [high].  The large images are the resources that are images of
    more than 200000 transferred bytes, in the order of the resource list
    and as often as they occur there; with [sizes] their transferred sizes,
    the title gives how many they are and the average: the sizes added up
    from 0, divided by their number and then by 1024, printed by
    [toFixed(0)], which is that value rounded to the nearest integer.  With
    [lcp = 3000] and one image of 300000 bytes the title is
    [1 large images detected (avg 293KB)]; with images of 300000, 100000
    and 500000 bytes and one of unknown size it is
    [2 large images detected (avg 391KB)]; with [lcp = 2000] there is no
    such warning whatever the images. *)
Theorem large_images_rule (env : Browser) (w : World)
        (nodes : nat) (resources : list Resource) (withoutAlt : nat) :
  readable env nodes resources withoutAlt ->
  exists snap sizes,
    result (calculatePerformanceMetrics numberToString env) w = Returned snap /\
    let emitted := warningsFor largeImagesSolution (warnings snap) in
    let large := largeImagesOf resources in
    let kb := addedUp (map bytes sizes)
              / inject_Z (Z.of_nat (List.length sizes)) / 1024 in
    ((exists x, In x (warnings snap) /\ solution x = largeImagesSolution) <->
     (exists l, lcp (observedVitals w) = Some l /\ 2500 < l) /\
     (exists r, In r resources /\ isLargeImage r)) /\
    Forall2 (fun r n => transferSize r = Some n) large sizes /\
    (forall isLarge : Resource -> bool,
        (forall r, isLarge r = true <-> isLargeImage r) ->
        large = filter isLarge resources) /\
    (emitted = [] \/
     emitted = [ {| title := natToString (List.length sizes)
                             ++ " large images detected (avg "
                             ++ toFixed numberToString kb 0 ++ "KB)";
                    solution := largeImagesSolution;
                    severity := high |} ]) /\
    (forall r, In r large <-> In r resources /\ isLargeImage r) /\
    (0 <= kb -> kb < inject_Z (10 ^ 21) ->
     toFixed numberToString kb 0 = digitsOf (roundHalfUp kb)) /\
    (forall r, lcp (observedVitals w) = Some 3000 ->
               filter isImage resources = [r] ->
               transferSize r = Some 300000%N ->
               emitted = [ {| title := "1 large images detected (avg 293KB)";
                              solution := largeImagesSolution;
                              severity := high |} ]) /\
    (forall r1 r2 r3 r4,
        lcp (observedVitals w) = Some 3000 ->
        filter isImage resources = [r1; r2; r3; r4] ->
        transferSize r1 = Some 300000%N ->
        transferSize r2 = Some 100000%N ->
        transferSize r3 = Some 500000%N ->
        transferSize r4 = None ->
        emitted = [ {| title := "2 large images detected (avg 391KB)";
                       solution := largeImagesSolution;
                       severity := high |} ]) /\
    (lcp (observedVitals w) = Some 2000 -> emitted = []).
Proof.
  intros Hread.
  destruct (sizes_exist (largeImagesOf resources)) as [sizes Hsizes].
  { intros r Hr. apply largeImagesOf_In in Hr.
    destruct Hr as (_ & _ & n & Hn & _). now exists n. }
  destruct (sumTransferSize_sizes _ _ Hsizes) as (Hsum & Hlen).
  eexists. exists sizes. split.
  { unfold result. rewrite (calculate_readable env w _ _ _ Hread). reflexivity. }
  cbv zeta. rewrite snapshot_largeImages, largeImagesWarning_eq.
  split; [|split; [|split; [|split; [|split; [|split; [|split; [|split]]]]]]].
  - split.
    + intros (x & Hin & Hsol).
      assert (Hx : In x (warningsFor largeImagesSolution
                  (warnings (snapshotOf numberToString (observedVitals w) nodes resources withoutAlt))))
        by (apply warningsFor_In; auto).
      rewrite snapshot_largeImages, largeImagesWarning_eq in Hx.
      destruct (exceeds (lcp (observedVitals w)) 2500) eqn:Hl; [|destruct Hx].
      destruct (0 <? List.length (largeImagesOf resources))%nat eqn:Hn; [|destruct Hx].
      apply exceeds_spec in Hl. apply nonempty_length in Hn.
      split; [exact Hl|]. destruct Hn as [r Hr]. exists r.
      now apply largeImagesOf_In.
    + intros (Hl & r & Hr). apply exceeds_spec in Hl.
      assert (Hn : (0 <? List.length (largeImagesOf resources))%nat = true)
        by (apply nonempty_length; exists r; now apply largeImagesOf_In).
      exists (largeImagesEntry numberToString (largeImagesOf resources)). split; [|reflexivity].
      apply (warningsFor_In largeImagesSolution).
      rewrite snapshot_largeImages, largeImagesWarning_eq, Hl, Hn. now left.
  - exact Hsizes.
  - intros isLarge. apply largeImagesOf_filter.
  - destruct (exceeds (lcp (observedVitals w)) 2500 &&
              (0 <? List.length (largeImagesOf resources))%nat);
      [right | left; reflexivity].
    unfold largeImagesEntry, lengthQ. rewrite Hsum, Hlen. reflexivity.
  - apply largeImagesOf_In.
  - apply toFixed_0_round.
  - intros [ty sz] Hl Himg Hsize. simpl in Hsize. subst sz.
    unfold largeImagesOf. rewrite Hl, Himg. vm_compute. reflexivity.
  - intros [t1 s1] [t2 s2] [t3 s3] [t4 s4] Hl Himg H1 H2 H3 H4.
    simpl in H1, H2, H3, H4. subst s1 s2 s3 s4.
    unfold largeImagesOf. rewrite Hl, Himg. vm_compute. reflexivity.
  - intros Hl. rewrite Hl. reflexivity.
Qed.

(** ** Decimals printed by [toFixed] *)

Lemma length_append (a b : string) :
  String.length (a ++ b) = (String.length a + String.length b)%nat.
Proof. induction a as [|c a IH]; simpl; [reflexivity | now rewrite IH]. Qed.

Lemma append_assoc (a b c : string) : (a ++ b) ++ c = a ++ (b ++ c).
Proof. induction a as [|x a IH]; simpl; [reflexivity | now rewrite IH]. Qed.

Lemma length_zeros (k : nat) : String.length (zeros k) = k.
Proof. induction k as [|k IH]; simpl; [reflexivity | now rewrite IH]. Qed.

Lemma length_substring (s : string) :
  forall n m, (n + m <= String.length s)%nat ->
              String.length (substring n m s) = m.
Proof.
  induction s as [|c s IH]; intros n m H; simpl in H.
  - assert (n = O) by lia. assert (m = O) by lia. subst. reflexivity.
  - destruct n as [|n]; simpl.
    + destruct m as [|m]; simpl; [reflexivity|]. rewrite IH; [reflexivity | lia].
    + apply IH. lia.
Qed.

Lemma substring_all (s : string) : substring 0 (String.length s) s = s.
Proof. induction s as [|c s IH]; simpl; [reflexivity | now rewrite IH]. Qed.

Lemma substring_split (s : string) :
  forall k, (k <= String.length s)%nat ->
            substring 0 k s ++ substring k (String.length s - k) s = s.
Proof.
  induction s as [|c s IH]; intros k H; simpl in H.
  - assert (k = O) by lia. subst. reflexivity.
  - destruct k as [|k].
    + rewrite Nat.sub_0_r, substring_all. reflexivity.
    + simpl. f_equal. apply IH. lia.
Qed.

Lemma toFixed_decimals (x : Q) (f : nat) :
  Qabs x < inject_Z (10 ^ 21) -> f <> O ->
  exists whole decimals,
    toFixed numberToString x f =
      (if Qgtb 0 x then "-" else "") ++ whole ++ "." ++ decimals /\
    String.length decimals = f /\
    whole ++ decimals = paddedDigits x f /\
    whole <> "".
Proof.
  intros Hlt Hf. unfold toFixed. cbv zeta. rewrite (below_limit x Hlt).
  destruct f as [|f']; [contradiction|].
  fold (paddedDigits x (S f')).
  set (p := paddedDigits x (S f')).
  assert (Hlen : (S f' < String.length p)%nat).
  { unfold p, paddedDigits. cbv zeta.
    destruct (String.length _ <=? S f')%nat eqn:Hle.
    - apply Nat.leb_le in Hle. rewrite length_append, length_zeros. lia.
    - apply Nat.leb_gt in Hle. exact Hle. }
  exists (substring 0 (String.length p - S f') p),
         (substring (String.length p - S f') (S f') p).
  split; [reflexivity|].
  split; [apply length_substring; lia|].
  split.
  - replace (S f') with (String.length p - (String.length p - S f'))%nat at 3 by lia.
    apply substring_split. lia.
  - intros Hempty.
    assert (H := length_substring p O (String.length p - S f') ltac:(lia)).
    rewrite Hempty in H. simpl in H. lia.
Qed.

(** ** Rules 2 to 5: layout, server response, interactivity, scripts *)

Lemma serverWarning_In (v : PerformanceMetrics) :
  (exists x, In x (serverWarning numberToString v)) <->
  exists t, ttfb v = Some t /\ 800 < t.
Proof.
  unfold serverWarning. destruct (ttfb v) as [t|].
  - destruct (Qgtb t 800) eqn:Ht.
    + apply Qgtb_lt in Ht. split; [eauto | intros _; eexists; now left].
    + apply Qgtb_le in Ht. split; [intros [x []]|].
      intros (t' & [= <-] & Hlt). exfalso. exact (Qlt_not_le _ _ Hlt Ht).
  - split; [intros [x []] | intros (t' & [=] & _)].
Qed.

Lemma interactivityWarning_In (v : PerformanceMetrics) :
  (exists x, In x (interactivityWarning numberToString v)) <->
  (exists f, fid v = Some f /\ 100 < f) \/ (exists i, inp v = Some i /\ 200 < i).
Proof.
  rewrite <- !exceeds_spec. unfold interactivityWarning. cbv zeta.
  destruct (exceeds (fid v) 100), (exceeds (inp v) 200); simpl;
    (split; [intros _; auto | intros _; eexists; now left])
    || (split; [intros [x []] | intros [[=]|[=]]]).
Qed.

(** C9. On a page the aggregator can read: the poor-interactivity warning
    is in the snapshot exactly when the stored [fid] is present and above
    100 or the stored [inp] is present and above 200; it is one warning of
    severity [high]; whenever [fid] is above 100, so also when both are
    over their limits, its text shows the FID value, and it shows the INP
    value only when [fid] is not over its limit. *)
Theorem interactivity_rule (env : Browser) (w : World)
        (nodes : nat) (resources : list Resource) (withoutAlt : nat) :
  readable env nodes resources withoutAlt ->
  exists snap,
    result (calculatePerformanceMetrics numberToString env) w = Returned snap /\
    let v := observedVitals w in
    let emitted := warningsFor interactivitySolution (warnings snap) in
    ((exists x, In x (warnings snap) /\ solution x = interactivitySolution) <->
     (exists f, fid v = Some f /\ 100 < f) \/ (exists i, inp v = Some i /\ 200 < i)) /\
    (emitted = [] \/
     exists text, emitted = [ {| title := text;
                                 solution := interactivitySolution;
                                 severity := high |} ]) /\
    (forall f, fid v = Some f -> 100 < f ->
       emitted = [ {| title := "Slow interactivity detected (FID: "
                               ++ numberToString f ++ "ms)";
                      solution := interactivitySolution;
                      severity := high |} ]) /\
    (forall i, inp v = Some i -> 200 < i -> exceeds (fid v) 100 = false ->
       emitted = [ {| title := "Slow interactivity detected (INP: "
                               ++ numberToString i ++ "ms)";
                      solution := interactivitySolution;
                      severity := high |} ]).
Proof.
  intros Hread. eexists. split.
  { unfold result. rewrite (calculate_readable env w _ _ _ Hread). reflexivity. }
  cbv zeta. rewrite snapshot_interactivity.
  split; [|split; [|split]].
  - rewrite <- interactivityWarning_In, <- snapshot_interactivity
      with (nodes := nodes) (resources := resources) (withoutAlt := withoutAlt).
    split.
    + intros (x & Hin & Hsol). exists x. now apply warningsFor_In.
    + intros (x & Hx). exists x. now apply warningsFor_In in Hx.
  - unfold interactivityWarning. cbv zeta.
    destruct (exceeds (fid (observedVitals w)) 100 ||
              exceeds (inp (observedVitals w)) 200); [right; eauto | left; reflexivity].
  - intros f Hf Hlt. unfold interactivityWarning. cbv zeta.
    assert (He : exceeds (fid (observedVitals w)) 100 = true)
      by (apply exceeds_spec; eauto).
    rewrite He, Hf. simpl. now rewrite append_assoc.
  - intros i Hi Hlt Hfid. unfold interactivityWarning. cbv zeta.
    assert (He : exceeds (inp (observedVitals w)) 200 = true)
      by (apply exceeds_spec; eauto).
    rewrite He, Hfid, Hi. simpl. now rewrite append_assoc.
Qed.

(** Below [10^21] the text printed depends on the value only, not on the
    fraction that represents it. *)
Lemma toFixed_Qeq (x y : Q) (f : nat) :
  x == y -> Qabs y < inject_Z (10 ^ 21) ->
  toFixed numberToString x f = toFixed numberToString y f.
Proof.
  intros Heq Hlt. unfold toFixed. cbv zeta.
  assert (Habs : Qabs x == Qabs y) by (rewrite Heq; reflexivity).
  rewrite (below_limit y Hlt), (below_limit x) by (rewrite Habs; exact Hlt).
  replace (Qfloor (Qabs x * inject_Z (10 ^ Z.of_nat f) + (1 # 2)))
    with (Qfloor (Qabs y * inject_Z (10 ^ Z.of_nat f) + (1 # 2)))
    by (apply Qfloor_comp; rewrite Habs; reflexivity).
  replace (Qgtb 0 x) with (Qgtb 0 y) by (unfold Qgtb; rewrite Heq; reflexivity).
  reflexivity.
Qed.

Lemma snapshot_title (s : string) (snap : ExtendedPerformanceMetrics)
      (entry : PerformanceWarning) :
  warningsFor s (warnings snap) = [] \/ warningsFor s (warnings snap) = [entry] ->
  forall x, In x (warnings snap) -> solution x = s -> title x = title entry.
Proof.
  intros H x Hin Hsol.
  assert (Hx : In x (warningsFor s (warnings snap))) by (apply warningsFor_In; auto).
  destruct H as [H|H]; rewrite H in Hx;
    [destruct Hx | destruct Hx as [<-|[]]; reflexivity].
Qed.

(** C5, as the code has it.  On a page the aggregator can read, the numbers
    in the warning titles are printed by [toFixed]: the KB figures (mean
    size of the large images, total size of the large scripts, divided by
    1024) with no decimals, which is the value rounded to the nearest
    integer, a tie going up; the CLS value with exactly three decimals
    ([0.12345] gives [0.123]); the TTFB value with no decimals.  The TTFB
    warning is in the snapshot exactly when [ttfb] is present and above
    800: [799.6] gives no warning, [800.1] gives one that prints [800]. *)
Theorem title_number_formats (env : Browser) (w : World)
        (nodes : nat) (resources : list Resource) (withoutAlt : nat) :
  readable env nodes resources withoutAlt ->
  exists snap,
    result (calculatePerformanceMetrics numberToString env) w = Returned snap /\
    let v := observedVitals w in
    let images := largeImagesOf resources in
    let scripts := largeScriptsOf resources in
    (forall x, In x (warnings snap) -> solution x = largeImagesSolution ->
       title x = natToString (List.length images) ++ " large images detected (avg "
                 ++ toFixed numberToString
                      (sumTransferSize images / lengthQ images / 1024) 0
                 ++ "KB)") /\
    (forall x, In x (warnings snap) -> solution x = scriptsSolution ->
       title x = "Heavy JavaScript detected ("
                 ++ toFixed numberToString (sumTransferSize scripts / 1024) 0
                 ++ "KB across " ++ natToString (List.length scripts) ++ " files)") /\
    (forall q, 0 <= q -> q < inject_Z (10 ^ 21) ->
       toFixed numberToString q 0 = digitsOf (roundHalfUp q)) /\
    (forall x, In x (warnings snap) -> solution x = layoutSolution ->
       title x = "Poor layout stability (CLS: "
                 ++ toFixed numberToString (cls v) 3 ++ ")") /\
    (Qabs (cls v) < inject_Z (10 ^ 21) ->
     exists whole decimals,
       toFixed numberToString (cls v) 3 =
         (if Qgtb 0 (cls v) then "-" else "") ++ whole ++ "." ++ decimals /\
       String.length decimals = 3%nat /\
       whole ++ decimals = paddedDigits (cls v) 3) /\
    (cls v == 12345 # 100000 ->
     warningsFor layoutSolution (warnings snap) =
       [ {| title := "Poor layout stability (CLS: 0.123)";
            solution := layoutSolution;
            severity := high |} ]) /\
    ((exists x, In x (warnings snap) /\ solution x = serverSolution) <->
     exists t, ttfb v = Some t /\ 800 < t) /\
    (forall x, In x (warnings snap) -> solution x = serverSolution ->
       exists t, ttfb v = Some t /\
                 title x = "Slow server response time ("
                           ++ toFixed numberToString t 0 ++ "ms)") /\
    (forall t, ttfb v = Some t -> t == 7996 # 10 ->
       warningsFor serverSolution (warnings snap) = []) /\
    (forall t, ttfb v = Some t -> t == 8001 # 10 ->
       warningsFor serverSolution (warnings snap) =
         [ {| title := "Slow server response time (800ms)";
              solution := serverSolution;
              severity := medium |} ]).
Proof.
  intros Hread. eexists. split.
  { unfold result. rewrite (calculate_readable env w _ _ _ Hread). reflexivity. }
  cbv zeta.
  set (v := observedVitals w).
  set (snap := snapshotOf numberToString v nodes resources withoutAlt).
  assert (Himg := snapshot_largeImages v nodes resources withoutAlt).
  assert (Hscr := snapshot_scripts v nodes resources withoutAlt).
  assert (Hlay := snapshot_layout v nodes resources withoutAlt).
  assert (Hsrv := snapshot_server v nodes resources withoutAlt).
  fold snap in Himg, Hscr, Hlay, Hsrv.
  repeat match goal with |- _ /\ _ => split end.
  - apply (snapshot_title largeImagesSolution snap
             (largeImagesEntry numberToString (largeImagesOf resources))).
    rewrite Himg, largeImagesWarning_eq.
    destruct (_ && _); [right | left]; reflexivity.
  - apply (snapshot_title scriptsSolution snap
             {| title := "Heavy JavaScript detected ("
                  ++ toFixed numberToString
                       (sumTransferSize (largeScriptsOf resources) / 1024) 0
                  ++ "KB across "
                  ++ natToString (List.length (largeScriptsOf resources)) ++ " files)";
                solution := scriptsSolution; severity := medium |}).
    rewrite Hscr. unfold scriptsWarning. fold (largeScriptsOf resources).
    destruct (exceeds (lcp v) 2500); [|left; reflexivity].
    destruct (0 <? _)%nat; [right | left]; reflexivity.
  - apply toFixed_0_round.
  - apply (snapshot_title layoutSolution snap
             {| title := "Poor layout stability (CLS: "
                  ++ toFixed numberToString (cls v) 3 ++ ")";
                solution := layoutSolution; severity := high |}).
    rewrite Hlay. unfold layoutWarning.
    destruct (Qgtb (cls v) (1 # 10)); [right | left]; reflexivity.
  - intros Hlt.
    destruct (toFixed_decimals (cls v) 3 Hlt ltac:(discriminate))
      as (whole & decimals & H1 & H2 & H3 & _).
    exists whole, decimals. auto.
  - intros Hcls. rewrite Hlay. unfold layoutWarning.
    replace (Qgtb (cls v) (1 # 10)) with true
      by (symmetry; apply Qgtb_lt; rewrite Hcls; reflexivity).
    rewrite (toFixed_Qeq (cls v) (12345 # 100000) 3 Hcls) by reflexivity.
    vm_compute. reflexivity.
  - rewrite <- serverWarning_In, <- Hsrv. split.
    + intros (x & Hin & Hsol). exists x. now apply warningsFor_In.
    + intros (x & Hx). exists x. now apply warningsFor_In in Hx.
  - intros x Hin Hsol.
    assert (Hx : In x (warningsFor serverSolution (warnings snap)))
      by (apply warningsFor_In; auto).
    rewrite Hsrv in Hx. unfold serverWarning in Hx.
    destruct (ttfb v) as [t|]; [|destruct Hx].
    exists t. split; [reflexivity|].
    destruct (Qgtb t 800); [|destruct Hx]. destruct Hx as [<-|[]]. reflexivity.
  - intros t Ht Heq. rewrite Hsrv. unfold serverWarning. rewrite Ht.
    replace (Qgtb t 800) with false; [reflexivity|].
    symmetry. apply Qgtb_le. rewrite Heq. discriminate.
  - intros t Ht Heq. rewrite Hsrv. unfold serverWarning. rewrite Ht.
    replace (Qgtb t 800) with true
      by (symmetry; apply Qgtb_lt; rewrite Heq; reflexivity).
    rewrite (toFixed_Qeq t (8001 # 10) 0 Heq) by reflexivity.
    vm_compute. reflexivity.
Qed.

(** ** Reset *)

Lemma calculate_reads_vitals (env : Browser) (w w' : World) :
  observedVitals w = observedVitals w' ->
  result (calculatePerformanceMetrics numberToString env) w =
  result (calculatePerformanceMetrics numberToString env) w'.
Proof.
  intros Hv.
  unfold result, calculatePerformanceMetrics, aggregate, tryCatch, bind, update,
    call, readWorld, ret.
  destruct (hasPerformance env); simpl; [|reflexivity].
  destruct (allElements env); [|reflexivity].
  destruct (resourceEntries env); [|reflexivity].
  destruct (imgsWithoutAlt env); [|reflexivity].
  simpl. rewrite Hv. reflexivity.
Qed.

Lemma getMetrics_recomputes (env : Browser) (now : Z) (w : World) :
  cachedPerformanceMetrics w = None ->
  result (getPerformanceMetrics numberToString env now) w =
    result (calculatePerformanceMetrics numberToString env) w /\
  aggregatorCalls (exec (getPerformanceMetrics numberToString env now) w) =
    S (aggregatorCalls w).
Proof.
  intros Hc. destruct (calculate_total env w) as [m Hm].
  unfold result, exec.
  rewrite (getMetrics_miss env now w m (or_introl Hc) Hm), Hm. split; reflexivity.
Qed.

Lemma calculate_vitals (env : Browser) (w : World) :
  exists snap,
    result (calculatePerformanceMetrics numberToString env) w = Returned snap /\
    (vitals snap = observedVitals w \/ snap = getEmptyMetrics).
Proof.
  unfold result, calculatePerformanceMetrics, aggregate, tryCatch, bind, update,
    call, readWorld, ret.
  destruct (hasPerformance env); simpl;
    [destruct (allElements env);
       [destruct (resourceEntries env); [destruct (imgsWithoutAlt env)|]|]|];
    simpl; eexists; (split; [reflexivity|]);
    first [left; reflexivity | right; reflexivity].
Qed.

Lemma initWebVitals_after_reset (env : Browser) (w : World) :
  let again := exec (initWebVitals env) (exec resetWebVitals w) in
  observedVitals again = observedVitals (exec (initWebVitals env) initialWorld) /\
  cachedPerformanceMetrics again = None /\
  vitalsObserversInitialized again = hasPerformanceObserver env.
Proof.
  unfold exec. rewrite resetWebVitals_eq, !initWebVitals_eq. simpl.
  destruct (hasPerformanceObserver env); simpl; [|auto].
  unfold withTtfb, subscribe.
  destruct (navigationEntry env) as [[nav|]|e];
    destruct (observeSupported env largest_contentful_paint),
             (observeSupported env layout_shift),
             (observeSupported env first_input),
             (observeSupported env event); simpl; auto.
Qed.

(** C7. After [resetWebVitals] the four optional vitals are absent and
    [cls] is zero, the initialization flag is cleared, so that a following
    [initWebVitals] runs again, and the cache is empty.  A following
    [getPerformanceMetrics], at any time and on any page, directly or after
    a new initialization, enters the aggregator instead of using what was
    cached, and hands out what a freshly loaded module would: directly
    after the reset its vitals are all absent or zero, and nothing of the
    snapshot depends on the state before the reset. *)
Theorem reset_clears_everything (env env' : Browser) (now : Z) (w : World) :
  let w0 := exec resetWebVitals w in
  let again := exec (initWebVitals env') w0 in
  result resetWebVitals w = Returned tt /\
  observedVitals w0 = mkVitals None 0 None None None /\
  vitalsObserversInitialized w0 = false /\
  cachedPerformanceMetrics w0 = None /\
  lastMetricsCalculationTime w0 = 0%Z /\
  vitalsObserversInitialized again = hasPerformanceObserver env' /\
  (exists snap,
     result (getPerformanceMetrics numberToString env now) w0 = Returned snap /\
     vitals snap = mkVitals None 0 None None None) /\
  result (getPerformanceMetrics numberToString env now) w0 =
    result (getPerformanceMetrics numberToString env now) initialWorld /\
  aggregatorCalls (exec (getPerformanceMetrics numberToString env now) w0) =
    S (aggregatorCalls w0) /\
  result (getPerformanceMetrics numberToString env now) again =
    result (getPerformanceMetrics numberToString env now)
           (exec (initWebVitals env') initialWorld) /\
  aggregatorCalls (exec (getPerformanceMetrics numberToString env now) again) =
    S (aggregatorCalls again).
Proof.
  intros w0 again.
  assert (Hw0 : w0 = mkWorld None 0 false noVitals (observers w) (aggregatorCalls w))
    by (unfold w0, exec; now rewrite resetWebVitals_eq).
  destruct (initWebVitals_after_reset env' w) as (Hv & Hc & Hi).
  fold w0 in Hv, Hc, Hi. fold again in Hv, Hc, Hi.
  assert (Hc0 : cachedPerformanceMetrics w0 = None) by (now rewrite Hw0).
  destruct (getMetrics_recomputes env now w0 Hc0) as (Hr0 & Hn0).
  destruct (getMetrics_recomputes env now again Hc) as (Hr1 & Hn1).
  assert (Hfresh : cachedPerformanceMetrics (exec (initWebVitals env') initialWorld) = None).
  { unfold exec. rewrite initWebVitals_eq. simpl.
    destruct (hasPerformanceObserver env'); [|reflexivity].
    unfold withTtfb, subscribe.
    destruct (navigationEntry env') as [[nav|]|e];
      destruct (observeSupported env' largest_contentful_paint),
               (observeSupported env' layout_shift),
               (observeSupported env' first_input),
               (observeSupported env' event); reflexivity. }
  repeat match goal with |- _ /\ _ => split end;
    try reflexivity; try (rewrite Hw0; reflexivity); try assumption.
  - destruct (calculate_vitals env w0) as (snap & Hs & Hvit).
    exists snap. rewrite Hr0. split; [exact Hs|].
    destruct Hvit as [-> | ->]; [rewrite Hw0|]; reflexivity.
  - rewrite Hr0.
    destruct (getMetrics_recomputes env now initialWorld eq_refl) as (-> & _).
    apply calculate_reads_vitals. rewrite Hw0. reflexivity.
  - rewrite Hr1.
    destruct (getMetrics_recomputes env now _ Hfresh) as (-> & _).
    apply calculate_reads_vitals. exact Hv.
Qed.

End AggregatorFacts.

(** ** The CLS listener *)

Lemma upToNull_wellFormed {E} (l : list E) : upToNull (map Some l) = l.
Proof. induction l as [|x l IH]; simpl; [reflexivity | now rewrite IH]. Qed.

Lemma shiftTotal_cons (s : LayoutShift) (rest : list LayoutShift) :
  shiftTotal (s :: rest) =
  if hadRecentInput s then shiftTotal rest else value s + shiftTotal rest.
Proof. unfold shiftTotal. simpl. destruct (hadRecentInput s); reflexivity. Qed.

Lemma clsLoop (entries : list (option LayoutShift)) :
  forall w, exists o v,
    forEach
      (fun entry =>
         layoutShift <- property entry ;;
         if negb (hadRecentInput layoutShift)
         then updateVitals (fun v => setCls (cls v + value layoutShift) v)
         else ret tt)
      entries w = (o, setVitals v w) /\
    cls v == cls (observedVitals w) + shiftTotal (upToNull entries).
Proof.
  induction entries as [|[s|] rest IH]; intros w; simpl.
  - exists (Returned tt), (observedVitals w). rewrite setVitals_same.
    split; [reflexivity | unfold shiftTotal; simpl; ring].
  - unfold bind at 1. unfold bind at 1. unfold ret at 1.
    rewrite shiftTotal_cons. destruct (hadRecentInput s); simpl.
    + apply IH.
    + destruct (IH (setVitals (setCls (cls (observedVitals w) + value s)
                                      (observedVitals w)) w))
        as (o & v & -> & Hv).
      exists o, v. split; [reflexivity|]. rewrite Hv. simpl. ring.
  - exists (Thrown "TypeError"), (observedVitals w). rewrite setVitals_same.
    split; [reflexivity | unfold shiftTotal; simpl; ring].
Qed.

Lemma clsCallback_sum (entryList : EntryList LayoutShift) (w : World) :
  exists v,
    clsCallback entryList w = (Returned tt, setVitals v w) /\
    cls v == cls (observedVitals w) + shiftTotal (handled entryList).
Proof.
  unfold clsCallback, tryCatch, bind at 1, call.
  destruct entryList as [entries|e]; simpl.
  - destruct (clsLoop entries w) as (o & v & -> & Hv).
    exists v. split; [destruct o as [[]|]; reflexivity | exact Hv].
  - exists (observedVitals w). rewrite setVitals_same.
    split; [reflexivity | unfold shiftTotal; simpl; ring].
Qed.

Lemma deliver_step (d : Delivery) (w : World) :
  oneClsObserver w ->
  exists v,
    deliver d w = (Returned tt, setVitals v w) /\
    cls v == cls (observedVitals w) + shiftTotal (shiftsHandled d).
Proof.
  intros Hone.
  assert (Hother : entryTypeOf d <> layout_shift -> shiftsHandled d = [] ->
                   exists v, deliver d w = (Returned tt, setVitals v w) /\
                             cls v == cls (observedVitals w) + shiftTotal (shiftsHandled d)).
  { intros Hty Hnil. destruct (deliver_other_quiet d Hty w) as (v & Hd & Hcls).
    exists v. split; [exact Hd|]. rewrite Hnil, Hcls. unfold shiftTotal. simpl. ring. }
  destruct d as [l|l|l|l]; try (apply Hother; [discriminate | reflexivity]).
  unfold deliver, bind at 1, readWorld. simpl entryTypeOf. rewrite Hone.
  simpl. unfold bind.
  destruct (clsCallback_sum l w) as (v & -> & Hv).
  exists v. split; [reflexivity | exact Hv].
Qed.

Lemma initWebVitals_oneClsObserver (env : Browser) :
  hasPerformanceObserver env = true ->
  observeSupported env layout_shift = true ->
  oneClsObserver (exec (initWebVitals env) initialWorld) /\
  cls (observedVitals (exec (initWebVitals env) initialWorld)) = 0.
Proof.
  intros Hpo Hcls. unfold exec, oneClsObserver.
  rewrite initWebVitals_eq. simpl. rewrite Hpo.
  unfold withTtfb, subscribe. rewrite Hcls.
  destruct (navigationEntry env) as [[nav|]|e];
    destruct (observeSupported env largest_contentful_paint),
             (observeSupported env first_input),
             (observeSupported env event); split; reflexivity.
Qed.

(** ** Initialization is idempotent *)

Lemma initWebVitals_sets_flag (env : Browser) (w : World) :
  vitalsObserversInitialized w = false ->
  hasPerformanceObserver env = true ->
  vitalsObserversInitialized (exec (initWebVitals env) w) = true.
Proof.
  intros Hflag Hpo. unfold exec. rewrite initWebVitals_eq, Hflag, Hpo.
  unfold withTtfb, subscribe. simpl.
  destruct (navigationEntry env) as [[nav|]|e];
    destruct (observeSupported env largest_contentful_paint),
             (observeSupported env layout_shift),
             (observeSupported env first_input),
             (observeSupported env event); reflexivity.
Qed.

Lemma initWebVitals_noop (env : Browser) (w : World) :
  vitalsObserversInitialized w = true -> initWebVitals env w = (Returned tt, w).
Proof. intros H. now rewrite initWebVitals_eq, H. Qed.

Lemma initWebVitals_subscriptions (env : Browser) (ty : EntryType) :
  subscriptions ty (exec (initWebVitals env) initialWorld) =
  if hasPerformanceObserver env && observeSupported env ty then 1%nat else 0%nat.
Proof.
  unfold exec, subscriptions. rewrite initWebVitals_eq. simpl.
  destruct (hasPerformanceObserver env); simpl; [|reflexivity].
  unfold withTtfb, subscribe.
  destruct (navigationEntry env) as [[nav|]|e];
    destruct (observeSupported env largest_contentful_paint) eqn:H1,
             (observeSupported env layout_shift) eqn:H2,
             (observeSupported env first_input) eqn:H3,
             (observeSupported env event) eqn:H4;
    destruct ty; rewrite ?H1, ?H2, ?H3, ?H4; reflexivity.
Qed.

(** C6. [initWebVitals] on an initialized module changes nothing; two
    calls in a row leave what one call leaves; started from the freshly
    loaded module they leave one subscription for each entry type the
    platform supports and none for the others, so that one layout-shift
    entry delivered afterwards is added to [cls] once. *)
Theorem initWebVitals_idempotent (env : Browser) (w : World) (shift : LayoutShift) :
  (vitalsObserversInitialized w = true ->
   initWebVitals env w = (Returned tt, w)) /\
  exec (initWebVitals env) (exec (initWebVitals env) w) = exec (initWebVitals env) w /\
  (forall ty,
      subscriptions ty (exec (initWebVitals env) (exec (initWebVitals env) initialWorld)) =
      if hasPerformanceObserver env && observeSupported env ty then 1%nat else 0%nat) /\
  (hasPerformanceObserver env = true ->
   observeSupported env layout_shift = true ->
   hadRecentInput shift = false ->
   cls (observedVitals
          (exec (deliver (layoutShifts (wellFormed [shift])))
                (exec (initWebVitals env) (exec (initWebVitals env) initialWorld))))
   == value shift).
Proof.
  assert (Htwice : forall w', exec (initWebVitals env) (exec (initWebVitals env) w')
                              = exec (initWebVitals env) w').
  { intros w'. destruct (vitalsObserversInitialized w') eqn:Hflag.
    - unfold exec. rewrite (initWebVitals_noop env w' Hflag). simpl.
      now rewrite (initWebVitals_noop env w' Hflag).
    - destruct (hasPerformanceObserver env) eqn:Hpo.
      + unfold exec at 1.
        now rewrite (initWebVitals_noop env _ (initWebVitals_sets_flag env w' Hflag Hpo)).
      + assert (Hsame : exec (initWebVitals env) w' = w')
          by (unfold exec; now rewrite initWebVitals_eq, Hflag, Hpo).
        now rewrite !Hsame. }
  split; [apply initWebVitals_noop|]. split; [apply Htwice|]. split.
  - intros ty. rewrite Htwice. apply initWebVitals_subscriptions.
  - intros Hpo Hcls Hin. rewrite Htwice.
    destruct (initWebVitals_oneClsObserver env Hpo Hcls) as (Hone & Hzero).
    destruct (deliver_step (layoutShifts (wellFormed [shift])) _ Hone) as (v & Hd & Hv).
    unfold exec at 1. rewrite Hd. simpl. rewrite Hv, Hzero.
    unfold shiftTotal. simpl. rewrite Hin. simpl. ring.
Qed.

(** ** Reset and the subscriptions *)

(** After a reset the flag no longer guards the subscriptions that are
    still live: a second activation adds a second set next to the first,
    and a layout shift delivered then is added by both callbacks. *)
Lemma activation_after_reset_subscribes_again :
  let again :=
    exec (initWebVitals samplePage)
         (exec resetWebVitals (exec (initWebVitals samplePage) initialWorld)) in
  subscriptions layout_shift again = 2%nat /\
  cls (observedVitals
         (exec (deliver (layoutShifts (wellFormed [ {| hadRecentInput := false;
                                                       value := 1 # 4 |} ])))
               again))
  == 1 # 2.
Proof. split; reflexivity. Qed.

(** * Worked examples *)

Lemma sampleWorld_vitals :
  observedVitals sampleWorld =
  {| lcp := Some 3000; cls := 12345 # 100000; fid := Some 250;
     inp := Some 250; ttfb := Some (8001 # 10) |}.
Proof. reflexivity. Qed.

Lemma samplePage_readable :
  readable samplePage 10
    [ {| initiatorType := "img"; transferSize := Some 300000%N |};
      {| initiatorType := "script"; transferSize := Some 600000%N |};
      {| initiatorType := "css"; transferSize := Some 1000%N |} ] 2.
Proof. repeat split. Defined.

Lemma galleryPage_readable : readable galleryPage 40 galleryResources 1.
Proof. repeat split. Defined.

Lemma getPerformanceMetrics_cache_witness :
  let stored := exec (getPerformanceMetrics integerToString samplePage 1000) sampleWorld in
  cachedPerformanceMetrics sampleWorld = None /\
  aggregatorCalls stored = S (aggregatorCalls sampleWorld) /\
  lastMetricsCalculationTime stored = 1000%Z /\
  exists cached,
    cachedPerformanceMetrics stored = Some cached /\
    (5999 - lastMetricsCalculationTime stored < 5000)%Z /\
    getPerformanceMetrics integerToString brokenPage 5999 stored = (Returned cached, stored).
Proof.
  intros stored.
  destruct (getPerformanceMetrics_cache integerToString samplePage 1000 sampleWorld)
    as [_ Hmiss].
  destruct (Hmiss (or_introl eq_refl)) as (c & w1 & _ & _ & _ & _ & Hc & Ht & Hn).
  fold stored in Hc, Ht, Hn.
  split; [reflexivity|]. split; [exact Hn|]. split; [exact Ht|].
  exists c. split; [exact Hc|].
  assert (Hlt : (5999 - lastMetricsCalculationTime stored < 5000)%Z)
    by (rewrite Ht; reflexivity).
  split; [exact Hlt|].
  destruct (getPerformanceMetrics_cache integerToString brokenPage 5999 stored)
    as [Hhit _].
  exact (proj1 (Hhit c Hc Hlt)).
Defined.

Lemma fallback_on_failure_witness :
  aggregationThrows brokenPage /\
  result (calculatePerformanceMetrics integerToString brokenPage) sampleWorld
  = Returned getEmptyMetrics.
Proof.
  assert (H : aggregationThrows brokenPage) by (left; eexists; reflexivity).
  split; [exact H|].
  exact (proj1 (proj1 (fallback_on_failure integerToString brokenPage 0 sampleWorld) H)).
Defined.

Lemma large_images_rule_witness :
  readable galleryPage 40 galleryResources 1 /\
  exists snap,
    result (calculatePerformanceMetrics integerToString galleryPage) sampleWorld
    = Returned snap /\
    warningsFor largeImagesSolution (warnings snap) =
    [ {| title := "2 large images detected (avg 391KB)";
         solution := largeImagesSolution;
         severity := high |} ].
Proof.
  split; [exact galleryPage_readable|].
  destruct (large_images_rule integerToString galleryPage sampleWorld _ _ _
              galleryPage_readable)
    as (snap & sizes & Hs & _ & _ & _ & _ & _ & _ & _ & Hex & _).
  exists snap. split; [exact Hs|].
  exact (Hex {| initiatorType := "img"; transferSize := Some 300000%N |}
             {| initiatorType := "img"; transferSize := Some 100000%N |}
             {| initiatorType := "img"; transferSize := Some 500000%N |}
             {| initiatorType := "img"; transferSize := None |}
             eq_refl eq_refl eq_refl eq_refl eq_refl eq_refl).
Defined.

Lemma interactivity_rule_witness :
  readable samplePage 10
    [ {| initiatorType := "img"; transferSize := Some 300000%N |};
      {| initiatorType := "script"; transferSize := Some 600000%N |};
      {| initiatorType := "css"; transferSize := Some 1000%N |} ] 2 /\
  fid (observedVitals sampleWorld) = Some 250 /\
  inp (observedVitals sampleWorld) = Some 250 /\
  exists snap,
    result (calculatePerformanceMetrics integerToString samplePage) sampleWorld
    = Returned snap /\
    warningsFor interactivitySolution (warnings snap) =
    [ {| title := "Slow interactivity detected (FID: 250ms)";
         solution := interactivitySolution;
         severity := high |} ].
Proof.
  split; [exact samplePage_readable|]. split; [reflexivity|]. split; [reflexivity|].
  destruct (interactivity_rule integerToString samplePage sampleWorld _ _ _
              samplePage_readable) as (snap & Hs & _ & _ & Hfid & _).
  exists snap. split; [exact Hs|].
  exact (Hfid 250 eq_refl eq_refl).
Defined.

Lemma title_number_formats_witness :
  readable samplePage 10
    [ {| initiatorType := "img"; transferSize := Some 300000%N |};
      {| initiatorType := "script"; transferSize := Some 600000%N |};
      {| initiatorType := "css"; transferSize := Some 1000%N |} ] 2 /\
  exists snap,
    result (calculatePerformanceMetrics integerToString samplePage) sampleWorld
    = Returned snap /\
    warningsFor layoutSolution (warnings snap) =
      [ {| title := "Poor layout stability (CLS: 0.123)";
           solution := layoutSolution;
           severity := high |} ] /\
    warningsFor serverSolution (warnings snap) =
      [ {| title := "Slow server response time (800ms)";
           solution := serverSolution;
           severity := medium |} ].
Proof.
  split; [exact samplePage_readable|].
  destruct (title_number_formats integerToString samplePage sampleWorld _ _ _
              samplePage_readable)
    as (snap & Hs & _ & _ & _ & _ & _ & Hcls & _ & _ & _ & Httfb).
  exists snap. split; [exact Hs|]. split.
  - apply Hcls. reflexivity.
  - apply (Httfb (8001 # 10)); reflexivity.
Defined.

Lemma fallback_is_cached_witness :
  fresh sampleWorld 1000 = false /\
  aggregationThrows brokenPage /\
  result (getMany integerToString [(samplePage, 2000%Z); (samplePage, 5999%Z)])
         (exec (getPerformanceMetrics integerToString brokenPage 1000) sampleWorld)
  = Returned [getEmptyMetrics; getEmptyMetrics].
Proof.
  assert (H : aggregationThrows brokenPage) by (left; eexists; reflexivity).
  split; [reflexivity|]. split; [exact H|].
  assert (Hlater : Forall (fun c : Browser * Z => (snd c - 1000 < 5000)%Z)
                          [(samplePage, 2000%Z); (samplePage, 5999%Z)])
    by (repeat constructor).
  exact (proj1 (proj2 (proj2 (proj2
           (fallback_is_cached integerToString brokenPage 1000 sampleWorld
              [(samplePage, 2000%Z); (samplePage, 5999%Z)]
              eq_refl (or_intror H) Hlater))))).
Defined.

Lemma initWebVitals_idempotent_witness :
  vitalsObserversInitialized sampleWorld = true /\
  initWebVitals samplePage sampleWorld = (Returned tt, sampleWorld) /\
  cls (observedVitals
         (exec (deliver (layoutShifts (wellFormed [ {| hadRecentInput := false;
                                                       value := 1 # 4 |} ])))
               (exec (initWebVitals samplePage)
                     (exec (initWebVitals samplePage) initialWorld))))
  == 1 # 4.
Proof.
  split; [reflexivity|].
  destruct (initWebVitals_idempotent samplePage sampleWorld
              {| hadRecentInput := false; value := 1 # 4 |}) as (Hnoop & _ & _ & Hcls).
  split; [exact (Hnoop eq_refl) | exact (Hcls eq_refl eq_refl eq_refl)].
Defined.

(** ** Where the code departs from the specification *)

(** C5, counterexample.  With [lcp = 3000] and the one image of 300000
    bytes the title reads 293KB, while 300000 / 1024 = 292.96... cut down to
    an integer is 292. *)
Lemma kb_is_rounded_not_truncated :
  kbTruncated 300000 = "292" /\
  exists snap x,
    result (calculatePerformanceMetrics integerToString samplePage) sampleWorld
    = Returned snap /\
    In x (warnings snap) /\
    solution x = largeImagesSolution /\
    title x = "1 large images detected (avg 293KB)" /\
    title x <> "1 large images detected (avg " ++ kbTruncated 300000 ++ "KB)".
Proof.
  split; [reflexivity|].
  eexists. eexists. split; [reflexivity|].
  split; [left; reflexivity|]. split; [reflexivity|]. split; [reflexivity|].
  discriminate.
Qed.

(** C8, counterexample.  The module is activated, then reset; a layout
    shift of 0.25 delivered afterwards still reaches the callback
    registered before the reset, which writes it into the store. *)
Lemma layout_shift_after_reset_is_counted :
  let active := exec (initWebVitals samplePage) initialWorld in
  let stopped := exec resetWebVitals active in
  let later :=
    exec (deliver (layoutShifts (wellFormed [ {| hadRecentInput := false;
                                                 value := 1 # 4 |} ]))) stopped in
  cls (observedVitals stopped) = 0 /\
  subscriptions layout_shift stopped = 1%nat /\
  cls (observedVitals later) = 1 # 4 /\
  observedVitals later <> observedVitals stopped.
Proof.
  repeat split; try reflexivity. discriminate.
Qed.

(** * Further properties *)

(** ** Deliveries as functions on the store *)

Lemma duration_guard (d : Q) :
  negb (Qeq_bool d 0) && Qgtb d 40 = Qgtb d 40.
Proof.
  destruct (Qgtb d 40) eqn:Hgt; [|apply andb_false_r].
  rewrite andb_true_r. apply negb_true_iff, not_true_iff_false.
  rewrite Qeq_bool_iff. intros Hz. apply Qgtb_lt in Hgt.
  rewrite Hz in Hgt. discriminate.
Qed.

Lemma lcpCallback_eq (entryList : EntryList LcpEntry) (w : World) :
  lcpCallback entryList w =
  (Returned tt, setVitals (vitalsStep (lcpEntries entryList) (observedVitals w)) w).
Proof.
  unfold lcpCallback, tryCatch, bind, call, vitalsStep, lcpWritten.
  destruct entryList as [entries|e]; [|now rewrite setVitals_same].
  destruct (last entries None); [reflexivity|].
  unfold ret. now rewrite setVitals_same.
Qed.

Lemma fidCallback_eq (entryList : EntryList FirstInput) (w : World) :
  fidCallback entryList w =
  (Returned tt, setVitals (vitalsStep (firstInputs entryList) (observedVitals w)) w).
Proof.
  unfold fidCallback, tryCatch, bind, call, vitalsStep, fidWritten.
  destruct entryList as [entries|e]; [|now rewrite setVitals_same].
  destruct (hd None entries); [reflexivity|].
  unfold ret. now rewrite setVitals_same.
Qed.

Lemma clsLoop_eq (entries : list (option LayoutShift)) :
  forall w, exists o,
    forEach
      (fun entry =>
         layoutShift <- property entry ;;
         if negb (hadRecentInput layoutShift)
         then updateVitals (fun v => setCls (cls v + value layoutShift) v)
         else ret tt)
      entries w
    = (o, setVitals (fold_left addShift (upToNull entries) (observedVitals w)) w).
Proof.
  induction entries as [|[s|] rest IH]; intros w; simpl.
  - exists (Returned tt). unfold ret. now rewrite setVitals_same.
  - unfold bind at 1. unfold bind at 1. unfold ret at 1.
    unfold addShift at 2. destruct (hadRecentInput s); simpl.
    + apply IH.
    + destruct (IH (setVitals (setCls (cls (observedVitals w) + value s)
                                      (observedVitals w)) w)) as (o & ->).
      exists o. reflexivity.
  - exists (Thrown "TypeError"). unfold bind, call. now rewrite setVitals_same.
Qed.

Lemma clsCallback_eq (entryList : EntryList LayoutShift) (w : World) :
  clsCallback entryList w =
  (Returned tt, setVitals (vitalsStep (layoutShifts entryList) (observedVitals w)) w).
Proof.
  unfold clsCallback, tryCatch, bind at 1, call, vitalsStep, handled.
  destruct entryList as [entries|e];
    [|simpl; unfold ret; now rewrite setVitals_same].
  destruct (clsLoop_eq entries w) as (o & ->). destruct o as [[]|]; reflexivity.
Qed.

Lemma inpLoop_eq (entries : list (option EventTiming)) :
  forall w, exists o,
    forEach
      (fun entry =>
         e <- property entry ;;
         if negb (Qeq_bool (duration e) 0) && Qgtb (duration e) 40
         then
           w' <- readWorld ;;
           match inp (observedVitals w') with
           | None => updateVitals (setInp (Some (duration e)))
           | Some current =>
               if Qgtb (duration e) current
               then updateVitals (setInp (Some (duration e)))
               else ret tt
           end
         else ret tt)
      entries w
    = (o, setVitals (fold_left raiseInp (upToNull entries) (observedVitals w)) w).
Proof.
  induction entries as [|[e|] rest IH]; intros w; simpl.
  - exists (Returned tt). unfold ret. now rewrite setVitals_same.
  - unfold bind at 1. unfold bind at 1. unfold ret at 1.
    unfold raiseInp at 2. rewrite duration_guard.
    destruct (Qgtb (duration e) 40); [|apply IH].
    unfold bind at 1, readWorld at 1.
    destruct (inp (observedVitals w)) as [current|].
    + destruct (Qgtb (duration e) current); [|apply IH].
      destruct (IH (setVitals (setInp (Some (duration e)) (observedVitals w)) w))
        as (o & Ho).
      exists o. exact Ho.
    + destruct (IH (setVitals (setInp (Some (duration e)) (observedVitals w)) w))
        as (o & Ho).
      exists o. exact Ho.
  - exists (Thrown "TypeError"). unfold bind, call. now rewrite setVitals_same.
Qed.

Lemma inpCallback_eq (entryList : EntryList EventTiming) (w : World) :
  inpCallback entryList w =
  (Returned tt, setVitals (vitalsStep (events entryList) (observedVitals w)) w).
Proof.
  unfold inpCallback, tryCatch, bind at 1, call, vitalsStep, handled.
  destruct entryList as [entries|e];
    [|simpl; unfold ret; now rewrite setVitals_same].
  destruct (inpLoop_eq entries w) as (o & ->). destruct o as [[]|]; reflexivity.
Qed.

Lemma callbackOf_eq (d : Delivery) (w : World) :
  callbackOf d w = (Returned tt, setVitals (vitalsStep d (observedVitals w)) w).
Proof.
  destruct d; simpl callbackOf;
    [apply lcpCallback_eq | apply clsCallback_eq
     | apply fidCallback_eq | apply inpCallback_eq].
Qed.

Lemma repeated_callback (d : Delivery) (l : list EntryType) :
  forall w,
    forEach (fun _ : EntryType => callbackOf d) l w =
    (Returned tt, setVitals (Nat.iter (List.length l) (vitalsStep d) (observedVitals w)) w).
Proof.
  induction l as [|ty l IH]; intros w.
  - simpl. unfold ret. now rewrite setVitals_same.
  - cbn [forEach]. unfold bind. rewrite callbackOf_eq, IH, setVitals_twice.
    change (observedVitals (setVitals (vitalsStep d (observedVitals w)) w))
      with (vitalsStep d (observedVitals w)).
    cbn [List.length]. now rewrite Nat.iter_succ_r.
Qed.

(** The monadic delivery, with its loops, [try] blocks and [null] entries,
    is the pure [deliveryEffect] on the store and nothing else. *)
Lemma deliver_eq (d : Delivery) (w : World) :
  deliver d w = (Returned tt, setVitals (deliveryEffect w d (observedVitals w)) w).
Proof.
  unfold deliver, bind at 1, readWorld, deliveryEffect, subscriptions.
  apply repeated_callback.
Qed.

Lemma subscriptions_setVitals (ty : EntryType) (v : PerformanceMetrics) (w : World) :
  subscriptions ty (setVitals v w) = subscriptions ty w.
Proof. reflexivity. Qed.

Lemma deliverAll_from (ds : list Delivery) :
  forall w v,
    deliverAll ds (setVitals v w) =
    (Returned tt, setVitals (fold_left (fun v d => deliveryEffect w d v) ds v) w).
Proof.
  unfold deliverAll. induction ds as [|d ds IH]; intros w v.
  - reflexivity.
  - cbn [forEach fold_left]. unfold bind. rewrite deliver_eq, setVitals_twice.
    change (observedVitals (setVitals v w)) with v.
    unfold deliveryEffect at 1. rewrite subscriptions_setVitals.
    fold (deliveryEffect w d v). apply IH.
Qed.

Lemma deliverAll_eq (ds : list Delivery) (w : World) :
  deliverAll ds w = (Returned tt, setVitals (storeAfter w ds) w).
Proof.
  rewrite <- (setVitals_same w) at 1. rewrite deliverAll_from. reflexivity.
Qed.

(** ** Every observer writes its own metric only *)

Lemma fold_addShift_others (l : list LayoutShift) :
  forall v,
    lcp (fold_left addShift l v) = lcp v /\
    fid (fold_left addShift l v) = fid v /\
    inp (fold_left addShift l v) = inp v /\
    ttfb (fold_left addShift l v) = ttfb v.
Proof.
  induction l as [|s l IH]; intros v; simpl; [auto|].
  destruct (IH (addShift v s)) as (H1 & H2 & H3 & H4).
  rewrite H1, H2, H3, H4. unfold addShift.
  destruct (hadRecentInput s); auto.
Qed.

Lemma fold_raiseInp_others (l : list EventTiming) :
  forall v,
    lcp (fold_left raiseInp l v) = lcp v /\
    cls (fold_left raiseInp l v) = cls v /\
    fid (fold_left raiseInp l v) = fid v /\
    ttfb (fold_left raiseInp l v) = ttfb v.
Proof.
  induction l as [|e l IH]; intros v; simpl; [auto|].
  destruct (IH (raiseInp v e)) as (H1 & H2 & H3 & H4).
  rewrite H1, H2, H3, H4. unfold raiseInp.
  destruct (Qgtb (duration e) 40); [|auto].
  destruct (inp v) as [c|]; [destruct (Qgtb (duration e) c)|]; auto.
Qed.

Lemma vitalsStep_others (d : Delivery) (v : PerformanceMetrics) (ty : EntryType) :
  entryTypeOf d <> ty ->
  fieldOf ty (vitalsStep d v) = fieldOf ty v.
Proof.
  intros Hty. destruct d as [l|l|l|l]; simpl in *.
  - destruct (lcpWritten l); [|reflexivity]. destruct ty; try reflexivity.
    contradiction.
  - destruct (fold_addShift_others (handled l) v) as (H1 & H2 & H3 & H4).
    destruct ty; simpl; congruence.
  - destruct (fidWritten l); [|reflexivity]. destruct ty; try reflexivity.
    contradiction.
  - destruct (fold_raiseInp_others (handled l) v) as (H1 & H2 & H3 & H4).
    destruct ty; simpl; congruence.
Qed.

Lemma vitalsStep_ttfb (d : Delivery) (v : PerformanceMetrics) :
  ttfb (vitalsStep d v) = ttfb v.
Proof.
  destruct d as [l|l|l|l]; simpl.
  - destruct (lcpWritten l); reflexivity.
  - apply fold_addShift_others.
  - destruct (fidWritten l); reflexivity.
  - apply fold_raiseInp_others.
Qed.

Lemma iter_keeps {A} (proj : PerformanceMetrics -> A)
      (f : PerformanceMetrics -> PerformanceMetrics) (n : nat) :
  (forall v, proj (f v) = proj v) ->
  forall v, proj (Nat.iter n f v) = proj v.
Proof.
  intros Hf v. induction n as [|n IH]; simpl; [reflexivity|].
  now rewrite Hf.
Qed.

Lemma deliveryEffect_others (w : World) (d : Delivery) (v : PerformanceMetrics)
      (ty : EntryType) :
  entryTypeOf d <> ty \/ subscriptions ty w = O ->
  fieldOf ty (deliveryEffect w d v) = fieldOf ty v.
Proof.
  intros [Hty|Hnone]; unfold deliveryEffect.
  - apply iter_keeps. intros v'. now apply vitalsStep_others.
  - destruct (EntryType_eqb (entryTypeOf d) ty) eqn:Heq.
    + assert (Hsame : entryTypeOf d = ty)
        by (revert Heq; destruct (entryTypeOf d), ty; simpl; congruence).
      rewrite Hsame, Hnone. reflexivity.
    + apply iter_keeps. intros v'. apply vitalsStep_others.
      intros Hsame. rewrite Hsame in Heq. destruct ty; discriminate.
Qed.

Lemma deliveryEffect_ttfb (w : World) (d : Delivery) (v : PerformanceMetrics) :
  ttfb (deliveryEffect w d v) = ttfb v.
Proof. apply (iter_keeps ttfb). intros v'. apply vitalsStep_ttfb. Qed.

Lemma fold_keeps {A} (proj : PerformanceMetrics -> A) (w : World)
      (ds : list Delivery) (P : Delivery -> Prop) :
  (forall d v, P d -> proj (deliveryEffect w d v) = proj v) ->
  Forall P ds ->
  forall v, proj (fold_left (fun v d => deliveryEffect w d v) ds v) = proj v.
Proof.
  intros Hstep Hall. induction Hall as [|d ds Hd _ IH]; intros v; simpl.
  - reflexivity.
  - rewrite IH. now apply Hstep.
Qed.

Lemma deliverAll_keeps_ttfb (ds : list Delivery) (w : World) :
  ttfb (observedVitals (exec (deliverAll ds) w)) = ttfb (observedVitals w).
Proof.
  unfold exec. rewrite deliverAll_eq. simpl. unfold storeAfter.
  apply (fold_keeps ttfb w ds (fun _ => True)).
  - intros d v _. apply deliveryEffect_ttfb.
  - apply Forall_forall. auto.
Qed.

(** X1. A run of deliveries, whatever the batches hold, ends normally and
    changes the vitals store only: the cache and its timestamp, the
    initialization flag, the subscriptions and the aggregator's call count
    are as before. *)
Theorem deliveries_only_write_store (ds : list Delivery) (w : World) :
  let w' := exec (deliverAll ds) w in
  result (deliverAll ds) w = Returned tt /\
  cachedPerformanceMetrics w' = cachedPerformanceMetrics w /\
  lastMetricsCalculationTime w' = lastMetricsCalculationTime w /\
  vitalsObserversInitialized w' = vitalsObserversInitialized w /\
  observers w' = observers w /\
  aggregatorCalls w' = aggregatorCalls w.
Proof.
  unfold result, exec. rewrite deliverAll_eq. simpl. repeat split.
Qed.

(** X2. Each observer writes its own metric and no other: a run of
    deliveries that holds no batch of a given entry type leaves that
    type's metric ([lcp], [cls], [fid] or [inp]) as it was, and no delivery
    at all changes [ttfb]. *)
Theorem observers_are_independent (ds : list Delivery) (w : World) (ty : EntryType) :
  ttfb (observedVitals (exec (deliverAll ds) w)) = ttfb (observedVitals w) /\
  (Forall (fun d => entryTypeOf d <> ty) ds ->
   fieldOf ty (observedVitals (exec (deliverAll ds) w)) = fieldOf ty (observedVitals w)).
Proof.
  unfold exec. rewrite deliverAll_eq. simpl. unfold storeAfter. split.
  - apply (fold_keeps ttfb w ds (fun _ => True)).
    + intros d v _. apply deliveryEffect_ttfb.
    + apply Forall_forall. auto.
  - intros Hall.
    apply (fold_keeps (fieldOf ty) w ds (fun d => entryTypeOf d <> ty));
      [|exact Hall].
    intros d v Hd. apply deliveryEffect_others. now left.
Qed.

Lemma unsubscribed_metric_kept (ds : list Delivery) (w : World) (ty : EntryType) :
  subscriptions ty w = O ->
  fieldOf ty (observedVitals (exec (deliverAll ds) w)) = fieldOf ty (observedVitals w).
Proof.
  intros Hnone. unfold exec. rewrite deliverAll_eq. simpl. unfold storeAfter.
  apply (fold_keeps (fieldOf ty) w ds (fun _ => True)).
  - intros d v _. apply deliveryEffect_others. now right.
  - apply Forall_forall. auto.
Qed.

Lemma initWebVitals_fields (env : Browser) (ty : EntryType) :
  hasPerformanceObserver env = true ->
  fieldOf ty (observedVitals (exec (initWebVitals env) initialWorld)) = fieldOf ty noVitals /\
  ttfb (observedVitals (exec (initWebVitals env) initialWorld)) = ttfbOf env.
Proof.
  intros Hpo. unfold exec. rewrite initWebVitals_eq. simpl. rewrite Hpo.
  unfold withTtfb, subscribe, ttfbOf.
  destruct (navigationEntry env) as [[nav|]|e];
    destruct (observeSupported env largest_contentful_paint),
             (observeSupported env layout_shift),
             (observeSupported env first_input),
             (observeSupported env event); destruct ty; split; reflexivity.
Qed.

(** X3. An entry type the platform refuses costs that one metric only.
    After [initWebVitals] on the freshly loaded module, whatever is
    delivered: the metric of a refused type is still absent ([cls]: zero)
    and nothing is subscribed to it, while every type the platform accepts
    has its one subscription, a batch of an accepted type runs its callback
    once on the store, and TTFB has been taken from the navigation
    entry. *)
Theorem unsupported_metric_stays_absent (env : Browser) (ty : EntryType)
        (ds : list Delivery) :
  hasPerformanceObserver env = true ->
  observeSupported env ty = false ->
  let w := exec (deliverAll ds) (exec (initWebVitals env) initialWorld) in
  fieldOf ty (observedVitals w) = fieldOf ty noVitals /\
  subscriptions ty w = O /\
  (forall other,
      subscriptions other w = if observeSupported env other then 1%nat else O) /\
  (forall d,
      observeSupported env (entryTypeOf d) = true ->
      observedVitals (exec (deliver d) w) = vitalsStep d (observedVitals w)) /\
  ttfb (observedVitals w) = ttfbOf env.
Proof.
  intros Hpo Hno w.
  assert (Hsubs : forall other,
             subscriptions other w = if observeSupported env other then 1%nat else O).
  { intros other. unfold w, exec at 1. rewrite deliverAll_eq.
    cbn [snd]. rewrite subscriptions_setVitals, initWebVitals_subscriptions, Hpo.
    reflexivity. }
  split; [|split; [|split; [exact Hsubs|split]]].
  - unfold w. rewrite unsubscribed_metric_kept.
    + now apply initWebVitals_fields.
    + rewrite initWebVitals_subscriptions, Hpo, Hno. reflexivity.
  - rewrite Hsubs, Hno. reflexivity.
  - intros d Hd. unfold exec at 1. rewrite deliver_eq.
    cbn [snd setVitals observedVitals]. unfold deliveryEffect.
    rewrite Hsubs, Hd. reflexivity.
  - unfold w. rewrite deliverAll_keeps_ttfb.
    now apply initWebVitals_fields.
Qed.

(** X4. Without [PerformanceObserver] in the window [initWebVitals] does
    nothing at all: the flag stays clear, nothing is subscribed, and TTFB
    is not computed even where a navigation entry exists; the store then
    stays empty whatever is delivered. *)
Theorem no_observer_support_no_vitals (env : Browser) (w : World) (ds : list Delivery) :
  hasPerformanceObserver env = false ->
  initWebVitals env w = (Returned tt, w) /\
  exec (deliverAll ds) (exec (initWebVitals env) initialWorld) = initialWorld.
Proof.
  intros Hpo.
  assert (Hinit : forall w', initWebVitals env w' = (Returned tt, w')).
  { intros w'. rewrite initWebVitals_eq, Hpo.
    destruct (vitalsObserversInitialized w'); reflexivity. }
  split; [apply Hinit|].
  unfold exec. rewrite Hinit, deliverAll_eq. simpl.
  unfold storeAfter.
  assert (Hid : forall v, fold_left (fun v d => deliveryEffect initialWorld d v) ds v = v).
  { induction ds as [|d ds IH]; intros v; simpl; [reflexivity|].
    rewrite IH. unfold deliveryEffect, subscriptions. reflexivity. }
  rewrite Hid. reflexivity.
Qed.

(** X5. TTFB is taken once, at initialization: on a platform with
    [PerformanceObserver], after [initWebVitals] on the freshly loaded
    module [ttfb] is [responseStart - requestStart] of the navigation entry,
    absent when there is no such entry or reading it throws; no delivery
    and no later [initWebVitals] changes it. *)
Theorem ttfb_fixed_at_initialization (env env' : Browser) (ds : list Delivery) :
  hasPerformanceObserver env = true ->
  let w := exec (deliverAll ds) (exec (initWebVitals env) initialWorld) in
  ttfb (observedVitals w) = ttfbOf env /\
  ttfb (observedVitals (exec (initWebVitals env') w)) = ttfbOf env.
Proof.
  intros Hpo w.
  assert (Hw : ttfb (observedVitals w) = ttfbOf env).
  { unfold w. rewrite deliverAll_keeps_ttfb.
    apply (initWebVitals_fields env event Hpo). }
  split; [exact Hw|].
  assert (Hflag : vitalsObserversInitialized w = true).
  { unfold w. unfold exec at 1. rewrite deliverAll_eq.
    cbn [snd setVitals vitalsObserversInitialized].
    now apply initWebVitals_sets_flag. }
  unfold exec at 1. rewrite (initWebVitals_noop env' w Hflag). exact Hw.
Qed.

(** ** INP is a running maximum *)

Lemma raiseInp_max (v : PerformanceMetrics) (e : EventTiming) (seen : list Q) :
  isRunningMax seen (inp v) ->
  isRunningMax (seen ++ [duration e]) (inp (raiseInp v e)).
Proof.
  unfold raiseInp, isRunningMax. intros H.
  destruct (Qgtb (duration e) 40) eqn:Hgt.
  - apply Qgtb_lt in Hgt. destruct (inp v) as [c|] eqn:Hv.
    + destruct H as (Hin & Hc & Hall).
      destruct (Qgtb (duration e) c) eqn:Hgc; simpl; rewrite ?Hv.
      * apply Qgtb_lt in Hgc. split; [apply in_or_app; right; now left|].
        split; [exact Hgt|]. apply Forall_app. split.
        -- eapply Forall_impl; [|exact Hall]. intros d Hd.
           apply Qle_trans with c; [exact Hd | now apply Qlt_le_weak].
        -- constructor; [apply Qle_refl | constructor].
      * apply Qgtb_le in Hgc. split; [apply in_or_app; now left|].
        split; [exact Hc|]. apply Forall_app. split; [exact Hall|].
        constructor; [exact Hgc | constructor].
    + simpl. split; [apply in_or_app; right; now left|].
      split; [exact Hgt|]. apply Forall_app. split.
      * eapply Forall_impl; [|exact H]. intros d Hd.
        apply Qle_trans with 40; [exact Hd | now apply Qlt_le_weak].
      * constructor; [apply Qle_refl | constructor].
  - apply Qgtb_le in Hgt. destruct (inp v) as [c|] eqn:Hv.
    + destruct H as (Hin & Hc & Hall). split; [apply in_or_app; now left|].
      split; [exact Hc|]. apply Forall_app. split; [exact Hall|].
      constructor; [|constructor].
      apply Qle_trans with 40; [exact Hgt | now apply Qlt_le_weak].
    + apply Forall_app. split; [exact H|]. constructor; [exact Hgt | constructor].
Qed.

Lemma fold_raiseInp_max (l : list EventTiming) :
  forall v seen,
    isRunningMax seen (inp v) ->
    isRunningMax (seen ++ map duration l) (inp (fold_left raiseInp l v)).
Proof.
  induction l as [|e l IH]; intros v seen H; simpl.
  - now rewrite app_nil_r.
  - replace (seen ++ duration e :: map duration l)%list
      with ((seen ++ [duration e]) ++ map duration l)%list
      by (now rewrite <- app_assoc).
    apply IH, raiseInp_max, H.
Qed.

Lemma deliveryEffect_max (w : World) (d : Delivery) (v : PerformanceMetrics)
      (seen : list Q) :
  subscriptions event w = 1%nat ->
  isRunningMax seen (inp v) ->
  isRunningMax (seen ++ interactionsHandled d) (inp (deliveryEffect w d v)).
Proof.
  intros Hone H.
  assert (Hother : entryTypeOf d <> event -> interactionsHandled d = [] ->
                   isRunningMax (seen ++ interactionsHandled d)
                                (inp (deliveryEffect w d v))).
  { intros Hty ->. rewrite app_nil_r.
    change (inp (deliveryEffect w d v)) with (fieldOf event (deliveryEffect w d v)).
    rewrite deliveryEffect_others by (now left). exact H. }
  destruct d as [l|l|l|l]; try (apply Hother; [discriminate | reflexivity]).
  unfold deliveryEffect. simpl entryTypeOf. rewrite Hone. simpl.
  apply fold_raiseInp_max, H.
Qed.

Lemma storeAfter_max (w : World) (ds : list Delivery) :
  subscriptions event w = 1%nat ->
  forall v seen,
    isRunningMax seen (inp v) ->
    isRunningMax (seen ++ flat_map interactionsHandled ds)
                 (inp (fold_left (fun v d => deliveryEffect w d v) ds v)).
Proof.
  intros Hone. induction ds as [|d ds IH]; intros v seen H; simpl.
  - now rewrite app_nil_r.
  - rewrite app_assoc. apply IH. now apply deliveryEffect_max.
Qed.

(** X6. On a platform that supports the [event] observer, after
    [initWebVitals] on the freshly loaded module and any run of deliveries,
    [inp] is the largest duration above 40 ms among the interactions
    handled, and absent exactly when none of them is above 40 ms. *)
Theorem inp_is_running_max (env : Browser) (ds : list Delivery) :
  hasPerformanceObserver env = true ->
  observeSupported env event = true ->
  isRunningMax (flat_map interactionsHandled ds)
    (inp (observedVitals
            (exec (deliverAll ds) (exec (initWebVitals env) initialWorld)))).
Proof.
  intros Hpo Hev. unfold exec at 1. rewrite deliverAll_eq. simpl.
  unfold storeAfter.
  apply (storeAfter_max _ ds) with (seen := []).
  - rewrite initWebVitals_subscriptions, Hpo, Hev. reflexivity.
  - destruct (initWebVitals_fields env event Hpo) as (Hinp & _).
    simpl in Hinp. rewrite Hinp. constructor.
Qed.

(** ** LCP and FID: the last batch wins *)

Lemma iter_const_set (n : nat) (f : PerformanceMetrics -> PerformanceMetrics)
      (proj : PerformanceMetrics -> option Q) (x : Q) (v : PerformanceMetrics) :
  n <> O -> (forall v', proj (f v') = Some x) ->
  proj (Nat.iter n f v) = Some x.
Proof. intros Hn Hf. destruct n as [|n]; [contradiction|]. simpl. apply Hf. Qed.

Lemma deliveryEffect_lcp_kept (w : World) (d : Delivery) (v : PerformanceMetrics) :
  lcpOf d = None -> lcp (deliveryEffect w d v) = lcp v.
Proof.
  intros Hd. unfold deliveryEffect. apply (iter_keeps lcp). intros v'.
  destruct d as [l|l|l|l];
    try (apply (vitalsStep_others _ v' largest_contentful_paint); discriminate).
  simpl in *. rewrite Hd. reflexivity.
Qed.

Lemma deliveryEffect_fid_kept (w : World) (d : Delivery) (v : PerformanceMetrics) :
  fidOf d = None -> fid (deliveryEffect w d v) = fid v.
Proof.
  intros Hd. unfold deliveryEffect. apply (iter_keeps fid). intros v'.
  destruct d as [l|l|l|l];
    try (apply (vitalsStep_others _ v' first_input); discriminate).
  simpl in *. rewrite Hd. reflexivity.
Qed.

Lemma storeAfter_app (w : World) (a b : list Delivery) :
  storeAfter w (a ++ b) =
  fold_left (fun v d => deliveryEffect w d v) b (storeAfter w a).
Proof. unfold storeAfter. apply fold_left_app. Qed.

(** X7. LCP is last-writer-wins.  With the LCP observer live, after a run
    of deliveries [lcp] is what the last LCP batch that had an entry to
    offer made the callback store, whatever came before; of a batch of
    well-formed entries that is the value of its last entry: the render
    time, or the load time where the render time is 0. *)
Theorem lcp_last_batch_wins (w : World) (before after : list Delivery)
        (entryList : EntryList LcpEntry) (x : Q) :
  subscriptions largest_contentful_paint w <> O ->
  lcpWritten entryList = Some x ->
  Forall (fun d => lcpOf d = None) after ->
  lcp (observedVitals
         (exec (deliverAll (before ++ lcpEntries entryList :: after)) w)) = Some x /\
  (forall earlier e,
      lcpWritten (wellFormed (earlier ++ [e])) =
      Some (orNumber (orNumber (renderTime e) (loadTime e)) 0)) /\
  lcpWritten (wellFormed []) = None.
Proof.
  intros Hsub Hx Hafter. split; [|split; [|reflexivity]].
  - unfold exec. rewrite deliverAll_eq. simpl. rewrite storeAfter_app. simpl.
    rewrite (fold_keeps lcp w after (fun d => lcpOf d = None));
      [|intros d v; apply deliveryEffect_lcp_kept | exact Hafter].
    unfold deliveryEffect. simpl entryTypeOf.
    apply iter_const_set; [exact Hsub|].
    intros v'. simpl. rewrite Hx. reflexivity.
  - intros earlier e. unfold wellFormed, lcpWritten.
    rewrite map_app. simpl. rewrite last_last. reflexivity.
Qed.

(** X8. FID is not latched: with the first-input observer live, every
    first-input batch that has an object as first entry overwrites [fid]
    with [processingStart - startTime] of that entry, so after a run of
    deliveries [fid] comes from the last such batch, not from the first
    input ever seen. *)
Theorem fid_last_batch_wins (w : World) (before after : list Delivery)
        (entryList : EntryList FirstInput) (x : Q) :
  subscriptions first_input w <> O ->
  fidWritten entryList = Some x ->
  Forall (fun d => fidOf d = None) after ->
  fid (observedVitals
         (exec (deliverAll (before ++ firstInputs entryList :: after)) w)) = Some x /\
  (forall e later,
      fidWritten (wellFormed (e :: later)) = Some (processingStart e - startTime e)) /\
  fidWritten (wellFormed []) = None.
Proof.
  intros Hsub Hx Hafter. split; [|split; reflexivity].
  unfold exec. rewrite deliverAll_eq. simpl. rewrite storeAfter_app. simpl.
  rewrite (fold_keeps fid w after (fun d => fidOf d = None));
    [|intros d v; apply deliveryEffect_fid_kept | exact Hafter].
  unfold deliveryEffect. simpl entryTypeOf.
  apply iter_const_set; [exact Hsub|].
  intros v'. simpl. rewrite Hx. reflexivity.
Qed.

(** ** CLS only grows *)

Lemma addShift_grows (v : PerformanceMetrics) (s : LayoutShift) :
  0 <= value s -> cls v <= cls (addShift v s).
Proof.
  intros Hs. unfold addShift. destruct (hadRecentInput s); simpl.
  - apply Qle_refl.
  - rewrite <- (Qplus_0_r (cls v)) at 1. apply Qplus_le_compat;
      [apply Qle_refl | exact Hs].
Qed.

Lemma fold_addShift_grows (l : list LayoutShift) :
  Forall (fun s => 0 <= value s) l ->
  forall v, cls v <= cls (fold_left addShift l v).
Proof.
  intros Hall. induction Hall as [|s l Hs _ IH]; intros v; simpl.
  - apply Qle_refl.
  - apply Qle_trans with (cls (addShift v s)); [now apply addShift_grows | apply IH].
Qed.

Lemma vitalsStep_grows (d : Delivery) (v : PerformanceMetrics) :
  Forall (fun s => 0 <= value s) (shiftsHandled d) ->
  cls v <= cls (vitalsStep d v).
Proof.
  intros Hall. destruct d as [l|l|l|l]; simpl in *.
  - destruct (lcpWritten l); apply Qle_refl.
  - now apply fold_addShift_grows.
  - destruct (fidWritten l); apply Qle_refl.
  - destruct (fold_raiseInp_others (handled l) v) as (_ & -> & _). apply Qle_refl.
Qed.

Lemma deliveryEffect_grows (w : World) (d : Delivery) (v : PerformanceMetrics) :
  Forall (fun s => 0 <= value s) (shiftsHandled d) ->
  cls v <= cls (deliveryEffect w d v).
Proof.
  intros Hall. unfold deliveryEffect.
  induction (subscriptions (entryTypeOf d) w) as [|n IH]; simpl.
  - apply Qle_refl.
  - apply Qle_trans with (cls (Nat.iter n (vitalsStep d) v));
      [exact IH | now apply vitalsStep_grows].
Qed.

(** X9. [cls] only grows: when no handled layout-shift entry has a
    negative value, a run of deliveries leaves [cls] at least where it was,
    whatever the state and however many subscriptions are live; started
    at zero or above it never goes below zero. *)
Theorem cls_only_grows (w : World) (ds : list Delivery) :
  Forall (fun s => 0 <= value s) (flat_map shiftsHandled ds) ->
  cls (observedVitals w) <= cls (observedVitals (exec (deliverAll ds) w)) /\
  (0 <= cls (observedVitals w) ->
   0 <= cls (observedVitals (exec (deliverAll ds) w))).
Proof.
  intros Hall.
  assert (Hle : cls (observedVitals w) <= cls (observedVitals (exec (deliverAll ds) w))).
  { unfold exec. rewrite deliverAll_eq. simpl. unfold storeAfter.
    generalize (observedVitals w) as v.
    induction ds as [|d ds IH]; intros v; simpl.
    - apply Qle_refl.
    - simpl in Hall. apply Forall_app in Hall. destruct Hall as (Hd & Hds).
      apply Qle_trans with (cls (deliveryEffect w d v));
        [now apply deliveryEffect_grows | now apply IH]. }
  split; [exact Hle|]. intros H0. now apply Qle_trans with (cls (observedVitals w)).
Qed.

(** ** The remaining warning rules *)

Section AggregatorRules.

Variable numberToString : Q -> string.

Lemma snapshot_alt v nodes resources withoutAlt :
  warningsFor altSolution
    (warnings (snapshotOf numberToString v nodes resources withoutAlt))
  = altWarning withoutAlt.
Proof.
  unfold snapshotOf; cbn [warnings]. rewrite !warningsFor_app.
  rewrite (warningsFor_none altSolution largeImagesSolution _
             (largeImagesWarning_solution numberToString _ _) eq_refl).
  rewrite (warningsFor_none altSolution layoutSolution _
             (layoutWarning_solution numberToString v) eq_refl).
  rewrite (warningsFor_none altSolution serverSolution _
             (serverWarning_solution numberToString v) eq_refl).
  rewrite (warningsFor_none altSolution interactivitySolution _
             (interactivityWarning_solution numberToString v) eq_refl).
  rewrite (warningsFor_none altSolution scriptsSolution _
             (scriptsWarning_solution numberToString _ _) eq_refl).
  simpl. apply warningsFor_all, altWarning_solution.
Qed.

Lemma emitted_iff (s : string) (snap : ExtendedPerformanceMetrics)
      (rule : list PerformanceWarning) :
  warningsFor s (warnings snap) = rule ->
  ((exists x, In x (warnings snap) /\ solution x = s) <-> rule <> []).
Proof.
  intros <-. split.
  - intros (x & Hin & Hsol) Hnil.
    assert (Hx : In x (warningsFor s (warnings snap))) by (apply warningsFor_In; auto).
    rewrite Hnil in Hx. destruct Hx.
  - intros Hne. destruct (warningsFor s (warnings snap)) as [|x l] eqn:Hw;
      [contradiction|].
    exists x. apply warningsFor_In. rewrite Hw. now left.
Qed.

Lemma largeScriptsOf_In (resources : list Resource) (r : Resource) :
  In r (largeScriptsOf resources) <-> In r resources /\ isLargeScript r.
Proof.
  unfold largeScriptsOf, isLargeScript, isScript.
  rewrite !filter_In, String.eqb_eq.
  change 500000 with (inject_Z (Z.of_N 500000)). rewrite orZero_gt. tauto.
Qed.

(** X10. Rule 2: on a page the aggregator can read, the layout-stability
    warning is in the snapshot exactly when the stored [cls] is above 0.1
    (at 0.1 itself there is none), and it is then one warning of severity
    [high]. *)
Theorem layout_rule (env : Browser) (w : World)
        (nodes : nat) (resources : list Resource) (withoutAlt : nat) :
  readable env nodes resources withoutAlt ->
  exists snap,
    result (calculatePerformanceMetrics numberToString env) w = Returned snap /\
    ((exists x, In x (warnings snap) /\ solution x = layoutSolution) <->
     1 # 10 < cls (observedVitals w)) /\
    (warningsFor layoutSolution (warnings snap) = [] \/
     exists text, warningsFor layoutSolution (warnings snap) =
                  [ {| title := text; solution := layoutSolution; severity := high |} ]).
Proof.
  intros Hread. eexists. split.
  { unfold result. rewrite (calculate_readable numberToString env w _ _ _ Hread).
    reflexivity. }
  assert (Hlay := snapshot_layout numberToString (observedVitals w)
                    nodes resources withoutAlt).
  split.
  - rewrite (emitted_iff _ _ _ Hlay). unfold layoutWarning.
    destruct (Qgtb (cls (observedVitals w)) (1 # 10)) eqn:Hgt.
    + apply Qgtb_lt in Hgt. split; [auto | discriminate].
    + apply Qgtb_le in Hgt. split; [intros H; now contradiction H|].
      intros Hlt. exfalso. exact (Qlt_not_le _ _ Hlt Hgt).
  - rewrite Hlay. unfold layoutWarning.
    destruct (Qgtb (cls (observedVitals w)) (1 # 10)); [right; eauto | now left].
Qed.

Lemma largeScriptsOf_filter (resources : list Resource) (isLarge : Resource -> bool) :
  (forall r, isLarge r = true <-> isLargeScript r) ->
  largeScriptsOf resources = filter isLarge resources.
Proof.
  intros H. unfold largeScriptsOf. apply filter_filter_ext. intros r.
  apply (decides_same (isLargeScript r)); [apply H|].
  unfold isLargeScript, isScript. rewrite andb_true_iff, String.eqb_eq.
  change 500000 with (inject_Z (Z.of_N 500000)). now rewrite orZero_gt.
Qed.

(** X11. Rule 5: on a page the aggregator can read, the heavy-JavaScript
    warning is in the snapshot exactly when the stored [lcp] is present and
    above 2500 and some script resource transferred more than 500000 bytes;
    it is then one warning of severity [medium].  The large scripts are the
    resources that are scripts of more than 500000 transferred bytes, in
    the order of the resource list and as often as they occur there; with
    [sizes] their transferred sizes, the title gives the sizes added up
    from 0 and divided by 1024, as [toFixed(0)] prints it, and how many
    they are.  With [lcp = 3000] and scripts of 600000 and 700000 bytes the
    title is [Heavy JavaScript detected (1270KB across 2 files)], also with
    a script of 400000 bytes between them; with [lcp = 2000] there is no
    such warning. *)
Theorem heavy_scripts_rule (env : Browser) (w : World)
        (nodes : nat) (resources : list Resource) (withoutAlt : nat) :
  readable env nodes resources withoutAlt ->
  exists snap sizes,
    result (calculatePerformanceMetrics numberToString env) w = Returned snap /\
    let emitted := warningsFor scriptsSolution (warnings snap) in
    let large := largeScriptsOf resources in
    ((exists x, In x (warnings snap) /\ solution x = scriptsSolution) <->
     (exists l, lcp (observedVitals w) = Some l /\ 2500 < l) /\
     (exists r, In r resources /\ isLargeScript r)) /\
    Forall2 (fun r n => transferSize r = Some n) large sizes /\
    (forall isLarge : Resource -> bool,
        (forall r, isLarge r = true <-> isLargeScript r) ->
        large = filter isLarge resources) /\
    (emitted = [] \/
     emitted =
     [ {| title := "Heavy JavaScript detected ("
                   ++ toFixed numberToString (addedUp (map bytes sizes) / 1024) 0
                   ++ "KB across " ++ natToString (List.length sizes) ++ " files)";
          solution := scriptsSolution;
          severity := medium |} ]) /\
    (forall r, In r large <-> In r resources /\ isLargeScript r) /\
    (forall r1 r2,
        lcp (observedVitals w) = Some 3000 ->
        filter isScript resources = [r1; r2] ->
        transferSize r1 = Some 600000%N ->
        transferSize r2 = Some 700000%N ->
        emitted = [ {| title := "Heavy JavaScript detected (1270KB across 2 files)";
                       solution := scriptsSolution;
                       severity := medium |} ]) /\
    (forall r1 r2 r3,
        lcp (observedVitals w) = Some 3000 ->
        filter isScript resources = [r1; r2; r3] ->
        transferSize r1 = Some 600000%N ->
        transferSize r2 = Some 400000%N ->
        transferSize r3 = Some 700000%N ->
        emitted = [ {| title := "Heavy JavaScript detected (1270KB across 2 files)";
                       solution := scriptsSolution;
                       severity := medium |} ]) /\
    (lcp (observedVitals w) = Some 2000 -> emitted = []).
Proof.
  intros Hread.
  destruct (sizes_exist (largeScriptsOf resources)) as [sizes Hsizes].
  { intros r Hr. apply largeScriptsOf_In in Hr.
    destruct Hr as (_ & _ & n & Hn & _). now exists n. }
  destruct (sumTransferSize_sizes _ _ Hsizes) as (Hsum & Hlen).
  eexists. exists sizes. split.
  { unfold result. rewrite (calculate_readable numberToString env w _ _ _ Hread).
    reflexivity. }
  assert (Hscr := snapshot_scripts numberToString (observedVitals w)
                    nodes resources withoutAlt).
  cbv zeta.
  split; [|split; [exact Hsizes|split; [|split; [|split;
    [apply largeScriptsOf_In|split; [|split]]]]]].
  - rewrite (emitted_iff _ _ _ Hscr). unfold scriptsWarning.
    fold (largeScriptsOf resources). rewrite <- exceeds_spec.
    destruct (exceeds (lcp (observedVitals w)) 2500).
    + destruct (0 <? List.length (largeScriptsOf resources))%nat eqn:Hn.
      * apply nonempty_length in Hn. destruct Hn as (r & Hr).
        split; [intros _|discriminate]. split; [reflexivity|].
        exists r. now apply largeScriptsOf_In.
      * split; [intros H; now contradiction H|].
        intros (_ & r & Hr). apply largeScriptsOf_In in Hr.
        assert (Hn' : (0 <? List.length (largeScriptsOf resources))%nat = true)
          by (apply nonempty_length; eauto).
        congruence.
    + split; [intros H; now contradiction H | intros ([=] & _)].
  - intros isLarge. apply largeScriptsOf_filter.
  - rewrite Hscr. unfold scriptsWarning. fold (largeScriptsOf resources).
    destruct (exceeds (lcp (observedVitals w)) 2500); [|now left].
    destruct (0 <? _)%nat; [right | left; reflexivity].
    rewrite Hsum, Hlen. reflexivity.
  - intros [t1 s1] [t2 s2] Hl Hs H1 H2. simpl in H1, H2. subst s1 s2.
    rewrite Hscr, Hl, Hs. vm_compute. reflexivity.
  - intros [t1 s1] [t2 s2] [t3 s3] Hl Hs H1 H2 H3. simpl in H1, H2, H3.
    subst s1 s2 s3. rewrite Hscr, Hl, Hs. vm_compute. reflexivity.
  - intros Hl. rewrite Hscr, Hl. reflexivity.
Qed.

(** X12. Rule 6: on a page the aggregator can read, the missing-alt warning
    is in the snapshot exactly when the document holds an image without an
    [alt] attribute; it is then one warning of severity [low] whose title
    starts with the number of such images, and it comes last. *)
Theorem missing_alt_rule (env : Browser) (w : World)
        (nodes : nat) (resources : list Resource) (withoutAlt : nat) :
  readable env nodes resources withoutAlt ->
  exists snap,
    result (calculatePerformanceMetrics numberToString env) w = Returned snap /\
    ((exists x, In x (warnings snap) /\ solution x = altSolution) <->
     withoutAlt <> O) /\
    (withoutAlt <> O ->
     exists earlier,
       warnings snap =
       (earlier ++ [ {| title := natToString withoutAlt
                                 ++ " images missing alt attributes";
                        solution := altSolution;
                        severity := low |} ])%list /\
       forall x, In x earlier -> solution x <> altSolution).
Proof.
  intros Hread. eexists. split.
  { unfold result. rewrite (calculate_readable numberToString env w _ _ _ Hread).
    reflexivity. }
  assert (Halt := snapshot_alt (observedVitals w) nodes resources withoutAlt).
  split.
  - rewrite (emitted_iff _ _ _ Halt). unfold altWarning.
    destruct withoutAlt as [|n]; simpl; split; try discriminate; auto.
  - intros Hn. destruct withoutAlt as [|n]; [contradiction|].
    eexists. split; [reflexivity|].
    intros x Hx Hsol.
    repeat (apply in_app_or in Hx; destruct Hx as [Hx|Hx]).
    + apply largeImagesWarning_solution in Hx. rewrite Hx in Hsol. discriminate.
    + apply layoutWarning_solution in Hx. rewrite Hx in Hsol. discriminate.
    + apply serverWarning_solution in Hx. rewrite Hx in Hsol. discriminate.
    + apply interactivityWarning_solution in Hx. rewrite Hx in Hsol. discriminate.
    + apply scriptsWarning_solution in Hx. rewrite Hx in Hsol. discriminate.
Qed.

End AggregatorRules.

(** ** Shape of a snapshot *)

Lemma subsequence_length {A} (l1 l2 : list A) :
  subsequence l1 l2 -> (List.length l1 <= List.length l2)%nat.
Proof. induction 1; simpl; lia. Qed.

Lemma subsequence_In {A} (l1 l2 : list A) (x : A) :
  subsequence l1 l2 -> In x l1 -> In x l2.
Proof.
  induction 1 as [l|y l1 l2 _ IH|y l1 l2 _ IH]; simpl; intros Hin.
  - destruct Hin.
  - destruct Hin as [->|Hin]; [now left | right; now apply IH].
  - right. now apply IH.
Qed.

Lemma subsequence_NoDup {A} (l1 l2 : list A) :
  subsequence l1 l2 -> NoDup l2 -> NoDup l1.
Proof.
  induction 1 as [l|y l1 l2 Hsub IH|y l1 l2 Hsub IH]; intros Hnd.
  - constructor.
  - inversion Hnd as [|? ? Hnotin Hrest]; subst. constructor; [|now apply IH].
    intros Hin. apply Hnotin. now apply (subsequence_In l1 l2).
  - inversion Hnd; subst. now apply IH.
Qed.

Lemma ruleOrder_NoDup : NoDup ruleOrder.
Proof.
  unfold ruleOrder. repeat constructor; simpl; intros H;
    repeat (destruct H as [H|H]; [discriminate H|]); exact H.
Qed.

Lemma one_rule (s : string) (l : list PerformanceWarning) :
  (forall x, In x l -> solution x = s) -> (List.length l <= 1)%nat ->
  map solution l = [] \/ map solution l = [s].
Proof.
  intros Hsol Hlen. destruct l as [|x [|y l]]; simpl in *; [now left | | lia].
  right. now rewrite (Hsol x (or_introl eq_refl)).
Qed.

Section SnapshotShape.

Variable numberToString : Q -> string.

Lemma calculate_cases (env : Browser) (w : World) :
  exists snap,
    calculatePerformanceMetrics numberToString env w =
      (Returned snap, countAggregatorCall w) /\
    (snap = getEmptyMetrics \/
     exists nodes resources withoutAlt,
       readable env nodes resources withoutAlt /\
       snap = snapshotOf numberToString (observedVitals w) nodes resources withoutAlt).
Proof.
  destruct (hasPerformance env) eqn:Hp.
  - destruct (allElements env) as [nodes|e] eqn:Hn.
    + destruct (resourceEntries env) as [resources|e] eqn:Hr.
      * destruct (imgsWithoutAlt env) as [withoutAlt|e] eqn:Ha.
        -- eexists. split; [apply calculate_readable; repeat split; eassumption|].
           right. exists nodes, resources, withoutAlt. repeat split; assumption.
        -- eexists. split; [|now left]. apply calculate_fallback.
           right. right. right. eauto.
      * eexists. split; [|now left]. apply calculate_fallback.
        right. right. left. eauto.
    + eexists. split; [|now left]. apply calculate_fallback. right. left. eauto.
  - eexists. split; [|now left]. apply calculate_fallback. now left.
Qed.

Lemma snapshot_order (v : PerformanceMetrics) (nodes : nat)
      (resources : list Resource) (withoutAlt : nat) :
  subsequence
    (map solution (warnings (snapshotOf numberToString v nodes resources withoutAlt)))
    ruleOrder.
Proof.
  unfold snapshotOf. cbn [warnings]. rewrite !map_app.
  destruct (one_rule largeImagesSolution _
              (largeImagesWarning_solution numberToString
                 (exceeds (lcp v) 2500) (filter isImage resources))) as [-> | ->];
    [unfold largeImagesWarning;
     destruct (exceeds (lcp v) 2500); [destruct (0 <? _)%nat|]; simpl; lia | |];
  (destruct (one_rule layoutSolution _ (layoutWarning_solution numberToString v))
     as [-> | ->];
   [unfold layoutWarning; destruct (Qgtb (cls v) (1 # 10)); simpl; lia | |]);
  (destruct (one_rule serverSolution _ (serverWarning_solution numberToString v))
     as [-> | ->];
   [unfold serverWarning; destruct (ttfb v) as [t|];
    [destruct (Qgtb t 800)|]; simpl; lia | |]);
  (destruct (one_rule interactivitySolution _
               (interactivityWarning_solution numberToString v)) as [-> | ->];
   [unfold interactivityWarning; cbv zeta; destruct (_ || _); simpl; lia | |]);
  (destruct (one_rule scriptsSolution _
               (scriptsWarning_solution numberToString
                  (exceeds (lcp v) 2500) (filter isScript resources))) as [-> | ->];
   [unfold scriptsWarning;
    destruct (exceeds (lcp v) 2500); [destruct (0 <? _)%nat|]; simpl; lia | |]);
  (destruct (one_rule altSolution _ (altWarning_solution withoutAlt)) as [-> | ->];
   [unfold altWarning; destruct (0 <? withoutAlt)%nat; simpl; lia | |]);
  unfold ruleOrder; simpl; repeat constructor.
Qed.

(** X13. The warnings of a snapshot follow the order of the rules (large
    images, layout, server response, interactivity, scripts, missing alt),
    each rule contributing at most one: the remediation texts of the
    warnings, in order, are the six texts with some left out, so there are
    at most six warnings and no text occurs twice.  This holds on every
    page, also when the fallback is returned. *)
Theorem warnings_follow_rule_order (env : Browser) (w : World) :
  exists snap,
    result (calculatePerformanceMetrics numberToString env) w = Returned snap /\
    subsequence (map solution (warnings snap)) ruleOrder /\
    (List.length (warnings snap) <= 6)%nat /\
    NoDup (map solution (warnings snap)).
Proof.
  destruct (calculate_cases env w) as (snap & Hcalc & Hcase).
  exists snap. unfold result. rewrite Hcalc. split; [reflexivity|].
  assert (Hsub : subsequence (map solution (warnings snap)) ruleOrder).
  { destruct Hcase as [-> | (nodes & resources & withoutAlt & _ & ->)].
    - constructor.
    - apply snapshot_order. }
  split; [exact Hsub|]. split.
  - apply subsequence_length in Hsub. now rewrite length_map in Hsub.
  - exact (subsequence_NoDup _ _ Hsub ruleOrder_NoDup).
Qed.

Lemma filter_cons_length {A} (f : A -> bool) (x : A) (l : list A) :
  List.length (filter f (x :: l)) =
  ((if f x then 1 else 0) + List.length (filter f l))%nat.
Proof. simpl. destruct (f x); reflexivity. Qed.

Lemma bucket_once (r : Resource) :
  ((if isImage r then 1 else 0) + (if isScript r then 1 else 0)
   + (if isStylesheet r then 1 else 0))%nat
  = (if isCounted r then 1 else 0)%nat.
Proof.
  unfold isCounted, isImage, isScript, isStylesheet.
  destruct (String.eqb_spec (initiatorType r) "img") as [->|_]; [reflexivity|].
  destruct (String.eqb_spec (initiatorType r) "script") as [->|_]; [reflexivity|].
  destruct (String.eqb (initiatorType r) "link" || String.eqb (initiatorType r) "css");
    reflexivity.
Qed.

Lemma buckets_disjoint (resources : list Resource) :
  (List.length (filter isImage resources)
   + List.length (filter isScript resources)
   + List.length (filter isStylesheet resources))%nat
  = List.length (filter isCounted resources).
Proof.
  induction resources as [|r l IH]; [reflexivity|].
  rewrite !filter_cons_length, <- IH, <- bucket_once. lia.
Qed.

Lemma countType_cons (ty : string) (r : Resource) (l : list Resource) :
  countType ty (r :: l) =
  ((if String.eqb (initiatorType r) ty then 1 else 0) + countType ty l)%nat.
Proof.
  unfold countType. cbn [map count_occ].
  destruct (string_dec (initiatorType r) ty) as [Heq|Hne].
  - apply String.eqb_eq in Heq. now rewrite Heq.
  - apply String.eqb_neq in Hne. now rewrite Hne.
Qed.

Lemma bucket_counts (resources : list Resource) :
  List.length (filter isImage resources) = countType "img" resources /\
  List.length (filter isScript resources) = countType "script" resources /\
  List.length (filter isStylesheet resources)
  = (countType "link" resources + countType "css" resources)%nat.
Proof.
  induction resources as [|r l (IHi & IHs & IHc)]; [repeat split|].
  rewrite !filter_cons_length, !countType_cons, IHi, IHs, IHc.
  unfold isImage, isScript, isStylesheet.
  repeat split; try reflexivity.
  destruct (String.eqb_spec (initiatorType r) "link") as [->|_];
    [reflexivity|].
  destruct (String.eqb (initiatorType r) "css"); cbn [orb]; lia.
Qed.

(** X14. On a page the aggregator can read, the snapshot carries the five
    stored vitals as they are and the number of elements of the document,
    and sorts the resources into three buckets by initiator type:
    [totalImages] is the number of resources whose initiator type is [img],
    [totalScripts] the number of those whose type is [script], and
    [totalStylesheets] the number of those whose type is [link] plus the
    number of those whose type is [css].  No resource is counted twice: the
    three counts add up to the number of resources of those four types,
    which is at most the number of resources. *)
Theorem snapshot_counts (env : Browser) (w : World)
        (nodes : nat) (resources : list Resource) (withoutAlt : nat) :
  readable env nodes resources withoutAlt ->
  exists snap,
    result (calculatePerformanceMetrics numberToString env) w = Returned snap /\
    vitals snap = observedVitals w /\
    totalNodes snap = nodes /\
    totalImages snap = countType "img" resources /\
    totalScripts snap = countType "script" resources /\
    totalStylesheets snap
      = (countType "link" resources + countType "css" resources)%nat /\
    (totalImages snap + totalScripts snap + totalStylesheets snap)%nat
      = List.length (filter isCounted resources) /\
    (totalImages snap + totalScripts snap + totalStylesheets snap
       <= List.length resources)%nat /\
    (forall r, In r resources ->
               (isCounted r = true <->
                initiatorType r = "img" \/ initiatorType r = "script" \/
                initiatorType r = "link" \/ initiatorType r = "css")).
Proof.
  intros Hread. eexists. split.
  { unfold result. rewrite (calculate_readable numberToString env w _ _ _ Hread).
    reflexivity. }
  cbn [vitals totalNodes totalImages totalScripts totalStylesheets snapshotOf].
  destruct (bucket_counts resources) as (Hi & Hs & Hc).
  split; [reflexivity|]. split; [reflexivity|].
  split; [exact Hi|]. split; [exact Hs|]. split; [exact Hc|].
  rewrite buckets_disjoint.
  repeat split; try reflexivity.
  - apply filter_length_le.
  - unfold isCounted, isImage, isScript, isStylesheet.
    rewrite !orb_true_iff, !String.eqb_eq. tauto.
  - unfold isCounted, isImage, isScript, isStylesheet.
    rewrite !orb_true_iff, !String.eqb_eq. tauto.
Qed.

(** ** The cache between lookups *)

Lemma getMetrics_frame (env : Browser) (now : Z) (w : World) :
  let w' := exec (getPerformanceMetrics numberToString env now) w in
  observedVitals w' = observedVitals w /\
  vitalsObserversInitialized w' = vitalsObserversInitialized w /\
  observers w' = observers w.
Proof.
  unfold exec. destruct (fresh w now) eqn:Hf.
  - unfold fresh in Hf.
    destruct (cachedPerformanceMetrics w) as [c|] eqn:Hc; [|discriminate].
    apply Z.ltb_lt in Hf.
    rewrite (getMetrics_hit numberToString env now w c Hc Hf). simpl. auto.
  - apply fresh_false in Hf.
    destruct (calculate_total numberToString env w) as [m Hm].
    rewrite (getMetrics_miss numberToString env now w m Hf Hm). simpl. auto.
Qed.

(** X15. Page-wide reuse.  Once a lookup at time [t0] has recomputed, a
    lookup less than 5000 ms later hands out that same snapshot without
    entering the aggregator, whatever the observers have written to the
    store in between and whatever the page answers by then: the snapshot
    does not follow the store until the entry expires. *)
Theorem snapshot_is_reused_within_window (env env' : Browser) (t0 t : Z)
        (w : World) (ds : list Delivery) :
  fresh w t0 = false ->
  (t - t0 < 5000)%Z ->
  let w1 := exec (getPerformanceMetrics numberToString env t0) w in
  let w2 := exec (deliverAll ds) w1 in
  result (getPerformanceMetrics numberToString env' t) w2 =
    result (getPerformanceMetrics numberToString env t0) w /\
  exec (getPerformanceMetrics numberToString env' t) w2 = w2 /\
  aggregatorCalls (exec (getPerformanceMetrics numberToString env' t) w2) =
    aggregatorCalls w1.
Proof.
  intros Hf Ht w1 w2. apply fresh_false in Hf.
  destruct (calculate_total numberToString env w) as [m Hm].
  assert (Hg := getMetrics_miss numberToString env t0 w m Hf Hm).
  assert (Hw1 : w1 = setCache (Some m) t0 (countAggregatorCall w))
    by (unfold w1, exec; now rewrite Hg).
  assert (Hw2 : w2 = setVitals (storeAfter w1 ds) w1)
    by (unfold w2, exec; now rewrite deliverAll_eq).
  assert (Hc : cachedPerformanceMetrics w2 = cachedPerformanceMetrics w1)
    by (rewrite Hw2; reflexivity).
  assert (Hl : lastMetricsCalculationTime w2 = lastMetricsCalculationTime w1)
    by (rewrite Hw2; reflexivity).
  assert (Hn : aggregatorCalls w2 = aggregatorCalls w1)
    by (rewrite Hw2; reflexivity).
  assert (Hc2 : cachedPerformanceMetrics w2 = Some m) by (rewrite Hc, Hw1; reflexivity).
  assert (Hl2 : (t - lastMetricsCalculationTime w2 < 5000)%Z)
    by (rewrite Hl, Hw1; exact Ht).
  unfold result, exec.
  rewrite (getMetrics_hit numberToString env' t w2 m Hc2 Hl2), Hg. simpl.
  repeat split. exact Hn.
Qed.

(** X16. [clearPerformanceCache] empties the cache and touches nothing
    else (the store, the flag and the subscriptions stay, unlike with
    [resetWebVitals]); the next lookup, at whatever time, enters the
    aggregator and returns what it computes from the current store. *)
Theorem clear_forces_recomputation (env : Browser) (now : Z) (w : World) :
  let w' := exec clearPerformanceCache w in
  result clearPerformanceCache w = Returned tt /\
  cachedPerformanceMetrics w' = None /\
  observedVitals w' = observedVitals w /\
  vitalsObserversInitialized w' = vitalsObserversInitialized w /\
  observers w' = observers w /\
  result (getPerformanceMetrics numberToString env now) w' =
    result (calculatePerformanceMetrics numberToString env) w /\
  aggregatorCalls (exec (getPerformanceMetrics numberToString env now) w') =
    S (aggregatorCalls w).
Proof.
  intros w'.
  destruct (getMetrics_recomputes numberToString env now w' eq_refl) as (Hr & Hn).
  repeat split; try reflexivity.
  - rewrite Hr. apply calculate_reads_vitals. reflexivity.
  - exact Hn.
Qed.

(** X17. A lookup never disturbs the measurement: whether it hits or
    recomputes, [getPerformanceMetrics] leaves the vitals store, the
    initialization flag and the subscriptions as they are, so deliveries
    after it have the effect they would have had without it. *)
Theorem lookup_leaves_measurement_alone (env : Browser) (now : Z) (w : World)
        (ds : list Delivery) :
  let w' := exec (getPerformanceMetrics numberToString env now) w in
  observedVitals w' = observedVitals w /\
  vitalsObserversInitialized w' = vitalsObserversInitialized w /\
  observers w' = observers w /\
  observedVitals (exec (deliverAll ds) w') = observedVitals (exec (deliverAll ds) w).
Proof.
  intros w'. destruct (getMetrics_frame env now w) as (Hv & Hflag & Hobs).
  fold w' in Hv, Hflag, Hobs.
  repeat split; try assumption.
  unfold exec. rewrite !deliverAll_eq. simpl. unfold storeAfter. rewrite Hv.
  assert (Heff : forall d v, deliveryEffect w' d v = deliveryEffect w d v)
    by (intros d v; unfold deliveryEffect, subscriptions; now rewrite Hobs).
  generalize (observedVitals w) as v.
  induction ds as [|d ds IH]; intros v; simpl; [reflexivity|].
  rewrite Heff. apply IH.
Qed.

End SnapshotShape.

(** ** The panel's cells *)

Lemma Qltb_lt (x y : Q) : Qltb x y = true <-> x < y.
Proof. unfold Qltb. apply (Qgtb_lt y x). Qed.

Lemma Qltb_le (x y : Q) : Qltb x y = false <-> y <= x.
Proof. unfold Qltb. apply (Qgtb_le y x). Qed.

Lemma Qltb_Qgtb (x limit : Q) : Qltb x limit = true -> Qgtb x limit = false.
Proof.
  intros H. apply Qltb_lt in H. apply Qgtb_le. now apply Qlt_le_weak.
Qed.

Ltac order_clash :=
  match goal with
  | H1 : ?a < ?b, H2 : ?b <= ?a |- _ => exfalso; exact (Qlt_not_le _ _ H1 H2)
  end.

(** X18. [getVitalStatus]: the [reverse] argument changes nothing; the
    class is neutral exactly for an absent value, and otherwise good below
    the first threshold, needs-work from there up to the second, poor from
    the second on. *)
Theorem getVitalStatus_classes (value : option Q) (good poor : Q) (reverse : bool) :
  getVitalStatus value good poor reverse = getVitalStatus value good poor (negb reverse) /\
  (getVitalStatus value good poor reverse = "ff-vital-neutral" <-> value = None) /\
  (forall x, value = Some x ->
     (getVitalStatus value good poor reverse = "ff-vital-good" <-> x < good) /\
     (getVitalStatus value good poor reverse = "ff-vital-needs-work" <->
      good <= x /\ x < poor) /\
     (getVitalStatus value good poor reverse = "ff-vital-poor" <->
      good <= x /\ poor <= x)).
Proof.
  split; [destruct value, reverse; reflexivity|]. split.
  - destruct value as [x|]; [|split; reflexivity].
    unfold getVitalStatus.
    destruct reverse, (Qltb x good), (Qltb x poor); split; discriminate.
  - intros x ->. unfold getVitalStatus.
    destruct (Qltb x good) eqn:Hg; [apply Qltb_lt in Hg | apply Qltb_le in Hg];
      (destruct (Qltb x poor) eqn:Hp; [apply Qltb_lt in Hp | apply Qltb_le in Hp]);
      destruct reverse;
      repeat split; intros; try discriminate; try reflexivity; try assumption;
      repeat match goal with H : _ /\ _ |- _ => destruct H end;
      order_clash.
Qed.

Section PanelFacts.

Variable numberToString : Q -> string.

Lemma good_rating (good poor v : Q) :
  rating good poor v = "Good" <-> v < good.
Proof.
  unfold rating. rewrite <- Qltb_lt.
  destruct (Qltb v good); [split; reflexivity|].
  destruct (Qltb v poor); split; discriminate.
Qed.

Lemma good_status (x : option Q) (good poor : Q) :
  ifTruthy x (rating good poor) "-" = "Good" ->
  exists v, x = Some v /\ v < good.
Proof.
  unfold ifTruthy. destruct x as [v|]; [|discriminate].
  destruct (Qeq_bool v 0); [discriminate|].
  intros H. apply good_rating in H. eauto.
Qed.

Lemma good_class (x : option Q) (good poor : Q) (reverse : bool) :
  getVitalStatus x good poor reverse = "ff-vital-good" ->
  exists v, x = Some v /\ v < good.
Proof.
  intros H. destruct x as [v|]; [|discriminate H].
  exists v. split; [reflexivity|]. apply Qltb_lt.
  unfold getVitalStatus in H.
  destruct (Qltb v good); [reflexivity|].
  destruct reverse, (Qltb v poor); discriminate H.
Qed.

Lemma below_limit_quiet (x : option Q) (limit : Q) :
  (exists v, x = Some v /\ v < limit) -> exceeds x limit = false.
Proof.
  intros (v & -> & Hlt). simpl. apply Qgtb_le. now apply Qlt_le_weak.
Qed.

(** X19. The panel and the warnings agree on what is good.  For the
    snapshot the aggregator returns on any page: when the LCP cell is
    classed or labelled good there is neither a large-images nor a
    heavy-JavaScript warning; when the CLS cell is, no layout warning; when
    the TTFB cell is, no server-response warning. *)
Theorem good_cell_means_no_warning (env : Browser) (w : World) :
  exists snap,
    result (calculatePerformanceMetrics numberToString env) w = Returned snap /\
    (cellClass (lcpCell numberToString snap) = "ff-vital-good" \/
     cellStatus (lcpCell numberToString snap) = "Good" ->
     warningsFor largeImagesSolution (warnings snap) = [] /\
     warningsFor scriptsSolution (warnings snap) = []) /\
    (cellClass (clsCell numberToString snap) = "ff-vital-good" \/
     cellStatus (clsCell numberToString snap) = "Good" ->
     warningsFor layoutSolution (warnings snap) = []) /\
    (cellClass (ttfbCell numberToString snap) = "ff-vital-good" \/
     cellStatus (ttfbCell numberToString snap) = "Good" ->
     warningsFor serverSolution (warnings snap) = []).
Proof.
  destruct (calculate_cases numberToString env w) as (snap & Hcalc & Hcase).
  exists snap. unfold result. rewrite Hcalc. split; [reflexivity|].
  destruct Hcase as [-> | (nodes & resources & withoutAlt & _ & ->)].
  { repeat split; reflexivity. }
  rewrite snapshot_largeImages, snapshot_scripts, snapshot_layout, snapshot_server.
  unfold lcpCell, clsCell, ttfbCell; cbn [cellClass cellStatus vitals snapshotOf].
  set (v := observedVitals w).
  split; [|split].
  - intros H.
    assert (Hl : exceeds (lcp v) 2500 = false).
    { apply below_limit_quiet.
      destruct H as [H|H]; [now apply good_class in H | now apply good_status in H]. }
    rewrite Hl. split; reflexivity.
  - intros H.
    assert (Hc : cls v < 1 # 10).
    { destruct H as [H|H].
      - apply good_class in H. destruct H as (c & [= <-] & Hc). exact Hc.
      - now apply good_rating in H. }
    unfold layoutWarning.
    replace (Qgtb (cls v) (1 # 10)) with false; [reflexivity|].
    symmetry. apply Qgtb_le. now apply Qlt_le_weak.
  - intros H.
    assert (Ht : exists t, ttfb v = Some t /\ t < 800)
      by (destruct H as [H|H]; [now apply good_class in H | now apply good_status in H]).
    destruct Ht as (t & Ht & Hlt). unfold serverWarning. rewrite Ht.
    replace (Qgtb t 800) with false; [reflexivity|].
    symmetry. apply Qgtb_le. now apply Qlt_le_weak.
Qed.

Lemma neutral_class (x : option Q) (good poor : Q) (reverse : bool) :
  getVitalStatus x good poor reverse = "ff-vital-neutral" <-> x = None.
Proof.
  destruct x as [v|]; [|split; reflexivity].
  unfold getVitalStatus.
  destruct reverse, (Qltb v good), (Qltb v poor); split; discriminate.
Qed.

Lemma dash_status (x : option Q) (good poor : Q) :
  ifTruthy x (rating good poor) "-" = "-" <->
  x = None \/ exists v, x = Some v /\ v == 0.
Proof.
  unfold ifTruthy. destruct x as [v|].
  - destruct (Qeq_bool v 0) eqn:Hz.
    + apply Qeq_bool_iff in Hz. split; [intros _; right; eauto | reflexivity].
    + apply Qeq_bool_neq in Hz. unfold rating.
      destruct (Qltb v good); [|destruct (Qltb v poor)];
        (split; [discriminate | intros [[=]|(v' & [= <-] & Hv)]; contradiction]).
  - split; [now left | reflexivity].
Qed.

(** X20. A vital of exactly zero reads as not available.  In the LCP and
    TTFB cells the texts are [N/A] and [-] not only for an absent value but
    also for a value of zero, while the class is neutral for an absent
    value only: at zero the cell is classed good and labelled [N/A].  The
    CLS cell always shows a rating. *)
Theorem zero_vital_reads_not_available (performance : ExtendedPerformanceMetrics) :
  (cellStatus (lcpCell numberToString performance) = "-" <->
   lcp (vitals performance) = None \/
   exists v, lcp (vitals performance) = Some v /\ v == 0) /\
  (cellStatus (ttfbCell numberToString performance) = "-" <->
   ttfb (vitals performance) = None \/
   exists v, ttfb (vitals performance) = Some v /\ v == 0) /\
  (cellClass (lcpCell numberToString performance) = "ff-vital-neutral" <->
   lcp (vitals performance) = None) /\
  (cellClass (ttfbCell numberToString performance) = "ff-vital-neutral" <->
   ttfb (vitals performance) = None) /\
  (forall v, lcp (vitals performance) = Some v -> v == 0 ->
     lcpCell numberToString performance =
     {| cellClass := "ff-vital-good"; cellValue := "N/A"; cellStatus := "-" |}) /\
  (forall v, ttfb (vitals performance) = Some v -> v == 0 ->
     ttfbCell numberToString performance =
     {| cellClass := "ff-vital-good"; cellValue := "N/A"; cellStatus := "-" |}) /\
  cellStatus (clsCell numberToString performance) <> "-".
Proof.
  repeat split.
  - apply dash_status.
  - apply dash_status.
  - apply dash_status.
  - apply dash_status.
  - apply (neutral_class _ 2500 4000 false).
  - apply (neutral_class _ 2500 4000 false).
  - apply (neutral_class _ 800 1800 false).
  - apply (neutral_class _ 800 1800 false).
  - intros v Hv Hz. unfold lcpCell. rewrite Hv. unfold ifTruthy, getVitalStatus.
    rewrite (Qeq_eq_bool _ _ Hz).
    replace (Qltb v 2500) with true; [reflexivity|].
    symmetry. apply Qltb_lt. rewrite Hz. reflexivity.
  - intros v Hv Hz. unfold ttfbCell. rewrite Hv. unfold ifTruthy, getVitalStatus.
    rewrite (Qeq_eq_bool _ _ Hz).
    replace (Qltb v 800) with true; [reflexivity|].
    symmetry. apply Qltb_lt. rewrite Hz. reflexivity.
  - unfold clsCell, rating. cbn [cellStatus].
    destruct (Qltb _ _); [|destruct (Qltb _ _)]; discriminate.
Qed.

End PanelFacts.

(** ** The inspector's switch *)

Section InspectorFacts.

Context {Dom : Type}.
Variable doc : Document Dom.
Hypothesis doc_tame : tame doc.

Lemma skip_documentOnly : documentOnly (@skip Dom).
Proof. intros p. split; reflexivity. Qed.

Lemma setHighlightBox_documentOnly (b : bool) : documentOnly (@setHighlightBox Dom b).
Proof. intros p. split; reflexivity. Qed.

Lemma andThen_documentOnly (a b : Script Dom unit) :
  documentOnly a -> documentOnly b -> documentOnly (andThen a b).
Proof.
  intros Ha Hb p. unfold andThen. specialize (Ha p).
  destruct (a p) as [[[]|e] p']; simpl in Ha.
  - destruct (Hb p') as (H1 & H2). rewrite H1, H2. exact Ha.
  - exact Ha.
Qed.

Lemma tryScript_documentOnly (a b : Script Dom unit) :
  documentOnly a -> documentOnly b -> documentOnly (tryScript a b).
Proof.
  intros Ha Hb p. unfold tryScript. specialize (Ha p).
  destruct (a p) as [[[]|e] p']; simpl in Ha.
  - exact Ha.
  - destruct (Hb p') as (H1 & H2). rewrite H1, H2. exact Ha.
Qed.

Lemma choice_documentOnly (a b : Script Dom unit) :
  documentOnly a -> documentOnly b ->
  documentOnly (fun p => if highlightBox p then a p else b p).
Proof. intros Ha Hb p. destruct (highlightBox p); [apply Ha | apply Hb]. Qed.

Lemma tryScript_skip_returns (a : Script Dom unit) (p : Page Dom) :
  fst (tryScript a skip p) = Returned tt.
Proof. unfold tryScript. destruct (a p) as [[[]|e] p']; reflexivity. Qed.

Lemma cleanup_documentOnly :
  documentOnly
    (andThen (fun p => if highlightBox p
                       then andThen (removeBox doc) (setHighlightBox false) p
                       else skip p)
       (andThen (removeListeners doc) (andThen (removePanel doc) (notifyPopup doc)))).
Proof.
  destruct doc_tame as (_ & _ & Hsend & Hbox & Hlis & Hpan).
  repeat first [ apply andThen_documentOnly | apply choice_documentOnly
               | apply tryScript_documentOnly | apply skip_documentOnly
               | apply setHighlightBox_documentOnly | assumption ].
Qed.

Lemma deactivateInspector_eq (p : Page Dom) :
  fst (deactivateInspector doc p) = Returned tt /\
  isActive (snd (deactivateInspector doc p)) = false /\
  perf (snd (deactivateInspector doc p)) = perf p.
Proof.
  split; [apply tryScript_skip_returns|].
  unfold deactivateInspector, tryScript.
  set (rest := andThen (fun p0 => if highlightBox p0
                                  then andThen (removeBox doc) (setHighlightBox false) p0
                                  else skip p0)
                 (andThen (removeListeners doc)
                    (andThen (removePanel doc) (notifyPopup doc)))).
  set (p1 := {| isActive := false; highlightBox := highlightBox p;
                dom := dom p; perf := perf p |}).
  change (andThen (setActive false) rest p) with (rest p1).
  destruct (cleanup_documentOnly p1) as (H1 & H2). fold rest in H1, H2.
  destruct (rest p1) as [[[]|e] p']; simpl in *; auto.
Qed.

Lemma setup_documentOnly :
  documentOnly
    (andThen (createHighlightBox doc) (andThen (addListeners doc) (notifyPopup doc))).
Proof.
  destruct doc_tame as (Hcreate & Hadd & Hsend & _).
  repeat first [ apply andThen_documentOnly | apply tryScript_documentOnly
               | apply skip_documentOnly | assumption ].
Qed.

Lemma activateInspector_eq (env : Browser) (p : Page Dom) :
  fst (activateInspector doc env p) = Returned tt /\
  perf (snd (activateInspector doc env p)) = exec (initWebVitals env) (perf p) /\
  (isActive (snd (activateInspector doc env p)) = true \/
   isActive (snd (activateInspector doc env p)) = false) /\
  ((forall q, returned (fst (addListeners doc q))) ->
   isActive (snd (activateInspector doc env p)) = true).
Proof.
  unfold activateInspector, tryScript.
  set (setup := andThen (createHighlightBox doc)
                  (andThen (addListeners doc) (notifyPopup doc))).
  set (p2 := {| isActive := true; highlightBox := highlightBox p; dom := dom p;
                perf := exec (initWebVitals env) (perf p) |}).
  assert (Hstart : andThen (setActive true)
                     (andThen (inPerformance (initWebVitals env)) setup) p
                   = setup p2).
  { unfold andThen at 1. unfold setActive. unfold andThen at 1.
    unfold inPerformance. cbn [perf isActive highlightBox dom].
    unfold p2, exec. rewrite initWebVitals_eq. reflexivity. }
  rewrite Hstart.
  destruct (setup_documentOnly p2) as (H1 & H2). fold setup in H1, H2.
  destruct (setup p2) as [[[]|e] p3] eqn:Hsetup; simpl in H1, H2.
  - simpl. repeat split; auto.
  - destruct (deactivateInspector_eq p3) as (Hr & Ha & Hp).
    split; [exact Hr|]. split; [now rewrite Hp|]. split; [now right|].
    intros Hnever. exfalso.
    unfold setup, andThen in Hsetup.
    unfold createHighlightBox, notifyPopup in Hsetup.
    pose proof (tryScript_skip_returns (createBox doc) p2) as Hc.
    destruct (tryScript (createBox doc) skip p2) as [[[]|e1] q1];
      [|discriminate Hc].
    specialize (Hnever q1).
    destruct (addListeners doc q1) as [[[]|e2] q2]; [|exact Hnever].
    pose proof (tryScript_skip_returns (sendMessage doc) q2) as Hn.
    rewrite Hsetup in Hn. discriminate Hn.
Qed.

Lemma toggleInspector_eq (env : Browser) (p : Page Dom) :
  toggleInspector doc env p =
  (Returned tt,
   snd (if isActive p then deactivateInspector doc p else activateInspector doc env p)).
Proof.
  unfold toggleInspector, tryScript.
  destruct (isActive p).
  - destruct (deactivateInspector_eq p) as (Hr & _).
    destruct (deactivateInspector doc p) as [o p']; simpl in *. now rewrite Hr.
  - destruct (activateInspector_eq env p) as (Hr & _).
    destruct (activateInspector doc env p) as [o p']; simpl in *. now rewrite Hr.
Qed.

Lemma activateInspector_active (env : Browser) (p : Page Dom) :
  let q := snd (createHighlightBox doc
                  {| isActive := true; highlightBox := highlightBox p;
                     dom := dom p; perf := exec (initWebVitals env) (perf p) |}) in
  isActive (snd (activateInspector doc env p)) =
  match fst (addListeners doc q) with
  | Returned _ => true
  | Thrown _ => false
  end.
Proof.
  intros q. unfold activateInspector, tryScript.
  set (setup := andThen (createHighlightBox doc)
                  (andThen (addListeners doc) (notifyPopup doc))).
  set (p2 := {| isActive := true; highlightBox := highlightBox p; dom := dom p;
                perf := exec (initWebVitals env) (perf p) |}).
  assert (Hstart : andThen (setActive true)
                     (andThen (inPerformance (initWebVitals env)) setup) p
                   = setup p2).
  { unfold andThen at 1. unfold setActive. unfold andThen at 1.
    unfold inPerformance. cbn [perf isActive highlightBox dom].
    unfold p2, exec. rewrite initWebVitals_eq. reflexivity. }
  rewrite Hstart. unfold setup, andThen. unfold q. fold p2.
  destruct doc_tame as (Hcreate & Hadd & Hsend & _).
  pose proof (tryScript_skip_returns (createBox doc) p2) as Hc1.
  pose proof (tryScript_documentOnly _ _ Hcreate skip_documentOnly p2) as (Hc2 & _).
  fold (createHighlightBox doc) in Hc1, Hc2.
  destruct (createHighlightBox doc p2) as [o1 q1]. cbn [fst snd] in Hc1, Hc2 |- *.
  subst o1. destruct (Hadd q1) as (Ha & _).
  destruct (addListeners doc q1) as [[[]|e] q2]; cbn [fst snd] in Ha |- *.
  - pose proof (tryScript_skip_returns (sendMessage doc) q2) as Hn1.
    pose proof (tryScript_documentOnly _ _ Hsend skip_documentOnly q2) as (Hn2 & _).
    fold (notifyPopup doc) in Hn1, Hn2.
    destruct (notifyPopup doc q2) as [o3 q3]. cbn [fst snd] in Hn1, Hn2 |- *.
    subst o3. cbn [snd]. now rewrite Hn2, Ha, Hc2.
  - apply deactivateInspector_eq.
Qed.

(** X21. The switch.  With document statements that keep to the document,
    [toggleInspector] never ends in a throw, whatever the document does;
    from the active state it always leaves the inspector inactive; from
    the inactive state it leaves it active when registering the listeners
    does not throw, and otherwise falls back to inactive: the inspector is
    then active exactly when the registration returned, on the page as the
    highlight box's creation left it. *)
Theorem toggle_switches_and_never_throws (env : Browser) (p : Page Dom) :
  let p' := snd (toggleInspector doc env p) in
  fst (toggleInspector doc env p) = Returned tt /\
  (isActive p = true -> isActive p' = false) /\
  ((forall q, returned (fst (addListeners doc q))) ->
   isActive p' = negb (isActive p)) /\
  (isActive p' = true -> isActive p = false) /\
  ((forall q, ~ returned (fst (addListeners doc q))) -> isActive p' = false) /\
  (isActive p = false ->
   let q := snd (createHighlightBox doc
                   {| isActive := true; highlightBox := highlightBox p;
                      dom := dom p; perf := exec (initWebVitals env) (perf p) |}) in
   isActive p' = match fst (addListeners doc q) with
                 | Returned _ => true
                 | Thrown _ => false
                 end).
Proof.
  intros p'. unfold p'. rewrite toggleInspector_eq. cbn [fst snd].
  destruct (deactivateInspector_eq p) as (_ & Hd & _).
  destruct (activateInspector_eq env p) as (_ & _ & Hcases & Ha).
  pose proof (activateInspector_active env p) as Hexact. cbv zeta in Hexact.
  split; [reflexivity|].
  destruct (isActive p); cbn [negb].
  - split; [auto|]. split; [auto|]. split; [rewrite Hd; discriminate|].
    split; [auto | discriminate].
  - split; [discriminate|]. split; [exact Ha|]. split; [auto|].
    split; [|intros _; exact Hexact].
    intros Hthrows. rewrite Hexact.
    match goal with |- context [addListeners doc ?q] => specialize (Hthrows q) end.
    destruct (fst (addListeners doc _)); [now contradiction Hthrows | reflexivity].
Qed.

(** X22. Switching the inspector off does not stop the measurement.
    [toggleInspector] from the active state leaves the performance module
    as it is: the store, the cache, the flag and every subscription stay.
    From the inactive state its whole effect on the module is that of
    [initWebVitals], also when the activation fails afterwards. *)
Theorem toggle_effect_on_vitals (env : Browser) (p : Page Dom) :
  perf (snd (toggleInspector doc env p)) =
  if isActive p then perf p else exec (initWebVitals env) (perf p).
Proof.
  rewrite toggleInspector_eq. simpl.
  destruct (deactivateInspector_eq p) as (_ & _ & Hd).
  destruct (activateInspector_eq env p) as (_ & Ha & _).
  destruct (isActive p); assumption.
Qed.

Lemma initWebVitals_subscribedOnce (env : Browser) (w : World) :
  subscribedOnce w -> subscribedOnce (exec (initWebVitals env) w).
Proof.
  intros (Hempty & Hone). unfold exec. rewrite initWebVitals_eq. simpl.
  destruct (vitalsObserversInitialized w) eqn:Hflag;
    [split; [rewrite Hflag; discriminate | exact Hone]|].
  destruct (hasPerformanceObserver env);
    [|split; [intros _; exact (Hempty eq_refl) | exact Hone]].
  specialize (Hempty eq_refl). destruct w as [c t f v obs n]. simpl in *. subst obs.
  unfold withTtfb, subscribe, subscribedOnce, subscriptions.
  destruct (navigationEntry env) as [[nav|]|e];
    destruct (observeSupported env largest_contentful_paint),
             (observeSupported env layout_shift),
             (observeSupported env first_input),
             (observeSupported env event);
    (split; [discriminate | intros ty; destruct ty; simpl; lia]).
Qed.

Lemma happen_subscribedOnce (ev : PageEvent) (p : Page Dom) :
  subscribedOnce (perf p) ->
  fst (happen doc ev p) = Returned tt /\
  subscribedOnce (perf (snd (happen doc ev p))).
Proof.
  intros Hinv. destruct ev as [env|d]; simpl.
  - rewrite toggleInspector_eq. split; [reflexivity|]. cbn [snd].
    destruct (deactivateInspector_eq p) as (_ & _ & Hd).
    destruct (activateInspector_eq env p) as (_ & Ha & _).
    destruct (isActive p); [now rewrite Hd|].
    rewrite Ha. now apply initWebVitals_subscribedOnce.
  - unfold inPerformance. rewrite deliver_eq. simpl. split; [reflexivity|].
    exact Hinv.
Qed.

(** X23. However often the inspector is switched on and off, on whatever
    platforms, and whatever is delivered in between, nothing throws and no
    entry type ever has more than one live subscription: re-activation
    does not subscribe again. *)
Theorem toggling_never_duplicates_observers (d : Dom) (evs : list PageEvent)
        (ty : EntryType) :
  fst (happenAll doc evs (initialPage d)) = Returned tt /\
  (subscriptions ty (perf (snd (happenAll doc evs (initialPage d)))) <= 1)%nat.
Proof.
  assert (Hgen : forall p, subscribedOnce (perf p) ->
                   fst (happenAll doc evs p) = Returned tt /\
                   subscribedOnce (perf (snd (happenAll doc evs p)))).
  { induction evs as [|ev evs IH]; intros p Hinv; simpl.
    - split; [reflexivity | exact Hinv].
    - unfold andThen. destruct (happen_subscribedOnce ev p Hinv) as (Hr & Hinv').
      destruct (happen doc ev p) as [o p1]. simpl in Hr, Hinv'. subst o.
      now apply IH. }
  destruct (Hgen (initialPage d)) as (Hr & _ & Hone).
  - split; [intros _; reflexivity | intros ty'; unfold subscriptions; simpl; lia].
  - split; [exact Hr | apply Hone].
Qed.

End InspectorFacts.

(** ** Malformed batches *)

Lemma upToNull_cut {E} (good : list E) (rest : list (option E)) :
  upToNull (map Some good ++ None :: rest)%list = good.
Proof. induction good as [|x l IH]; simpl; [reflexivity | now rewrite IH]. Qed.

Lemma iter_ext (n : nat) (f g : PerformanceMetrics -> PerformanceMetrics)
      (v : PerformanceMetrics) :
  (forall v', f v' = g v') -> Nat.iter n f v = Nat.iter n g v.
Proof.
  intros Hfg. induction n as [|n IH]; simpl; [reflexivity|].
  now rewrite IH, Hfg.
Qed.

Lemma deliver_same_step (d d' : Delivery) (w : World) :
  entryTypeOf d = entryTypeOf d' ->
  (forall v, vitalsStep d v = vitalsStep d' v) ->
  deliver d w = deliver d' w.
Proof.
  intros Hty Hstep. rewrite !deliver_eq. unfold deliveryEffect. rewrite Hty.
  now rewrite (iter_ext _ (vitalsStep d) (vitalsStep d') _ Hstep).
Qed.

Lemma deliver_nothing (d : Delivery) (w : World) :
  (forall v, vitalsStep d v = v) -> deliver d w = (Returned tt, w).
Proof.
  intros Hstep. rewrite deliver_eq. unfold deliveryEffect.
  rewrite (iter_keeps (fun v => v) (vitalsStep d) _ Hstep).
  now rewrite setVitals_same.
Qed.

(** X24. A malformed batch costs its own tail only.  In a layout-shift or
    event batch an element that is [null] ends the handling of the batch:
    the entries before it are taken as in a well-formed batch, those after
    it are dropped.  An LCP batch whose last element is [null], a
    first-input batch whose first element is [null], and any batch whose
    [getEntries] throws change nothing.  None of this throws. *)
Theorem null_entry_cuts_the_batch (w : World) :
  (forall (shifts : list LayoutShift) rest,
      deliver (layoutShifts (Returned (map Some shifts ++ None :: rest)%list)) w =
      deliver (layoutShifts (wellFormed shifts)) w) /\
  (forall (interactions : list EventTiming) rest,
      deliver (events (Returned (map Some interactions ++ None :: rest)%list)) w =
      deliver (events (wellFormed interactions)) w) /\
  (forall entries,
      deliver (lcpEntries (Returned (entries ++ [None])%list)) w = (Returned tt, w)) /\
  (forall entries,
      deliver (firstInputs (Returned (None :: entries))) w = (Returned tt, w)) /\
  (forall e,
      deliver (lcpEntries (Thrown e)) w = (Returned tt, w) /\
      deliver (layoutShifts (Thrown e)) w = (Returned tt, w) /\
      deliver (firstInputs (Thrown e)) w = (Returned tt, w) /\
      deliver (events (Thrown e)) w = (Returned tt, w)).
Proof.
  repeat split; intros.
  - apply deliver_same_step; [reflexivity|]. intros v. simpl.
    now rewrite upToNull_cut, upToNull_wellFormed.
  - apply deliver_same_step; [reflexivity|]. intros v. simpl.
    now rewrite upToNull_cut, upToNull_wellFormed.
  - apply deliver_nothing. intros v. simpl. now rewrite last_last.
  - apply deliver_nothing. reflexivity.
  - apply deliver_nothing. reflexivity.
  - apply deliver_nothing. reflexivity.
  - apply deliver_nothing. reflexivity.
  - apply deliver_nothing. reflexivity.
Qed.

(** * Worked examples of the further properties *)

(** A platform that refuses the LCP entry type. *)
Lemma unsupported_metric_stays_absent_witness :
  let env := {| hasPerformanceObserver := true;
                observeSupported := fun ty => negb (EntryType_eqb ty largest_contentful_paint);
                navigationEntry := Returned None;
                hasPerformance := true;
                allElements := Returned 1%nat;
                resourceEntries := Returned [];
                imgsWithoutAlt := Returned 0%nat |} in
  let w := exec (deliverAll sampleDeliveries) (exec (initWebVitals env) initialWorld) in
  hasPerformanceObserver env = true /\
  observeSupported env largest_contentful_paint = false /\
  lcp (observedVitals w) = None /\
  subscriptions layout_shift w = 1%nat /\
  observeSupported env first_input = true /\
  fid (observedVitals
         (exec (deliver (firstInputs (wellFormed [ {| processingStart := 350;
                                                      startTime := 100 |} ]))) w))
  = Some 250.
Proof.
  intros env w.
  destruct (unsupported_metric_stays_absent env largest_contentful_paint
              sampleDeliveries eq_refl eq_refl) as (Hlcp & _ & Hsubs & Hstep & _).
  split; [reflexivity|]. split; [reflexivity|].
  split; [exact Hlcp|]. split; [exact (Hsubs layout_shift)|].
  split; [reflexivity|].
  exact (f_equal fid
           (Hstep (firstInputs (wellFormed [ {| processingStart := 350;
                                                startTime := 100 |} ])) eq_refl)).
Defined.

Lemma observers_are_independent_witness :
  Forall (fun d => entryTypeOf d <> first_input)
         [ lcpEntries (wellFormed [ {| renderTime := 3000; loadTime := 2900 |} ]) ] /\
  fid (observedVitals
         (exec (deliverAll
                  [ lcpEntries (wellFormed [ {| renderTime := 3000; loadTime := 2900 |} ]) ])
               sampleWorld))
  = Some 250.
Proof.
  assert (H : Forall (fun d => entryTypeOf d <> first_input)
                [ lcpEntries (wellFormed [ {| renderTime := 3000; loadTime := 2900 |} ]) ])
    by (repeat constructor; discriminate).
  split; [exact H|].
  exact (proj2 (observers_are_independent _ sampleWorld first_input) H).
Defined.

Lemma no_observer_support_no_vitals_witness :
  let env := {| hasPerformanceObserver := false;
                observeSupported := fun _ => true;
                navigationEntry := navigationEntry samplePage;
                hasPerformance := true;
                allElements := Returned 1%nat;
                resourceEntries := Returned [];
                imgsWithoutAlt := Returned 0%nat |} in
  hasPerformanceObserver env = false /\
  exec (deliverAll sampleDeliveries) (exec (initWebVitals env) initialWorld)
  = initialWorld.
Proof.
  intros env. split; [reflexivity|].
  exact (proj2 (no_observer_support_no_vitals env initialWorld sampleDeliveries eq_refl)).
Defined.

Lemma ttfb_fixed_at_initialization_witness :
  hasPerformanceObserver samplePage = true /\
  ttfb (observedVitals sampleWorld) = Some (8001 # 10) /\
  ttfb (observedVitals (exec (initWebVitals brokenPage) sampleWorld)) = Some (8001 # 10).
Proof.
  split; [reflexivity|].
  exact (ttfb_fixed_at_initialization samplePage brokenPage sampleDeliveries eq_refl).
Defined.

Lemma inp_is_running_max_witness :
  hasPerformanceObserver samplePage = true /\
  observeSupported samplePage event = true /\
  isRunningMax [30; 50; 45; 90]
    (inp (observedVitals
            (exec (deliverAll
                     [ events (wellFormed [ {| duration := 30 |}; {| duration := 50 |};
                                            {| duration := 45 |}; {| duration := 90 |} ]) ])
                  (exec (initWebVitals samplePage) initialWorld)))).
Proof.
  split; [reflexivity|]. split; [reflexivity|].
  exact (inp_is_running_max samplePage
           [ events (wellFormed [ {| duration := 30 |}; {| duration := 50 |};
                                  {| duration := 45 |}; {| duration := 90 |} ]) ]
           eq_refl eq_refl).
Defined.

Lemma lcp_last_batch_wins_witness :
  subscriptions largest_contentful_paint sampleWorld <> O /\
  lcp (observedVitals
         (exec (deliverAll
                  ([ lcpEntries (wellFormed [ {| renderTime := 100; loadTime := 90 |} ]) ]
                   ++ lcpEntries (wellFormed [ {| renderTime := 0; loadTime := 1200 |} ])
                   :: [ lcpEntries (wellFormed []);
                        firstInputs (wellFormed []) ])%list)
               sampleWorld))
  = Some 1200.
Proof.
  assert (Hsub : subscriptions largest_contentful_paint sampleWorld <> O)
    by discriminate.
  split; [exact Hsub|].
  refine (proj1 (lcp_last_batch_wins sampleWorld
                   [ lcpEntries (wellFormed [ {| renderTime := 100; loadTime := 90 |} ]) ]
                   [ lcpEntries (wellFormed []); firstInputs (wellFormed []) ]
                   (wellFormed [ {| renderTime := 0; loadTime := 1200 |} ])
                   1200 Hsub eq_refl _)).
  repeat constructor.
Defined.

Lemma fid_last_batch_wins_witness :
  subscriptions first_input sampleWorld <> O /\
  fid (observedVitals
         (exec (deliverAll
                  ([] ++ firstInputs (wellFormed [ {| processingStart := 520;
                                                      startTime := 500 |} ])
                      :: [ firstInputs (Returned [None]) ])%list)
               sampleWorld))
  = Some 20.
Proof.
  assert (Hsub : subscriptions first_input sampleWorld <> O) by discriminate.
  split; [exact Hsub|].
  refine (proj1 (fid_last_batch_wins sampleWorld []
                   [ firstInputs (Returned [None]) ]
                   (wellFormed [ {| processingStart := 520; startTime := 500 |} ])
                   20 Hsub eq_refl _)).
  repeat constructor.
Defined.

Lemma cls_only_grows_witness :
  Forall (fun s => 0 <= value s) (flat_map shiftsHandled sampleDeliveries) /\
  cls (observedVitals sampleWorld)
  <= cls (observedVitals (exec (deliverAll sampleDeliveries) sampleWorld)).
Proof.
  assert (H : Forall (fun s => 0 <= value s) (flat_map shiftsHandled sampleDeliveries))
    by (repeat constructor; discriminate).
  split; [exact H|].
  exact (proj1 (cls_only_grows sampleWorld sampleDeliveries H)).
Defined.

Lemma layout_rule_witness :
  readable samplePage 10
    [ {| initiatorType := "img"; transferSize := Some 300000%N |};
      {| initiatorType := "script"; transferSize := Some 600000%N |};
      {| initiatorType := "css"; transferSize := Some 1000%N |} ] 2 /\
  exists snap x,
    result (calculatePerformanceMetrics integerToString samplePage) sampleWorld
    = Returned snap /\
    In x (warnings snap) /\ solution x = layoutSolution.
Proof.
  split; [exact samplePage_readable|].
  destruct (layout_rule integerToString samplePage sampleWorld _ _ _
              samplePage_readable) as (snap & Hs & Hiff & _).
  destruct (proj2 Hiff eq_refl) as (x & Hx).
  exists snap, x. split; [exact Hs | exact Hx].
Defined.

Lemma heavy_scripts_rule_witness :
  readable galleryPage 40 galleryResources 1 /\
  exists snap,
    result (calculatePerformanceMetrics integerToString galleryPage) sampleWorld
    = Returned snap /\
    warningsFor scriptsSolution (warnings snap) =
    [ {| title := "Heavy JavaScript detected (1270KB across 2 files)";
         solution := scriptsSolution;
         severity := medium |} ].
Proof.
  split; [exact galleryPage_readable|].
  destruct (heavy_scripts_rule integerToString galleryPage sampleWorld _ _ _
              galleryPage_readable)
    as (snap & sizes & Hs & _ & _ & _ & _ & _ & Hex & _).
  exists snap. split; [exact Hs|].
  exact (Hex {| initiatorType := "script"; transferSize := Some 600000%N |}
             {| initiatorType := "script"; transferSize := Some 700000%N |}
             eq_refl eq_refl eq_refl eq_refl).
Defined.

Lemma missing_alt_rule_witness :
  readable samplePage 10
    [ {| initiatorType := "img"; transferSize := Some 300000%N |};
      {| initiatorType := "script"; transferSize := Some 600000%N |};
      {| initiatorType := "css"; transferSize := Some 1000%N |} ] 2 /\
  exists snap x,
    result (calculatePerformanceMetrics integerToString samplePage) sampleWorld
    = Returned snap /\
    In x (warnings snap) /\ solution x = altSolution.
Proof.
  split; [exact samplePage_readable|].
  destruct (missing_alt_rule integerToString samplePage sampleWorld _ _ _
              samplePage_readable) as (snap & Hs & Hiff & _).
  destruct (proj2 Hiff ltac:(discriminate)) as (x & Hx).
  exists snap, x. split; [exact Hs | exact Hx].
Defined.

Lemma snapshot_counts_witness :
  readable galleryPage 40 galleryResources 1 /\
  exists snap,
    result (calculatePerformanceMetrics integerToString galleryPage) sampleWorld
    = Returned snap /\
    vitals snap = observedVitals sampleWorld /\
    totalNodes snap = 40%nat /\
    totalImages snap = 4%nat /\
    totalScripts snap = 2%nat /\
    totalStylesheets snap = 3%nat.
Proof.
  split; [exact galleryPage_readable|].
  destruct (snapshot_counts integerToString galleryPage sampleWorld _ _ _
              galleryPage_readable)
    as (snap & Hs & Hv & Hn & Hi & Hsc & Hst & _).
  exists snap. split; [exact Hs|]. split; [exact Hv|]. split; [exact Hn|].
  split; [exact Hi|]. split; [exact Hsc | exact Hst].
Defined.

Lemma snapshot_is_reused_within_window_witness :
  fresh sampleWorld 1000 = false /\
  (5999 - 1000 < 5000)%Z /\
  result (getPerformanceMetrics integerToString brokenPage 5999)
         (exec (deliverAll sampleDeliveries)
               (exec (getPerformanceMetrics integerToString samplePage 1000) sampleWorld))
  = result (getPerformanceMetrics integerToString samplePage 1000) sampleWorld.
Proof.
  split; [reflexivity|]. split; [reflexivity|].
  exact (proj1 (snapshot_is_reused_within_window integerToString samplePage brokenPage
                  1000 5999 sampleWorld sampleDeliveries eq_refl eq_refl)).
Defined.

Lemma getVitalStatus_classes_witness :
  getVitalStatus (Some 2500) 2500 4000 true = "ff-vital-needs-work" /\
  2500 <= 2500 /\ 2500 < 4000.
Proof.
  assert (H : 2500 <= 2500 /\ 2500 < 4000) by (split; [discriminate | reflexivity]).
  split; [|exact H].
  destruct (getVitalStatus_classes (Some 2500) 2500 4000 true) as (_ & _ & Hx).
  destruct (Hx 2500 eq_refl) as (_ & Hneeds & _).
  exact (proj2 Hneeds H).
Defined.

(** A snapshot taken when the largest paint was reported with both times
    zero and the response started with the request. *)
Lemma zero_vital_reads_not_available_witness :
  let zeroWorld :=
    exec (deliver (lcpEntries (wellFormed [ {| renderTime := 0; loadTime := 0 |} ])))
         (exec (initWebVitals samplePage) initialWorld) in
  lcp (observedVitals zeroWorld) = Some 0 /\
  exists snap,
    result (calculatePerformanceMetrics integerToString samplePage) zeroWorld
    = Returned snap /\
    lcpCell integerToString snap =
    {| cellClass := "ff-vital-good"; cellValue := "N/A"; cellStatus := "-" |}.
Proof.
  intros zeroWorld. split; [reflexivity|].
  eexists. split; [reflexivity|].
  destruct (zero_vital_reads_not_available integerToString
              (snapshotOf integerToString (observedVitals zeroWorld) 10
                 [ {| initiatorType := "img"; transferSize := Some 300000%N |};
                   {| initiatorType := "script"; transferSize := Some 600000%N |};
                   {| initiatorType := "css"; transferSize := Some 1000%N |} ] 2))
    as (_ & _ & _ & _ & Hzero & _).
  exact (Hzero 0 eq_refl (Qeq_refl 0)).
Defined.

Lemma good_cell_means_no_warning_witness :
  let calm := exec (initWebVitals samplePage) initialWorld in
  exists snap,
    result (calculatePerformanceMetrics integerToString samplePage) calm = Returned snap /\
    cellStatus (clsCell integerToString snap) = "Good" /\
    warningsFor layoutSolution (warnings snap) = [].
Proof.
  intros calm.
  destruct (good_cell_means_no_warning integerToString samplePage calm)
    as (snap & Hs & _ & Hcls & _).
  assert (Hsnap : snap = snapshotOf integerToString (observedVitals calm) 10
                    [ {| initiatorType := "img"; transferSize := Some 300000%N |};
                      {| initiatorType := "script"; transferSize := Some 600000%N |};
                      {| initiatorType := "css"; transferSize := Some 1000%N |} ] 2)
    by (injection Hs as <-; reflexivity).
  assert (Hgood : cellStatus (clsCell integerToString snap) = "Good")
    by (rewrite Hsnap; reflexivity).
  exists snap. split; [exact Hs|]. split; [exact Hgood|].
  exact (Hcls (or_intror Hgood)).
Defined.

Lemma quietDocument_tame : tame quietDocument.
Proof. repeat split. Defined.

Lemma brokenDocument_tame : tame brokenDocument.
Proof. repeat split. Defined.

Lemma toggle_switches_and_never_throws_witness :
  tame brokenDocument /\
  (forall q, ~ returned (fst (addListeners brokenDocument q))) /\
  fst (toggleInspector brokenDocument samplePage (initialPage tt)) = Returned tt /\
  isActive (snd (toggleInspector brokenDocument samplePage (initialPage tt))) = false /\
  tame quietDocument /\
  (forall q, returned (fst (addListeners quietDocument q))) /\
  isActive (snd (toggleInspector quietDocument samplePage (initialPage tt))) = true.
Proof.
  assert (Hthrows : forall q, ~ returned (fst (addListeners brokenDocument q)))
    by (intros q H; exact H).
  assert (Hreturns : forall q, returned (fst (addListeners quietDocument q)))
    by (intros q; exact I).
  split; [exact brokenDocument_tame|]. split; [exact Hthrows|].
  destruct (toggle_switches_and_never_throws brokenDocument brokenDocument_tame
              samplePage (initialPage tt)) as (Hr & _ & _ & _ & Hfail & _).
  split; [exact Hr|]. split; [exact (Hfail Hthrows)|].
  split; [exact quietDocument_tame|]. split; [exact Hreturns|].
  destruct (toggle_switches_and_never_throws quietDocument quietDocument_tame
              samplePage (initialPage tt)) as (_ & _ & Hflip & _).
  exact (Hflip Hreturns).
Defined.

Lemma toggle_effect_on_vitals_witness :
  tame quietDocument /\
  let on := snd (toggleInspector quietDocument samplePage (initialPage tt)) in
  isActive on = true /\
  perf (snd (toggleInspector quietDocument samplePage on)) = perf on.
Proof.
  split; [exact quietDocument_tame|]. intros on. split; [reflexivity|].
  exact (toggle_effect_on_vitals quietDocument quietDocument_tame samplePage on).
Defined.

Lemma toggling_never_duplicates_observers_witness :
  tame quietDocument /\
  (subscriptions layout_shift
     (perf (snd (happenAll quietDocument
                   [ toggled samplePage; delivered (layoutShifts (wellFormed []));
                     toggled samplePage; toggled samplePage ]
                   (initialPage tt)))) <= 1)%nat.
Proof.
  split; [exact quietDocument_tame|].
  exact (proj2 (toggling_never_duplicates_observers quietDocument quietDocument_tame tt
                  [ toggled samplePage; delivered (layoutShifts (wellFormed []));
                    toggled samplePage; toggled samplePage ] layout_shift)).
Defined.

(** * The CLS total and the reset, on the store functions *)

Lemma fold_addShift_cls (l : list LayoutShift) :
  forall v, cls (fold_left addShift l v) = fold_left Qplus (countedValues l) (cls v).
Proof.
  induction l as [|s l IH]; intros v; [reflexivity|].
  cbn [fold_left]. rewrite IH. unfold countedValues, addShift. cbn [filter].
  destruct (hadRecentInput s); reflexivity.
Qed.

Lemma countedValues_app (a b : list LayoutShift) :
  countedValues (a ++ b) = (countedValues a ++ countedValues b)%list.
Proof. unfold countedValues. now rewrite filter_app, map_app. Qed.

Lemma deliveryEffect_cls (w : World) (d : Delivery) (v : PerformanceMetrics) :
  subscriptions layout_shift w = 1%nat ->
  cls (deliveryEffect w d v) =
  fold_left Qplus (countedValues (shiftsHandled d)) (cls v).
Proof.
  intros Hone.
  assert (Hother : entryTypeOf d <> layout_shift -> shiftsHandled d = [] ->
                   cls (deliveryEffect w d v) =
                   fold_left Qplus (countedValues (shiftsHandled d)) (cls v)).
  { intros Hty ->.
    assert (H := deliveryEffect_others w d v layout_shift (or_introl Hty)).
    simpl in H. now injection H. }
  destruct d as [l|l|l|l]; try (apply Hother; [discriminate | reflexivity]).
  unfold deliveryEffect. simpl entryTypeOf. rewrite Hone.
  cbn [Nat.iter vitalsStep shiftsHandled]. apply fold_addShift_cls.
Qed.

Lemma storeAfter_cls (w : World) (ds : list Delivery) :
  subscriptions layout_shift w = 1%nat ->
  forall v,
    cls (fold_left (fun v d => deliveryEffect w d v) ds v) =
    fold_left Qplus (countedValues (flat_map shiftsHandled ds)) (cls v).
Proof.
  intros Hone. induction ds as [|d ds IH]; intros v; [reflexivity|].
  cbn [fold_left flat_map]. rewrite IH, countedValues_app, fold_left_app.
  now rewrite (deliveryEffect_cls w d v Hone).
Qed.

Lemma wellFormed_batches (batches : list (list LayoutShift)) :
  flat_map shiftsHandled (map (fun b => layoutShifts (wellFormed b)) batches)
  = List.concat batches.
Proof.
  induction batches as [|b bs IH]; simpl; [reflexivity|].
  now rewrite upToNull_wellFormed, IH.
Qed.

(** C3. After initialization on a platform that supports the layout-shift
    observer, [cls] is 0, and after any run of deliveries (layout-shift
    batches, mixed with batches for the other observers) it is what adding
    to 0, one at a time and in the order of delivery, the values of exactly
    the handled layout-shift entries whose [hadRecentInput] is false gives;
    entries with [hadRecentInput] true add nothing.  In a batch of
    well-formed entries every entry is handled.  No law of arithmetic is
    used: the additions are the callback's own, in its order. *)
Theorem cls_is_sum (env : Browser) (ds : list Delivery)
        (batches : list (list LayoutShift)) :
  hasPerformanceObserver env = true ->
  observeSupported env layout_shift = true ->
  let w0 := exec (initWebVitals env) initialWorld in
  cls (observedVitals w0) = 0 /\
  cls (observedVitals
         (exec (deliverAll (map (fun b => layoutShifts (wellFormed b)) batches)) w0))
    = addedUp (countedValues (List.concat batches)) /\
  cls (observedVitals (exec (deliverAll ds) w0))
    = addedUp (countedValues (flat_map shiftsHandled ds)) /\
  (forall s rest,
      countedValues (s :: rest) =
      if hadRecentInput s then countedValues rest
      else value s :: countedValues rest) /\
  countedValues [] = [] /\
  addedUp [] = 0 /\
  (forall values v, addedUp (values ++ [v]) = addedUp values + v).
Proof.
  intros Hpo Hcls w0.
  assert (Hone : subscriptions layout_shift w0 = 1%nat)
    by (unfold w0; rewrite initWebVitals_subscriptions, Hpo, Hcls; reflexivity).
  assert (Hzero : cls (observedVitals w0) = 0).
  { destruct (initWebVitals_fields env layout_shift Hpo) as (H & _).
    simpl in H. now injection H. }
  assert (Hrun : forall run,
             cls (observedVitals (exec (deliverAll run) w0))
             = addedUp (countedValues (flat_map shiftsHandled run))).
  { intros run. unfold exec. rewrite deliverAll_eq. cbn [snd setVitals observedVitals].
    unfold storeAfter. rewrite (storeAfter_cls w0 run Hone), Hzero. reflexivity. }
  split; [exact Hzero|]. split; [|split; [apply Hrun|]].
  - rewrite Hrun, wellFormed_batches. reflexivity.
  - repeat split.
    + intros s rest. unfold countedValues. cbn [filter].
      destruct (hadRecentInput s); reflexivity.
    + intros values v. unfold addedUp. now rewrite fold_left_app.
Qed.

Lemma cls_is_sum_witness :
  hasPerformanceObserver samplePage = true /\
  observeSupported samplePage layout_shift = true /\
  cls (observedVitals
         (exec (deliverAll
                  (map (fun b => layoutShifts (wellFormed b))
                       [ [ {| hadRecentInput := false; value := 1 # 4 |};
                           {| hadRecentInput := true; value := 1 |} ];
                         [ {| hadRecentInput := false; value := 1 # 2 |} ] ]))
               (exec (initWebVitals samplePage) initialWorld)))
  = 0 + (1 # 4) + (1 # 2).
Proof.
  split; [reflexivity|]. split; [reflexivity|].
  exact (proj1 (proj2
           (cls_is_sum samplePage []
              [ [ {| hadRecentInput := false; value := 1 # 4 |};
                  {| hadRecentInput := true; value := 1 |} ];
                [ {| hadRecentInput := false; value := 1 # 2 |} ] ]
              eq_refl eq_refl))).
Defined.

(** C8, as the code has it.  [resetWebVitals] puts the store back to all
    absent and zero together with the flag and the cache, in one step that
    cannot fail half-way, and leaves the subscriptions as they are: it
    stops none.  Entries delivered after the reset still reach the store:
    with the layout-shift subscription live, [cls] restarts from 0 and is
    what adding to 0, in the order of delivery, the values of the handled
    layout shifts without recent input gives; with an LCP subscription
    live, an LCP batch stores its value in [lcp]. *)
Theorem reset_keeps_subscriptions (w : World) (ds : list Delivery)
        (entryList : EntryList LcpEntry) (x : Q) :
  let w0 := exec resetWebVitals w in
  result resetWebVitals w = Returned tt /\
  observedVitals w0 = noVitals /\
  vitalsObserversInitialized w0 = false /\
  cachedPerformanceMetrics w0 = None /\
  observers w0 = observers w /\
  (forall ty, subscriptions ty w0 = subscriptions ty w) /\
  (oneClsObserver w ->
   cls (observedVitals (exec (deliverAll ds) w0))
   = addedUp (countedValues (flat_map shiftsHandled ds))) /\
  (subscriptions largest_contentful_paint w <> O ->
   lcpWritten entryList = Some x ->
   lcp (observedVitals (exec (deliver (lcpEntries entryList)) w0)) = Some x).
Proof.
  intros w0. repeat match goal with |- _ /\ _ => split end; try reflexivity.
  - intros Hone.
    assert (Hsub : subscriptions layout_shift w0 = 1%nat).
    { unfold subscriptions. change (observers w0) with (observers w).
      unfold oneClsObserver in Hone. now rewrite Hone. }
    unfold exec at 1. rewrite deliverAll_eq. cbn [snd setVitals observedVitals].
    unfold storeAfter. rewrite (storeAfter_cls w0 ds Hsub). reflexivity.
  - intros Hsub Hx. unfold exec. rewrite deliver_eq.
    cbn [snd setVitals observedVitals]. unfold deliveryEffect.
    apply iter_const_set; [exact Hsub|].
    intros v'. simpl. rewrite Hx. reflexivity.
Qed.

Lemma reset_keeps_subscriptions_witness :
  oneClsObserver sampleWorld /\
  cls (observedVitals sampleWorld) == 12345 # 100000 /\
  cls (observedVitals
         (exec (deliverAll
                  [ layoutShifts (wellFormed [ {| hadRecentInput := false;
                                                  value := 1 # 4 |};
                                               {| hadRecentInput := true;
                                                  value := 1 |} ]);
                    layoutShifts (wellFormed [ {| hadRecentInput := false;
                                                  value := 1 # 2 |} ]) ])
               (exec resetWebVitals sampleWorld)))
  = 0 + (1 # 4) + (1 # 2) /\
  subscriptions largest_contentful_paint sampleWorld <> O /\
  lcp (observedVitals
         (exec (deliver (lcpEntries (wellFormed [ {| renderTime := 1200;
                                                      loadTime := 0 |} ])))
               (exec resetWebVitals sampleWorld)))
  = Some 1200.
Proof.
  assert (Hsub : subscriptions largest_contentful_paint sampleWorld <> O)
    by discriminate.
  destruct (reset_keeps_subscriptions sampleWorld
              [ layoutShifts (wellFormed [ {| hadRecentInput := false;
                                              value := 1 # 4 |};
                                           {| hadRecentInput := true;
                                              value := 1 |} ]);
                layoutShifts (wellFormed [ {| hadRecentInput := false;
                                              value := 1 # 2 |} ]) ]
              (wellFormed [ {| renderTime := 1200; loadTime := 0 |} ]) 1200)
    as (_ & _ & _ & _ & _ & _ & Hcls & Hlcp).
  split; [reflexivity|]. split; [reflexivity|].
  split; [exact (Hcls eq_refl)|].
  split; [exact Hsub | exact (Hlcp Hsub eq_refl)].
Defined.
